(** * A shallow embedding of the query pipeline of [agent_core]

    The development follows the three source files of the core:
    [data_loader.py] (the query engine over the ledger table),
    [graph_nodes.py] (the five nodes of the workflow and its router) and
    [graph_builder.py] / [orchestrator.py] (the graph and the entry point).

    Python text is modelled by [string] (the bytes of the text; the text
    operations are those of ASCII text), Python integers by [Z], Python
    floats by the kernel's
    binary64 [float], dictionaries by association lists in insertion order,
    exceptions by an explicit [result] type. *)

From Stdlib Require Import ZArith List String Ascii Bool Lia.
From Stdlib Require Import Numbers.DecimalString.
From Stdlib Require Import Floats.PrimFloat Floats.FloatOps Floats.SpecFloat.
From Stdlib Require Floats.FloatAxioms.
Import ListNotations.

Set Warnings "-register-all".

Local Open Scope list_scope.
Local Open Scope Z_scope.
Local Open Scope string_scope.

(** ** Python text operations *)

Module PyStr.

Definition chars_of : string -> list ascii := list_ascii_of_string.
Definition of_chars : list ascii -> string := string_of_list_ascii.

(** [str.lower()] on ASCII text: only the letters A..Z change. *)
Definition lower_ascii (c : ascii) : ascii :=
  let n := nat_of_ascii c in
  if ((65 <=? n) && (n <=? 90))%nat then ascii_of_nat (n + 32) else c.

Fixpoint lower (s : string) : string :=
  match s with
  | EmptyString => EmptyString
  | String c t => String (lower_ascii c) (lower t)
  end.

(** [str.isspace()] on one ASCII character: tab, line feed, vertical tab,
    form feed, carriage return, the four separators 28..31 and the space.
    The regular-expression class [\s] of a text pattern is the same set. *)
Definition is_space (c : ascii) : bool :=
  let n := nat_of_ascii c in
  (((9 <=? n) && (n <=? 13)) || ((28 <=? n) && (n <=? 32)))%nat.

(** the class [\d] (and [[0-9]]) on ASCII text *)
Definition is_digit (c : ascii) : bool :=
  let n := nat_of_ascii c in ((48 <=? n) && (n <=? 57))%nat.

Fixpoint lstrip (s : string) : string :=
  match s with
  | EmptyString => EmptyString
  | String c t => if is_space c then lstrip t else s
  end.

Fixpoint rstrip (s : string) : string :=
  match s with
  | EmptyString => EmptyString
  | String c t =>
      match rstrip t with
      | EmptyString => if is_space c then EmptyString else String c EmptyString
      | t' => String c t'
      end
  end.

(** [str.strip()] *)
Definition strip (s : string) : string := rstrip (lstrip s).

(** [sub in s] for two texts *)
Fixpoint contains (sub s : string) : bool :=
  String.prefix sub s ||
  match s with
  | EmptyString => false
  | String _ t => contains sub t
  end.

(** [any(k in s for k in ks)] *)
Definition any_in (ks : list string) (s : string) : bool :=
  existsb (fun k => contains k s) ks.

(** [s.replace(old, new)] for a non-empty [old]: occurrences are replaced
    from the left and do not overlap.  [skip] counts the characters of an
    occurrence that were already consumed. *)
Fixpoint replace_from (old new : string) (skip : nat) (s : string) : string :=
  match s with
  | EmptyString => EmptyString
  | String c t =>
      match skip with
      | S k => replace_from old new k t
      | O =>
          if String.prefix old s
          then new ++ replace_from old new (String.length old - 1) t
          else String c (replace_from old new O t)
      end
  end.

Definition replace (old new s : string) : string := replace_from old new O s.

(** [sep.join(parts)] *)
Fixpoint join (sep : string) (parts : list string) : string :=
  match parts with
  | [] => EmptyString
  | [p] => p
  | p :: ps => p ++ sep ++ join sep ps
  end.

(** [str(n)] and [f"{n}"] for an integer *)
Definition of_int (z : Z) : string := NilZero.string_of_int (Z.to_int z).

(** [f"{n:02d}"]: zero padding to width two; a longer text, or a negative
    number (whose sign fills the width), is left as it is. *)
Definition pad2 (z : Z) : string :=
  let s := of_int z in
  if (String.length s <? 2)%nat then "0" ++ s else s.

(** thousands separators of the [,] format option, over a digit text *)
Fixpoint group3 (digits : string) : string :=
  match digits with
  | EmptyString => EmptyString
  | String c t =>
      let n := String.length t in
      if ((0 <? n) && (Nat.modulo n 3 =? 0))%nat
      then String c ("," ++ group3 t)
      else String c (group3 t)
  end.

(** [f"{n:,}"] for an integer *)
Definition fmt_int (z : Z) : string :=
  if (z <? 0)%Z then "-" ++ group3 (of_int (- z)) else group3 (of_int z).

(** [int(s)] for a text of ASCII digits *)
Definition int_of_digits (s : string) : Z :=
  fold_left (fun acc c => 10 * acc + (Z.of_nat (nat_of_ascii c) - 48))
            (chars_of s) 0.

(** the leading run of characters satisfying [p], and the rest *)
Fixpoint span (p : ascii -> bool) (s : string) : string * string :=
  match s with
  | EmptyString => (EmptyString, EmptyString)
  | String c t =>
      if p c then let '(a, b) := span p t in (String c a, b)
      else (EmptyString, s)
  end.

Fixpoint drop (n : nat) (s : string) : string :=
  match n, s with
  | O, _ => s
  | S k, String _ t => drop k t
  | S _, EmptyString => EmptyString
  end.

End PyStr.

(** ** Floats: sums and fixed-point formatting *)

Module PyFloat.

(** [float(n)] for an integer: the nearest binary64 value *)
Definition of_Z (z : Z) : float :=
  SF2Prim (binary_normalize FloatOps.prec FloatOps.emax z 0 false).

Definition is_nan (x : float) : bool := negb (PrimFloat.eqb x x).

(** The column reduction [Series.sum()], taken here from left to right
    starting at zero. *)
Definition series_sum (xs : list float) : float :=
  fold_left PrimFloat.add xs 0%float.

(** nearest integer to [num / den], ties to even ([num >= 0], [den > 0]) *)
Definition round_half_even (num den : Z) : Z :=
  let q := num / den in
  let r := num mod den in
  match Z.compare (2 * r) den with
  | Lt => q
  | Gt => q + 1
  | Eq => if Z.even q then q else q + 1
  end.

(** hundredths of [m * 2^e], correctly rounded *)
Definition cents (m : positive) (e : Z) : Z :=
  if (0 <=? e)%Z then Zpos m * 2 ^ e * 100
  else round_half_even (Zpos m * 100) (2 ^ (- e)).

Definition fmt_cents (neg : bool) (c : Z) : string :=
  (if neg then "-" else EmptyString)
    ++ PyStr.group3 (PyStr.of_int (c / 100)) ++ "." ++ PyStr.pad2 (c mod 100).

(** [f"{x:,.2f}"] *)
Definition fmt_2f (x : float) : string :=
  match Prim2SF x with
  | S754_zero s => if s then "-0.00" else "0.00"
  | S754_infinity s => if s then "-inf" else "inf"
  | S754_nan => "nan"
  | S754_finite s m e => fmt_cents s (cents m e)
  end.

End PyFloat.

(** ** Python values, dictionaries and exceptions *)

(** The values [json.loads] produces, which are also the values the nodes
    store under [extracted_params]. *)
Inductive json : Type :=
| JNull
| JBool (b : bool)
| JInt (z : Z)
| JFloat (x : float)
| JStr (s : string)
| JList (l : list json)
| JObj (kv : list (string * json)).

(** A dictionary with text keys, in insertion order. *)
Definition dict (V : Type) : Type := list (string * V).

Fixpoint dict_get {V : Type} (k : string) (d : dict V) : option V :=
  match d with
  | [] => None
  | (k', v) :: t => if String.eqb k k' then Some v else dict_get k t
  end.

Definition dict_has {V : Type} (k : string) (d : dict V) : bool :=
  match dict_get k d with Some _ => true | None => false end.

(** [d[k] = v]: an existing key keeps its place, a new key goes last. *)
Fixpoint dict_set {V : Type} (k : string) (v : V) (d : dict V) : dict V :=
  match d with
  | [] => [(k, v)]
  | (k', v') :: t =>
      if String.eqb k k' then (k, v) :: t else (k', v') :: dict_set k v t
  end.

(** Truth value of a Python object, as [not x], [x or y] and [if x] read it. *)
Definition truthy (v : json) : bool :=
  match v with
  | JNull => false
  | JBool b => b
  | JInt z => negb (z =? 0)%Z
  | JFloat x => negb (PrimFloat.eqb x 0%float)
  | JStr s => negb (String.eqb s EmptyString)
  | JList l => match l with [] => false | _ => true end
  | JObj kv => match kv with [] => false | _ => true end
  end.

(** [type(v).__name__] *)
Definition type_name (v : json) : string :=
  match v with
  | JNull => "NoneType"
  | JBool _ => "bool"
  | JInt _ => "int"
  | JFloat _ => "float"
  | JStr _ => "str"
  | JList _ => "list"
  | JObj _ => "dict"
  end.

Inductive exn_kind : Type :=
| ValueError | DatasetConfigError | FileNotFoundError | ReError
| AttributeError | TypeError | KeyError | IndexError | ModelError
| GraphRecursionError | RecursionError.

(** A raised exception: its class and [str(e)]. *)
Record exn : Type := Exn { exn_class : exn_kind; exn_str : string }.

(** What a call does: it returns, it raises, or its arguments have a shape
    outside the data model of the pipeline (a parameter whose Python type is
    not the one the node expects), which this development does not follow. *)
Inductive result (A : Type) : Type :=
| Ok (a : A)
| Raise (e : exn)
| Unmodelled.

Arguments Ok {A} a.
Arguments Raise {A} e.
Arguments Unmodelled {A}.

Definition bind {A B : Type} (r : result A) (k : A -> result B) : result B :=
  match r with
  | Ok a => k a
  | Raise e => Raise e
  | Unmodelled => Unmodelled
  end.

Notation "x <- e ;; k" := (bind e (fun x => k))
  (at level 61, e at next level, right associativity).

(** ** The ledger table *)

(** One value of a column of mixed content; a missing value is the float
    NaN, as in a data frame. *)
Inductive cell : Type :=
| CStr (s : string)
| CInt (z : Z)
| CFloat (x : float).

(** One record of the table after [get_assets_df] has cleaned it: [profit]
    is a float with missing values replaced by zero, [year] is numeric (NaN
    when missing) and [month] is text.  Columns beyond the required twelve
    are kept in [other]. *)
Record row : Type := Row {
  entity_name : cell;
  property_name : cell;
  tenant_name : cell;
  ledger_type : cell;
  ledger_group : cell;
  ledger_category : cell;
  ledger_code : cell;
  ledger_description : cell;
  month : string;
  quarter : cell;
  year : float;
  profit : float;
  other : dict cell
}.

Record DataFrame : Type := Frame {
  columns : list string;
  rows : list row
}.

(** What a call of the chat model does: it raises, or it returns a message
    whose content is a text. *)
Inductive llm_reply : Type :=
| LlmRaised (e : exn)
| LlmText (content : string).

(** What [json.loads] does with a text: it returns the decoded value, it
    raises [json.JSONDecodeError], or it raises another exception (the
    [RecursionError] of a text nested too deep, the plain [ValueError] of
    an integer of too many digits). *)
Inductive loads_result : Type :=
| Loaded (v : json)
| JSONDecodeError (msg : string)
| LoadsRaised (e : exn).

(** What lies outside the repository: the library functions the code calls
    (the JSON decoder, the regular-expression engine, the printing of
    floats, the grouping and counting of pandas), the chat model, and the
    dataset file. *)
Record Runtime : Type := {
  (** [json.loads] *)
  json_loads : string -> loads_result;
  (** [re.compile(pat, re.IGNORECASE).search] for a pattern that has a
      regular-expression metacharacter: the message of [re.error], or the
      search as a predicate on the searched text *)
  re_search_ci : string -> string + (string -> bool);
  (** [str(x)] of a float that is not NaN *)
  float_repr : float -> string;
  (** [float(s)] of a text: [None] stands for the [ValueError] *)
  float_of_text : string -> option float;
  (** [groupby(key)[value].sum().to_dict()] over the (key, value) pairs *)
  groupby_sum : list (cell * float) -> list (cell * float);
  (** [Series.sort_values(ascending=False)] *)
  sort_values_desc : list (cell * float) -> list (cell * float);
  (** [Series.value_counts().to_dict()] *)
  value_counts : list cell -> list (cell * Z);
  (** [str(v)] of a list or of a dictionary *)
  container_repr : json -> string;
  (** iteration order of [set(keys)] *)
  set_iter : list string -> list string;
  (** [init_chat_model(model=model_name, model_provider=provider,
      temperature=0.0, **llm_kwargs)], given the name of the model, the
      provider and the keyword arguments: the exception it raises, or
      [None] when it returns the chat model, whose calls are [invoke] *)
  init_chat_model : option string -> option string -> dict json -> option exn;
  (** [llm.invoke([SystemMessage(system), HumanMessage(human)])] *)
  invoke : string -> string -> llm_reply;
  (** [agent_core.config.DATA_PATH] and the table read from it, if the file
      exists *)
  DATA_PATH : string;
  data_file : option DataFrame
}.

(** the line feed of the answer templates *)
Definition nl : string := String (ascii_of_nat 10) EmptyString.

(** ** [agent_core/data_loader.py] *)

Module data_loader.

Definition REQUIRED_COLUMNS : list string :=
  [ "entity_name"; "property_name"; "tenant_name"; "ledger_type";
    "ledger_group"; "ledger_category"; "ledger_code"; "ledger_description";
    "month"; "quarter"; "year"; "profit" ].

Definition PROPERTY_COLUMN : string := "property_name".
Definition TENANT_COLUMN : string := "tenant_name".
Definition VALUE_COLUMN : string := "profit".
Definition YEAR_COLUMN : string := "year".
Definition MONTH_COLUMN : string := "month".

(** [col in df.columns] *)
Definition has_column (df_columns : list string) (col : string) : bool :=
  existsb (String.eqb col) df_columns.

(** [row[col]]: the required columns are the fields of the record. *)
Definition row_get (col : string) (r : row) : cell :=
  if String.eqb col "entity_name" then entity_name r
  else if String.eqb col "property_name" then property_name r
  else if String.eqb col "tenant_name" then tenant_name r
  else if String.eqb col "ledger_type" then ledger_type r
  else if String.eqb col "ledger_group" then ledger_group r
  else if String.eqb col "ledger_category" then ledger_category r
  else if String.eqb col "ledger_code" then ledger_code r
  else if String.eqb col "ledger_description" then ledger_description r
  else if String.eqb col "month" then CStr (month r)
  else if String.eqb col "quarter" then quarter r
  else if String.eqb col "year" then CFloat (year r)
  else if String.eqb col "profit" then CFloat (profit r)
  else match dict_get col (other r) with
       | Some v => v
       | None => CFloat PrimFloat.nan
       end.

(** [isna] of one value *)
Definition cell_isna (c : cell) : bool :=
  match c with CFloat x => PyFloat.is_nan x | _ => false end.

(** the characters a regular expression reads as operators *)
Definition regex_meta (c : ascii) : bool :=
  existsb (Ascii.eqb c) (PyStr.chars_of ".^$*+?{}[]\|()").

Definition literal_pattern (pat : string) : bool :=
  forallb (fun c => negb (regex_meta c)) (PyStr.chars_of pat).

(** The dataset operations, over the interpreter's library functions. *)
Section Engine.

Variable rt : Runtime.

(** one element of [Series.astype(str)] *)
Definition cell_str (c : cell) : string :=
  match c with
  | CStr s => s
  | CInt z => PyStr.of_int z
  | CFloat x => if PyFloat.is_nan x then "nan" else float_repr rt x
  end.

(** [Series.str.contains(pat, case=False, na=False)] on a column of text.
    pandas compiles [pat] as a regular expression ([regex=True] is the
    default) with [re.IGNORECASE] and searches each value: for a pattern
    without metacharacter that is a case-insensitive substring test, for
    any other pattern the interpreter's [re] decides (or raises). *)
Definition str_contains (pat : string) : result (string -> bool) :=
  if literal_pattern pat
  then Ok (fun s => PyStr.contains (PyStr.lower pat) (PyStr.lower s))
  else match re_search_ci rt pat with
       | inl msg => Raise (Exn ReError msg)
       | inr search => Ok search
       end.

Definition _validate_columns (df : DataFrame) : result unit :=
  let missing :=
    filter (fun col => negb (has_column (columns df) col)) REQUIRED_COLUMNS in
  match missing with
  | [] => Ok tt
  | _ => Raise (Exn DatasetConfigError
                  ("Dataset is missing required columns: "
                     ++ PyStr.join ", " missing))
  end.

(** The cached table.  The conversions of [profit], [year] and [month]
    are in the types of [row]. *)
Definition get_assets_df : result DataFrame :=
  match data_file rt with
  | None =>
      Raise (Exn FileNotFoundError ("Dataset file not found at " ++ DATA_PATH rt))
  | Some df => _ <- _validate_columns df ;; Ok df
  end.

Definition _filter_by_property (df : DataFrame) (property_query : string)
  : result (list row) :=
  mask <- str_contains property_query ;;
  Ok (filter (fun r => mask (cell_str (property_name r))) (rows df)).

(** [Series.unique()]: the distinct values in order of first appearance *)
Fixpoint unique (l : list string) : list string :=
  match l with
  | [] => []
  | x :: t => x :: filter (fun y => negb (String.eqb x y)) (unique t)
  end.

Record asset_summary : Type := {
  s_property_name : cell;
  s_entity_name : cell;
  s_total_records : Z;
  s_total_profit : float;
  s_tenants : list string;
  s_ledger_totals : list (cell * float)
}.

Definition get_single_asset (property_query : string)
  : result (option asset_summary) :=
  df <- get_assets_df ;;
  subset <- _filter_by_property df property_query ;;
  match subset with
  | [] => Ok None
  | first :: _ =>
      let tenants :=
        unique (map cell_str
                    (filter (fun c => negb (cell_isna c))
                            (map tenant_name subset))) in
      let ledger_totals :=
        sort_values_desc rt
          (groupby_sum rt (map (fun r => (ledger_type r, profit r)) subset)) in
      Ok (Some {| s_property_name := property_name first;
                  s_entity_name := entity_name first;
                  s_total_records := Z.of_nat (List.length subset);
                  s_total_profit := PyFloat.series_sum (map profit subset);
                  s_tenants := tenants;
                  s_ledger_totals := ledger_totals |})
  end.

Record asset_value : Type := {
  v_property_name : cell;
  v_value : float;
  v_records : Z
}.

Record comparison : Type := {
  asset_1 : asset_value;
  asset_2 : asset_value;
  difference : float
}.

Definition _aggregate_value (df : DataFrame) (property_query : string)
  : result asset_value :=
  subset <- _filter_by_property df property_query ;;
  match subset with
  | [] =>
      Raise (Exn ValueError
               ("Property with name like '" ++ property_query
                  ++ "' not found in dataset."))
  | first :: _ =>
      Ok {| v_property_name := property_name first;
            v_value := PyFloat.series_sum (map profit subset);
            v_records := Z.of_nat (List.length subset) |}
  end.

Definition compare_assets_by_price (address1 address2 : string)
  : result comparison :=
  df <- get_assets_df ;;
  asset_1 <- _aggregate_value df address1 ;;
  asset_2 <- _aggregate_value df address2 ;;
  let diff := PrimFloat.sub (v_value asset_1) (v_value asset_2) in
  Ok {| asset_1 := asset_1; asset_2 := asset_2; difference := diff |}.

(** The [month] argument: an integer, or the text a model may have put
    there. *)
Inductive month_arg : Type :=
| MonthInt (z : Z)
| MonthStr (s : string).

(** [f"{month:02d}"] *)
Definition fmt_month_02d (m : month_arg) : result string :=
  match m with
  | MonthInt z => Ok (PyStr.pad2 z)
  | MonthStr _ =>
      Raise (Exn ValueError "Unknown format code 'd' for object of type 'str'")
  end.

(** [f"{year}"] for an optional integer *)
Definition fmt_year (y : option Z) : string :=
  match y with Some z => PyStr.of_int z | None => "None" end.

Definition MONTH_NEEDS_YEAR : string :=
  "To filter by month, you must also specify the year (e.g., 'January 2025').".

(** [subset[YEAR_COLUMN] == year] and [subset[MONTH_COLUMN] == month_str],
    row by row *)
Definition year_is (y : Z) (r : row) : bool :=
  PrimFloat.eqb (year r) (PyFloat.of_Z y).

Definition month_is (month_str : string) (r : row) : bool :=
  String.eqb (month r) month_str.

(** The first part of [compute_total_pnl]: the rows left by the two filters. *)

Definition pnl_subset (df : DataFrame) (year : option Z) (month : option month_arg)
  : result (list row) :=
  let subset := rows df in
  let subset :=
    match year with
    | Some y => filter (year_is y) subset
    | None => subset
    end in
  match month with
  | Some m =>
      match year with
      | None => Raise (Exn ValueError MONTH_NEEDS_YEAR)
      | Some _ =>
          mm <- fmt_month_02d m ;;
          let month_str := fmt_year year ++ "-M" ++ mm in
          Ok (filter (month_is month_str) subset)
      end
  | None => Ok subset
  end.

Definition compute_total_pnl (year : option Z) (month : option month_arg)
  : result float :=
  df <- get_assets_df ;;
  subset <- pnl_subset df year month ;;
  match subset with
  | [] =>
      time_period <-
        match month with
        | None => Ok (fmt_year year)
        | Some m => mm <- fmt_month_02d m ;; Ok (fmt_year year ++ "-M" ++ mm)
        end ;;
      Raise (Exn ValueError
               ("No financial records found for the period: "
                  ++ time_period ++ "."))
  | _ => Ok (PyFloat.series_sum (map profit subset))
  end.

(** [cell == value] for a filter value that is not text: numbers compare by
    value, [True] and [False] as one and zero, and nothing equals [None]. *)
Definition cell_eq_num (c : cell) (v : json) : bool :=
  match c, v with
  | CInt a, JInt z => (a =? z)%Z
  | CInt a, JBool b => (a =? (if b then 1 else 0))%Z
  | CInt a, JFloat x => PrimFloat.eqb (PyFloat.of_Z a) x
  | CFloat f, JInt z => PrimFloat.eqb f (PyFloat.of_Z z)
  | CFloat f, JBool b => PrimFloat.eqb f (if b then 1%float else 0%float)
  | CFloat f, JFloat x => PrimFloat.eqb f x
  | _, _ => false
  end.

(** The loop over [filters.items()]: each entry whose key is a column
    narrows the subset; the other entries are passed over. *)
Fixpoint apply_filters (df_columns : list string) (filters : dict json)
         (subset : list row) : result (list row) :=
  match filters with
  | [] => Ok subset
  | (column, value) :: rest =>
      if has_column df_columns column then
        match value with
        | JStr s =>
            mask <- str_contains s ;;
            apply_filters df_columns rest
              (filter (fun r => mask (cell_str (row_get column r))) subset)
        | JList _ | JObj _ => Unmodelled
        | _ =>
            apply_filters df_columns rest
              (filter (fun r => cell_eq_num (row_get column r) value) subset)
        end
      else apply_filters df_columns rest subset
  end.

Record aggregations : Type := {
  agg_by_ledger_type : list (cell * float);
  agg_by_property : list (cell * float);
  agg_by_year : list (cell * float)
}.

Record counts : Type := {
  cnt_total : Z;
  cnt_by_ledger_type : list (cell * Z);
  cnt_by_property : list (cell * Z)
}.

(** The dictionary [query_data_flexible] returns; a key that is absent from
    the dictionary is [None] here. *)
Record query_result : Type := {
  q_status : string;
  q_message : option string;
  q_filters : option (dict json);
  q_count : Z;
  q_total_profit : option float;
  q_rows : option (list (dict cell));
  q_showing : option Z;
  q_total_rows : option Z;
  q_aggregations : option aggregations;
  q_counts : option counts
}.

(** [DataFrame.head(limit)] *)
Definition head (limit : Z) (subset : list row) : list row :=
  if (0 <=? limit)%Z then firstn (Z.to_nat limit) subset
  else firstn (List.length subset - Z.to_nat (- limit)) subset.

(** [to_dict(orient="records")] of one row *)
Definition row_to_dict (df_columns : list string) (r : row) : dict cell :=
  map (fun col => (col, row_get col r)) df_columns.

Definition is_action (action : json) (name : string) : bool :=
  match action with JStr s => String.eqb s name | _ => false end.

Definition query_data_flexible (filters : option (dict json)) (action : json)
           (limit : Z) : result query_result :=
  df <- get_assets_df ;;
  subset <-
    match filters with
    | Some fs => apply_filters (columns df) fs (rows df)
    | None => Ok (rows df)
    end ;;
  match subset with
  | [] =>
      Ok {| q_status := "no_data";
            q_message := Some "No records found matching the filters.";
            q_filters := filters;
            q_count := 0;
            q_total_profit := None;
            q_rows := None; q_showing := None; q_total_rows := None;
            q_aggregations := None; q_counts := None |}
  | _ =>
      let count := Z.of_nat (List.length subset) in
      let total := PyFloat.series_sum (map profit subset) in
      let has := has_column (columns df) in
      if is_action action "show" then
        let rows_to_return := head limit subset in
        Ok {| q_status := "success"; q_message := None;
              q_filters := filters; q_count := count;
              q_total_profit := Some total;
              q_rows := Some (map (row_to_dict (columns df)) rows_to_return);
              q_showing := Some (Z.of_nat (List.length rows_to_return));
              q_total_rows := Some count;
              q_aggregations := None; q_counts := None |}
      else if is_action action "aggregate" then
        let sum_by key := groupby_sum rt (map (fun r => (key r, profit r)) subset) in
        Ok {| q_status := "success"; q_message := None;
              q_filters := filters; q_count := count;
              q_total_profit := Some total;
              q_rows := None; q_showing := None; q_total_rows := None;
              q_aggregations :=
                Some {| agg_by_ledger_type := sum_by ledger_type;
                        agg_by_property :=
                          if has "property_name" then sum_by property_name else [];
                        agg_by_year :=
                          if has "year" then sum_by (fun r => CFloat (year r))
                          else [] |};
              q_counts := None |}
      else if is_action action "count" then
        Ok {| q_status := "success"; q_message := None;
              q_filters := filters; q_count := count;
              q_total_profit := Some total;
              q_rows := None; q_showing := None; q_total_rows := None;
              q_aggregations := None;
              q_counts :=
                Some {| cnt_total := count;
                        cnt_by_ledger_type :=
                          value_counts rt (map ledger_type subset);
                        cnt_by_property :=
                          if has "property_name"
                          then value_counts rt (map property_name subset)
                          else [] |} |}
      else
        Ok {| q_status := "success"; q_message := None;
              q_filters := filters; q_count := count;
              q_total_profit := Some total;
              q_rows := None; q_showing := None; q_total_rows := None;
              q_aggregations := None; q_counts := None |}
  end.

(** [f"  - {ledger}: {value:,.2f}"] and the other lines of the summary *)
Definition summarize_asset_record (record : asset_summary) : string :=
  let lines :=
    [ "Property: " ++ cell_str (s_property_name record);
      "Entity: " ++ cell_str (s_entity_name record);
      "Total records: " ++ PyStr.of_int (s_total_records record);
      "Net Profit (P&L): " ++ PyFloat.fmt_2f (s_total_profit record) ] in
  let lines :=
    match s_tenants record with
    | [] => lines
    | tenants =>
        (lines ++ [ ("Tenants: " ++ PyStr.join ", " tenants)%string ])%list
    end in
  let lines :=
    match s_ledger_totals record with
    | [] => lines
    | ledger_totals =>
        (lines ++ [ "Breakdown by Ledger Type:" ]
           ++ map (fun '(ledger, value) =>
                     ("  - " ++ cell_str ledger ++ ": "
                        ++ PyFloat.fmt_2f value)%string)
                  ledger_totals)%list
    end in
  PyStr.join nl lines.

End Engine.

End data_loader.

(** ** [agent_core/graph_nodes.py] *)

Module graph_nodes.

Import data_loader.

(** [state["strategy"]]: the three system prompts, each possibly absent *)
Record Strategy : Type := {
  intent_system_prompt : option string;
  extract_system_prompt : option string;
  general_qa_system_prompt : option string
}.

(** One entry of [retrieved_data], by the intent it is stored under. *)
Inductive payload : Type :=
| PComparison (c : comparison)
| PAsset (a : asset_summary)
| PTotal (year : option Z) (month : option month_arg) (value : float)
| PQuery (q : query_result)
| PEmpty.

Record AgentState : Type := {
  user_query : string;
  intent : option string;
  extracted_params : dict json;
  retrieved_data : dict payload;
  answer : option string;
  error : option string;
  strategy : Strategy
}.

Definition set_intent (st : AgentState) (v : option string) : AgentState :=
  {| user_query := user_query st; intent := v;
     extracted_params := extracted_params st;
     retrieved_data := retrieved_data st; answer := answer st;
     error := error st; strategy := strategy st |}.

Definition set_extracted_params (st : AgentState) (v : dict json) : AgentState :=
  {| user_query := user_query st; intent := intent st;
     extracted_params := v;
     retrieved_data := retrieved_data st; answer := answer st;
     error := error st; strategy := strategy st |}.

Definition set_retrieved_data (st : AgentState) (v : dict payload) : AgentState :=
  {| user_query := user_query st; intent := intent st;
     extracted_params := extracted_params st;
     retrieved_data := v; answer := answer st;
     error := error st; strategy := strategy st |}.

Definition set_answer (st : AgentState) (v : string) : AgentState :=
  {| user_query := user_query st; intent := intent st;
     extracted_params := extracted_params st;
     retrieved_data := retrieved_data st; answer := Some v;
     error := error st; strategy := strategy st |}.

Definition set_error (st : AgentState) (v : string) : AgentState :=
  {| user_query := user_query st; intent := intent st;
     extracted_params := extracted_params st;
     retrieved_data := retrieved_data st; answer := answer st;
     error := Some v; strategy := strategy st |}.

(** [if text:] for an optional text: set and not empty *)
Definition text_set (t : option string) : bool :=
  match t with
  | Some s => negb (String.eqb s EmptyString)
  | None => false
  end.

(** [x in xs] for a list of texts *)
Definition mem (x : string) (xs : list string) : bool :=
  existsb (String.eqb x) xs.

(** *** Node: intent detection *)

Definition keywords_data_explicit : list string :=
  [ "show all"; "list all"; "show rows"; "list rows"; "display rows";
    "get all"; "all rows"; "all data"; "filter by"; "where month";
    "where year"; "for month"; "for year"; "records for" ].

Definition keywords_pnl : list string :=
  [ "total profit"; "total loss"; "total pnl"; "sum of"; "aggregate" ].

Definition keywords_asset : list string :=
  [ "building"; "property"; "tenant"; "rent"; "asset" ].

Definition valid_intents : list string :=
  [ "price_comparison"; "total_pnl"; "asset_details"; "general_qa";
    "data_query" ].

(** the failsafe of [detect_intent], applied when the label is [general_qa] *)
Definition keyword_override (query label : string) : string :=
  if PyStr.any_in keywords_data_explicit query then "data_query"
  else if PyStr.any_in keywords_pnl query then "total_pnl"
  else if PyStr.any_in keywords_asset query then "asset_details"
  else label.

(** the final check against [valid_intents] *)
Definition validate_label (label : string) : string :=
  if negb (mem label valid_intents) then "general_qa" else label.

Definition INTENT_NOT_CONFIGURED : string :=
  "Intent system prompt not configured. "
  ++ "Please configure it in Django Admin (Prompt model with type='intent').".

Definition EXTRACT_NOT_CONFIGURED : string :=
  "Extract system prompt not configured. "
  ++ "Please configure it in Django Admin (Prompt model with type='extract').".

Definition GENERAL_QA_NOT_CONFIGURED : string :=
  "General Q&A system prompt not configured. "
  ++ "Please configure it in Django Admin (Prompt model with type='general_qa').".

(** *** The regular expressions of the fallback extraction *)

(** [(202[0-9]-M\d{2})] at the start of [s] *)
Definition match_month_token (s : string) : option (string * nat) :=
  match s with
  | String c1 (String c2 (String c3 (String c4 (String c5 (String c6
      (String c7 (String c8 _))))))) =>
      if Ascii.eqb c1 "2" && Ascii.eqb c2 "0" && Ascii.eqb c3 "2"
         && PyStr.is_digit c4 && Ascii.eqb c5 "-" && Ascii.eqb c6 "M"
         && PyStr.is_digit c7 && PyStr.is_digit c8
      then Some (String c1 (String c2 (String c3 (String c4 (String c5
                   (String c6 (String c7 (String c8 EmptyString))))))), 8%nat)
      else None
  | _ => None
  end.

(** [202[0-9]] at the start of [s] *)
Definition match_year_token (s : string) : option (string * nat) :=
  match s with
  | String c1 (String c2 (String c3 (String c4 _))) =>
      if Ascii.eqb c1 "2" && Ascii.eqb c2 "0" && Ascii.eqb c3 "2"
         && PyStr.is_digit c4
      then Some (String c1 (String c2 (String c3 (String c4 EmptyString))),
                 4%nat)
      else None
  | _ => None
  end.

(** [[Xx]tail\s+(\d+)] at the start of [s]: the digits of the group and the
    length of the whole match.  The white space and the digits are each
    taken as far as they go: the two classes are disjoint, so a shorter run
    of white space never helps. *)
Definition match_label_number (upper lower : ascii) (tail s : string)
  : option (string * nat) :=
  match s with
  | String c t =>
      if (Ascii.eqb c upper || Ascii.eqb c lower) && String.prefix tail t then
        let '(ws, after_ws) :=
          PyStr.span PyStr.is_space (PyStr.drop (String.length tail) t) in
        let '(ds, _) := PyStr.span PyStr.is_digit after_ws in
        if negb (String.eqb ws EmptyString) && negb (String.eqb ds EmptyString)
        then Some (ds, (1 + String.length tail + String.length ws
                          + String.length ds)%nat)
        else None
      else None
  | EmptyString => None
  end.

Definition match_building : string -> option (string * nat) :=
  match_label_number "B" "b" "uilding".

Definition match_tenant : string -> option (string * nat) :=
  match_label_number "T" "t" "enant".

(** [re.search(p, s)]: the group of the leftmost match *)
Fixpoint re_search (p : string -> option (string * nat)) (s : string)
  : option string :=
  match s with
  | EmptyString => None
  | String _ t =>
      match p s with
      | Some (g, _) => Some g
      | None => re_search p t
      end
  end.

(** [re.findall(p, s)]: the groups of the matches from the left, which do
    not overlap; [skip] counts the characters of the last match still to
    pass. *)
Fixpoint re_findall_from (p : string -> option (string * nat)) (skip : nat)
         (s : string) : list string :=
  match s with
  | EmptyString => []
  | String _ t =>
      match skip with
      | S k => re_findall_from p k t
      | O =>
          match p s with
          | Some (g, n) => g :: re_findall_from p (n - 1) t
          | None => re_findall_from p O t
          end
      end
  end.

Definition re_findall (p : string -> option (string * nat)) (s : string)
  : list string := re_findall_from p O s.

(** [[f"Building {num}" for num in matches]] *)
Definition building_names (matches : list string) : list json :=
  map (fun num => JStr ("Building " ++ num)) matches.

(** *** The nodes, over the interpreter, the model and the dataset *)

Section Nodes.

Variable rt : Runtime.

(** the [try] statement of [detect_intent]: the label of the model, or
    [general_qa] when the call failed *)
Definition primary_label (system_prompt user_query : string) : string :=
  match invoke rt system_prompt user_query with
  | LlmText content => PyStr.lower (PyStr.strip content)
  | LlmRaised _ => "general_qa"
  end.

Definition detect_intent (state : AgentState) : result AgentState :=
  let query := PyStr.lower (user_query state) in
  match intent_system_prompt (strategy state) with
  | None => Raise (Exn ValueError INTENT_NOT_CONFIGURED)
  | Some system_prompt =>
      if String.eqb system_prompt EmptyString then
        Raise (Exn ValueError INTENT_NOT_CONFIGURED)
      else
        let label := primary_label system_prompt (user_query state) in
        let label :=
          if String.eqb label "general_qa" then keyword_override query label
          else label in
        Ok (set_intent state (Some (validate_label label)))
  end.

(** [d.get(k)] and [d.get(k, default)] on a decoded object *)
Definition get_or (k : string) (default : json) (d : dict json) : json :=
  match dict_get k d with Some v => v | None => default end.

(** the five-field record the node stores *)
Definition params_record (addresses year month filters action : json)
  : dict json :=
  [ ("addresses", addresses); ("year", year); ("month", month);
    ("filters", filters); ("action", action) ].

(** the [except] branch of [extract_params]: extraction from the query
    text alone *)
Definition fallback_extraction (user_query : string)
  : json * json * json * json * json :=
  let filters : dict json := [] in
  let '(filters, year) :=
    match re_search match_month_token user_query with
    | Some token =>
        (dict_set "month" (JStr token) filters,
         JInt (PyStr.int_of_digits (String.substring 0 4 token)))
    | None =>
        match re_search match_year_token user_query with
        | Some y => (filters, JInt (PyStr.int_of_digits y))
        | None => (filters, JNull)
        end
    end in
  let building_matches := re_findall match_building user_query in
  let '(addresses, filters) :=
    match building_matches with
    | first :: _ =>
        (JList (building_names building_matches),
         dict_set "property_name" (JStr ("Building " ++ first)) filters)
    | [] => (JList [], filters)
    end in
  let filters :=
    match re_search match_tenant user_query with
    | Some num => dict_set "tenant_name" (JStr ("Tenant " ++ num)) filters
    | None => filters
    end in
  let query_lower := PyStr.lower user_query in
  let action :=
    if PyStr.any_in ["show"; "list"; "display"; "all rows"; "get"] query_lower
    then "show"
    else if PyStr.any_in ["sum"; "total"; "aggregate"] query_lower
    then "aggregate"
    else if PyStr.any_in ["count"; "how many"] query_lower
    then "count"
    else "show" in
  (addresses, year, JNull, JObj filters, JStr action).

(** the response without its code fences *)
Definition clean_response (content : string) : string :=
  PyStr.strip (PyStr.replace "```" EmptyString
                 (PyStr.replace "```json" EmptyString content)).

(** the [try] block of [extract_params]: the cleaned response is decoded
    and read as an object.  [Ok None] when that raised one of the two
    exceptions of the [except] clause: [json.JSONDecodeError] from the
    decoder, or the [AttributeError] of [.get] on a decoded value that is
    not an object.  Any other exception of the decoder is not caught. *)
Definition parse_response (content : string)
  : result (option (json * json * json * json * json)) :=
  match json_loads rt (clean_response content) with
  | Loaded (JObj parsed) =>
      let addresses :=
        let a := get_or "addresses" JNull parsed in
        if truthy a then a else JList [] in
      Ok (Some (addresses,
                get_or "year" JNull parsed,
                get_or "month" JNull parsed,
                get_or "filters" (JObj []) parsed,
                get_or "action" (JStr "show") parsed))
  | Loaded _ => Ok None
  | JSONDecodeError _ => Ok None
  | LoadsRaised e =>
      match exn_class e with
      | AttributeError => Ok None
      | _ => Raise e
      end
  end.

(** ["Building" in prop_name] *)
Definition building_in (prop_name : json) : result bool :=
  match prop_name with
  | JStr s => Ok (PyStr.contains "Building" s)
  | JList l =>
      Ok (existsb (fun v => match v with
                            | JStr s => String.eqb s "Building"
                            | _ => false
                            end) l)
  | JObj kv => Ok (dict_has "Building" kv)
  | v =>
      Raise (Exn TypeError
               ("argument of type '" ++ type_name v ++ "' is not iterable"))
  end.

(** the block after the [try] statement: addresses taken from
    [filters["property_name"]] when there are none *)
Definition reconcile_addresses (user_query : string) (addresses filters : json)
  : result json :=
  if truthy addresses then Ok addresses
  else
    match filters with
    | JObj fs =>
        let prop_name := get_or "property_name" JNull fs in
        if truthy prop_name then
          found <- building_in prop_name ;;
          if found then
            match re_findall match_building user_query with
            | [] => Ok (JList [prop_name])
            | all_buildings => Ok (JList (building_names all_buildings))
            end
          else Ok addresses
        else Ok addresses
    | v =>
        Raise (Exn AttributeError
                 ("'" ++ type_name v ++ "' object has no attribute 'get'"))
    end.

Definition extract_params (state : AgentState) : result AgentState :=
  if match intent state with
     | Some i => String.eqb i "general_qa"
     | None => false
     end
  then
    Ok (set_extracted_params state
          [ ("addresses", JList []); ("year", JNull); ("month", JNull) ])
  else
    match extract_system_prompt (strategy state) with
    | None => Raise (Exn ValueError EXTRACT_NOT_CONFIGURED)
    | Some system_prompt =>
        if String.eqb system_prompt EmptyString then
          Raise (Exn ValueError EXTRACT_NOT_CONFIGURED)
        else
          match invoke rt system_prompt (user_query state) with
          | LlmRaised e => Raise e
          | LlmText content =>
              parsed <- parse_response content ;;
              let '(addresses, year, month, filters, action) :=
                match parsed with
                | Some fields => fields
                | None => fallback_extraction (user_query state)
                end in
              addresses <-
                reconcile_addresses (user_query state) addresses filters ;;
              Ok (set_extracted_params state
                    (params_record addresses year month filters action))
          end
    end.

(** *** Node: data retrieval *)

(** How the node reads the parameters it uses.  Each reading is [None] on
    a value whose Python type is not the one of the data model: a list of
    texts for [addresses], an optional integer for [year], an optional
    integer or text for [month], an optional mapping for [filters]. *)
Fixpoint texts_of (l : list json) : option (list string) :=
  match l with
  | [] => Some []
  | JStr s :: t =>
      match texts_of t with Some r => Some (s :: r) | None => None end
  | _ => None
  end.

(** [params.get("addresses") or []] *)
Definition read_addresses (params : dict json) : option (list string) :=
  let v := get_or "addresses" JNull params in
  if truthy v then
    match v with JList l => texts_of l | _ => None end
  else Some [].

Definition read_year (params : dict json) : option (option Z) :=
  match get_or "year" JNull params with
  | JNull => Some None
  | JInt z => Some (Some z)
  | _ => None
  end.

Definition read_month (params : dict json) : option (option month_arg) :=
  match get_or "month" JNull params with
  | JNull => Some None
  | JInt z => Some (Some (MonthInt z))
  | JStr s => Some (Some (MonthStr s))
  | _ => None
  end.

(** [params.get("filters", {})] *)
Definition read_filters (params : dict json) : option (dict json) :=
  match get_or "filters" (JObj []) params with
  | JObj fs => Some fs
  | _ => None
  end.

Definition lift {A : Type} (o : option A) : result A :=
  match o with Some a => Ok a | None => Unmodelled end.

(** The year and month the node adds to [filters] before the flexible
    query, when they are given and the key is not there yet. *)
Definition add_period (year : option Z) (month : option month_arg)
           (filters : dict json) : dict json :=
  let filters :=
    match year with
    | Some y =>
        if negb (dict_has "year" filters)
        then dict_set "year" (JInt y) filters else filters
    | None => filters
    end in
  match month with
  | Some m =>
      if negb (dict_has "month" filters) then
        match m with
        | MonthInt z =>
            dict_set "month" (JStr (fmt_year year ++ "-M" ++ PyStr.pad2 z))
                     filters
        | MonthStr s => dict_set "month" (JStr s) filters
        end
      else filters
  | None => filters
  end.

(** What the [try] block of the node decides: an error message written by
    the node itself, or the dictionary to store under [retrieved_data];
    the state carries the in-place update of [filters]. *)
Inductive retrieval : Type :=
| NodeError (msg : string)
| Retrieved (data : dict payload).

(** [intent == name] *)
Definition intent_is (state : AgentState) (name : string) : bool :=
  match intent state with Some i => String.eqb i name | None => false end.

Definition retrieve_body (state : AgentState)
  : AgentState * result retrieval :=
  let params := extracted_params state in
  let intent := intent state in
  let is_intent := intent_is state in
  if is_intent "price_comparison" then
    (state,
     addresses <- lift (read_addresses params) ;;
     match addresses with
     | a1 :: a2 :: _ =>
         data <- compare_assets_by_price rt a1 a2 ;;
         Ok (Retrieved [("price_comparison", PComparison data)])
     | _ => Ok (NodeError "To compare, I need two property names.")
     end)
  else if is_intent "asset_details" then
    (state,
     addresses <- lift (read_addresses params) ;;
     match addresses with
     | [] => Ok (NodeError "I couldn't identify the property name.")
     | a1 :: _ =>
         record <- get_single_asset rt a1 ;;
         match record with
         | None => Ok (NodeError ("Property '" ++ a1 ++ "' not found."))
         | Some r => Ok (Retrieved [("asset_details", PAsset r)])
         end
     end)
  else if is_intent "total_pnl" then
    (state,
     year <- lift (read_year params) ;;
     month <- lift (read_month params) ;;
     total <- compute_total_pnl rt year month ;;
     Ok (Retrieved [("total_pnl", PTotal year month total)]))
  else if is_intent "data_query" then
    match read_year params, read_month params, read_filters params with
    | Some year, Some month, Some filters =>
        let action := get_or "action" (JStr "show") params in
        let filters := add_period year month filters in
        let state :=
          if dict_has "filters" params
          then set_extracted_params state
                 (dict_set "filters" (JObj filters) params)
          else state in
        (state,
         query_result <- query_data_flexible rt (Some filters) action 200 ;;
         Ok (Retrieved [("data_query", PQuery query_result)]))
    | _, _, _ => (state, Unmodelled)
    end
  else if is_intent "general_qa" then
    (state, Ok (Retrieved [("general_qa", PEmpty)]))
  else
    (state,
     Ok (NodeError ("Unknown intent: "
                      ++ match intent with Some i => i | None => "None" end))).

(** The three [except] clauses, in their order. *)
Definition retrieval_error (e : exn) : string :=
  match exn_class e with
  | DatasetConfigError => "Data Config Error: " ++ exn_str e
  | ValueError => exn_str e
  | _ => "System Error: " ++ exn_str e
  end.

Definition retrieve_data (state : AgentState) : result AgentState :=
  let '(state, outcome) := retrieve_body state in
  match outcome with
  | Ok (Retrieved data) => Ok (set_retrieved_data state data)
  | Ok (NodeError msg) => Ok (set_error state msg)
  | Raise e => Ok (set_error state (retrieval_error e))
  | Unmodelled => Unmodelled
  end.

(** *** Node: answer computation *)

(** [sorted(items, key=..., reverse=True)]: stable, largest key first *)
Fixpoint insert_desc {A K : Type} (lt : K -> K -> bool) (key : A -> K)
         (x : A) (l : list A) : list A :=
  match l with
  | [] => [x]
  | y :: t =>
      if lt (key x) (key y) then y :: insert_desc lt key x t else x :: l
  end.

Definition sorted_desc {A K : Type} (lt : K -> K -> bool) (key : A -> K)
           (l : list A) : list A :=
  fold_right (insert_desc lt key) [] l.

Definition byte_text (codes : list nat) : string :=
  PyStr.of_chars (map ascii_of_nat codes).

(** the four pictograms of the templates, as the source file spells them *)
Definition ICON_SUMMARY : string :=
  byte_text [196; 159; 197; 184; 226; 128; 156; 197; 160]%nat.
Definition ICON_ROWS : string :=
  byte_text [196; 159; 197; 184; 226; 128; 156; 226; 128; 185]%nat.
Definition ICON_AGGREGATIONS : string :=
  byte_text [196; 159; 197; 184; 226; 128; 156; 203; 134]%nat.

(** [calendar.month_name[mn]]: thirteen entries, the first one empty, with
    Python's indexing from the end for a negative [mn] *)
Definition MONTH_NAMES : list string :=
  [ EmptyString; "January"; "February"; "March"; "April"; "May"; "June";
    "July"; "August"; "September"; "October"; "November"; "December" ].

Definition month_name (mn : Z) : result string :=
  let i := if (mn <? 0)%Z then mn + 13 else mn in
  if ((0 <=? i)%Z && (i <? 13)%Z)%bool
  then Ok (nth (Z.to_nat i) MONTH_NAMES EmptyString)
  else Raise (Exn IndexError "list index out of range").

(** [f"{v}"] of a filter value *)
Definition json_str (v : json) : string :=
  match v with
  | JNull => "None"
  | JBool b => if b then "True" else "False"
  | JInt z => PyStr.of_int z
  | JFloat x => if PyFloat.is_nan x then "nan" else float_repr rt x
  | JStr s => s
  | _ => container_repr rt v
  end.

(** one cell of the table of rows: [row.get(col, "")], the profit with two
    decimals, a dash for a missing value *)
Definition render_cell (col : string) (v : option cell) : string :=
  match v with
  | None => EmptyString
  | Some c =>
      let val :=
        if String.eqb col "profit" then
          match c with
          | CFloat x => PyFloat.fmt_2f x
          | CInt z => PyFloat.fmt_2f (PyFloat.of_Z z)
          | CStr s =>
              if String.eqb s EmptyString then s
              else match float_of_text rt s with
                   | Some x => PyFloat.fmt_2f x
                   | None => s
                   end
          end
        else cell_str rt c in
      if String.eqb val "nan" then "-" else val
  end.

Definition IMPORTANT_COLS : list string :=
  [ "property_name"; "tenant_name"; "ledger_type"; "ledger_description";
    "month"; "year"; "profit"; "entity_name"; "ledger_category" ].

(** the columns of the table: the important ones that occur, then the
    others in the iteration order of the set of keys *)
Definition display_columns (rows : list (dict cell)) : list string :=
  let all_keys := set_iter rt (List.concat (map (map fst) rows)) in
  let display_cols := filter (fun col => mem col all_keys) IMPORTANT_COLS in
  fold_left (fun acc col => if mem col acc then acc else (acc ++ [col])%list)
            all_keys display_cols.

Definition table_lines (rows : list (dict cell)) : list string :=
  match rows with
  | [] => []
  | _ =>
      let display_cols := display_columns rows in
      let header := "| " ++ PyStr.join " | " display_cols ++ " |" in
      let separator :=
        "| " ++ PyStr.join " | " (map (fun _ => "---") display_cols) ++ " |" in
      (header :: separator ::
         map (fun row =>
                ("| " ++ PyStr.join " | "
                          (map (fun col => render_cell col (dict_get col row))
                               display_cols)
                      ++ " |")%string)
             rows)%list
  end.

Definition default_Z (o : option Z) : Z :=
  match o with Some z => z | None => 0 end.

(** the lines of the answer for a flexible query that found rows *)
Definition query_header (filters : option (dict json)) : string :=
  match filters with
  | Some ((_ :: _) as fs) =>
      "**Query Results** (Filters: "
        ++ PyStr.join ", " (map (fun '(k, v) => k ++ "=" ++ json_str v) fs)
        ++ ")" ++ nl
  | _ => "**Query Results**" ++ nl
  end.

Definition summary_title : string := ICON_SUMMARY ++ " **Summary:**".

Definition summary_count (count : Z) : string :=
  "- Total matching records: **" ++ PyStr.fmt_int count ++ "**".

Definition summary_profit (total_profit : option float) : string :=
  "- Total Profit/Loss: **"
    ++ PyFloat.fmt_2f (match total_profit with
                       | Some x => x
                       | None => 0%float
                       end)
    ++ "**" ++ nl.

Definition rows_title (showing total : Z) : string :=
  ICON_ROWS ++ " **Data Rows** (showing " ++ PyStr.of_int showing
    ++ " of " ++ PyStr.of_int total ++ "):" ++ nl.

Definition more_rows (showing total : Z) : string :=
  nl ++ "*...and " ++ PyStr.of_int (total - showing) ++ " more rows*".

Definition value_line (item : cell * float) : string :=
  "- " ++ cell_str rt (fst item) ++ ": " ++ PyFloat.fmt_2f (snd item).

Definition count_line (item : cell * Z) : string :=
  "- " ++ cell_str rt (fst item) ++ ": " ++ PyStr.fmt_int (snd item).

Definition aggregations_title : string :=
  nl ++ ICON_AGGREGATIONS ++ " **Aggregations:**".

Definition counts_title : string := nl ++ ICON_SUMMARY ++ " **Counts:**".

Definition by_ledger_title : string := nl ++ "**By Ledger Type:**".

Definition by_property_title : string := nl ++ "**By Property:**".

Definition total_records_line (total : Z) : string :=
  "- Total records: " ++ PyStr.fmt_int total.

Definition rows_part (q : query_result) : list string :=
  match q_rows q with
  | Some rows =>
      let showing := default_Z (q_showing q) in
      let total := default_Z (q_total_rows q) in
      (rows_title showing total :: table_lines rows
         ++ (if (showing <? total)%Z then [ more_rows showing total ] else []))%list
  | None => []
  end.

Definition aggregations_part (q : query_result) : list string :=
  match q_aggregations q with
  | Some aggs =>
      (aggregations_title
         :: match agg_by_ledger_type aggs with
            | [] => []
            | items =>
                by_ledger_title
                  :: map value_line (sorted_desc PrimFloat.ltb snd items)
            end
         ++ match agg_by_property aggs with
            | [] => []
            | items =>
                by_property_title
                  :: map value_line
                       (firstn 10 (sorted_desc PrimFloat.ltb snd items))
            end)%list
  | None => []
  end.

Definition counts_part (q : query_result) : list string :=
  match q_counts q with
  | Some counts =>
      (counts_title :: total_records_line (cnt_total counts)
         :: match cnt_by_ledger_type counts with
            | [] => []
            | items =>
                by_ledger_title
                  :: map count_line (sorted_desc Z.ltb snd items)
            end)%list
  | None => []
  end.

Definition query_answer (q : query_result) : string :=
  PyStr.join nl
    (query_header (q_filters q) :: summary_title :: summary_count (q_count q)
       :: summary_profit (q_total_profit q)
       :: rows_part q ++ aggregations_part q ++ counts_part q)%list.

(** [better = a1_name if diff > 0 else a2_name] *)
Definition better (comp : comparison) : cell :=
  if PrimFloat.ltb 0%float (difference comp)
  then v_property_name (asset_1 comp)
  else v_property_name (asset_2 comp).

Definition comparison_answer (comp : comparison) : string :=
  "**Comparison Result:**" ++ nl ++ nl
  ++ "* **" ++ cell_str rt (v_property_name (asset_1 comp)) ++ "**: "
  ++ PyFloat.fmt_2f (v_value (asset_1 comp)) ++ " profit" ++ nl
  ++ "* **" ++ cell_str rt (v_property_name (asset_2 comp)) ++ "**: "
  ++ PyFloat.fmt_2f (v_value (asset_2 comp)) ++ " profit" ++ nl ++ nl
  ++ "The property **" ++ cell_str rt (better comp) ++ "** generated "
  ++ PyFloat.fmt_2f (PrimFloat.abs (difference comp)) ++ " more profit.".

(** the time phrase of the total: [if yr and mn], [elif yr], [else] *)
Definition time_frame (yr : option Z) (mn : option month_arg)
  : result string :=
  let yr_set := match yr with Some y => negb (y =? 0)%Z | None => false end in
  let mn_set :=
    match mn with
    | Some (MonthInt m) => negb (m =? 0)%Z
    | Some (MonthStr s) => negb (String.eqb s EmptyString)
    | None => false
    end in
  if (yr_set && mn_set)%bool then
    match mn with
    | Some (MonthInt m) =>
        name <- month_name m ;;
        Ok ("for " ++ name ++ " " ++ fmt_year yr)
    | _ =>
        Raise (Exn TypeError
                 "list indices must be integers or slices, not str")
    end
  else if yr_set then Ok ("for the full year " ++ fmt_year yr)
  else Ok "across all recorded dates".

Definition total_answer (frame : string) (val : float) : string :=
  "The total recorded **Profit/Loss** " ++ frame ++ " is: **"
  ++ PyFloat.fmt_2f val ++ "**".

Definition compute_answer (state : AgentState) : result AgentState :=
  if text_set (error state) then Ok state
  else
    let data := retrieved_data state in
    let is_intent := intent_is state in
    if is_intent "price_comparison" then
      match dict_get "price_comparison" data with
      | Some (PComparison comp) => Ok (set_answer state (comparison_answer comp))
      | Some _ => Unmodelled
      | None => Raise (Exn KeyError "'asset_1'")
      end
    else if is_intent "asset_details" then
      match dict_get "asset_details" data with
      | Some (PAsset record) =>
          Ok (set_answer state
                ("Here is the financial summary for the requested property:"
                   ++ nl ++ nl ++ summarize_asset_record rt record))
      | Some _ => Unmodelled
      | None =>
          Raise (Exn TypeError
                   "unsupported format string passed to NoneType.__format__")
      end
    else if is_intent "total_pnl" then
      match dict_get "total_pnl" data with
      | Some (PTotal yr mn val) =>
          frame <- time_frame yr mn ;;
          Ok (set_answer state (total_answer frame val))
      | Some _ => Unmodelled
      | None =>
          Ok (set_answer state
                (total_answer "across all recorded dates" 0%float))
      end
    else if is_intent "data_query" then
      match dict_get "data_query" data with
      | Some (PQuery q) =>
          if String.eqb (q_status q) "no_data" then
            Ok (set_answer state
                  (match q_message q with
                   | Some m => m
                   | None => "No data found."
                   end))
          else Ok (set_answer state (query_answer q))
      | Some _ => Unmodelled
      | None =>
          Ok (set_answer state
                (query_answer
                   {| q_status := EmptyString; q_message := None;
                      q_filters := None; q_count := 0;
                      q_total_profit := None; q_rows := None;
                      q_showing := None; q_total_rows := None;
                      q_aggregations := None; q_counts := None |}))
      end
    else if is_intent "general_qa" then
      match general_qa_system_prompt (strategy state) with
      | None => Raise (Exn ValueError GENERAL_QA_NOT_CONFIGURED)
      | Some general_qa_prompt =>
          if String.eqb general_qa_prompt EmptyString then
            Raise (Exn ValueError GENERAL_QA_NOT_CONFIGURED)
          else
            match invoke rt general_qa_prompt (user_query state) with
            | LlmRaised e => Raise e
            | LlmText content => Ok (set_answer state content)
            end
      end
    else Ok state.

Definition route_after_retrieval (state : AgentState) : string :=
  if text_set (error state) then "end_with_error" else "compute_answer".

Definition end_with_error (state : AgentState) : result AgentState :=
  if (text_set (error state) && negb (text_set (answer state)))%bool then
    match error state with
    | Some error_msg => Ok (set_answer state error_msg)
    | None => Ok state
    end
  else Ok state.

End Nodes.

End graph_nodes.

(** ** [agent_core/graph_builder.py] *)

Module graph_builder.

Import graph_nodes.

Definition START : string := "__start__".
Definition END : string := "__end__".

(** A state graph as the builder records it: named nodes, fixed edges, and
    conditional edges (a router and the map from its answers to nodes). *)
Record StateGraph : Type := {
  nodes : dict (AgentState -> result AgentState);
  edges : dict string;
  conditional_edges : dict ((AgentState -> string) * dict string)
}.

Definition build_graph (rt : Runtime) : StateGraph :=
  {| nodes :=
       [ ("detect_intent", detect_intent rt);
         ("extract_params", extract_params rt);
         ("retrieve_data", retrieve_data rt);
         ("compute_answer", compute_answer rt);
         ("end_with_error", end_with_error) ];
     edges :=
       [ (START, "detect_intent");
         ("detect_intent", "extract_params");
         ("extract_params", "retrieve_data");
         ("compute_answer", END);
         ("end_with_error", END) ];
     conditional_edges :=
       [ ("retrieve_data",
          (route_after_retrieval,
           [ ("compute_answer", "compute_answer");
             ("end_with_error", "end_with_error") ])) ] |}.

(** the node that follows [current] in state [state] *)
Definition successor (g : StateGraph) (current : string) (state : AgentState)
  : option string :=
  match dict_get current (edges g) with
  | Some n => Some n
  | None =>
      match dict_get current (conditional_edges g) with
      | Some (router, path_map) => dict_get (router state) path_map
      | None => None
      end
  end.

(** One run of the compiled graph from [current]: the names of the nodes
    that executed, in order, and the final state.  [steps] is the number of
    nodes the engine still allows; when none is left the engine raises its
    recursion error (this graph, which has no cycle, never gets there). *)
Fixpoint run_from (g : StateGraph) (steps : nat) (current : string)
         (state : AgentState) : result (list string * AgentState) :=
  match successor g current state with
  | None => Ok ([], state)
  | Some n =>
      if String.eqb n END then Ok ([], state)
      else
        match steps with
        | O => Raise (Exn GraphRecursionError "Recursion limit of 25 reached")
        | S k =>
            match dict_get n (nodes g) with
            | None => Ok ([], state)
            | Some node =>
                state' <- node state ;;
                run <- run_from g k n state' ;;
                Ok ((n :: fst run)%list, snd run)
            end
        end
  end.

Definition recursion_limit : nat := 25.

(** [app.invoke(initial_state)] *)
Definition app_invoke (rt : Runtime) (initial_state : AgentState)
  : result (list string * AgentState) :=
  run_from (build_graph rt) recursion_limit START initial_state.

End graph_builder.

(** ** [agent_core/orchestrator.py] *)

Module orchestrator.

Import graph_nodes.

Record debug_state : Type := {
  dbg_intent : option string;
  dbg_extracted_params : dict json;
  dbg_retrieved_data : dict payload;
  dbg_error : option string
}.

(** The configuration of a strategy: the provider, the name of the model
    and the keyword arguments of the model, and the three prompts, which
    [run_agent] copies into [strategy_prompts]. *)
Record StrategyConfig : Type := {
  provider : option string;
  model_name : option string;
  llm_kwargs : option (dict json);
  prompts :> Strategy
}.

(** [build_llm_from_strategy]: the chat model is built, or the library
    raises. *)
Definition build_llm_from_strategy (rt : Runtime)
           (strategy_config : StrategyConfig) : result unit :=
  let provider := provider strategy_config in
  let model_name := model_name strategy_config in
  let llm_kwargs :=
    match llm_kwargs strategy_config with
    | Some kwargs => kwargs
    | None => []
    end in
  match init_chat_model rt model_name provider llm_kwargs with
  | Some e => Raise e
  | None => Ok tt
  end.

Definition initial_state (user_query : string) (strategy_prompts : Strategy)
  : AgentState :=
  {| user_query := PyStr.strip user_query;
     intent := None;
     extracted_params := [];
     retrieved_data := [];
     answer := None;
     error := None;
     strategy := strategy_prompts |}.

(** the answer [run_agent] returns for a final state *)
Definition final_answer (result : AgentState) : string :=
  let answer := match answer result with Some a => a | None => EmptyString end in
  if (String.eqb answer EmptyString && text_set (error result))%bool then
    "Sorry, I couldn't complete your request: "
      ++ match error result with Some e => e | None => EmptyString end
  else answer.

(** [run_agent]: the chat model is built first, then the graph runs from
    the initial state.  The executed nodes are returned along with the
    answer. *)
Definition run_agent (rt : Runtime) (user_query : string)
           (strategy_config : StrategyConfig)
  : result (list string * (string * debug_state)) :=
  _ <- build_llm_from_strategy rt strategy_config ;;
  run <- graph_builder.app_invoke rt
           (initial_state user_query (prompts strategy_config)) ;;
  let result := snd run in
  Ok (fst run,
      (final_answer result,
       {| dbg_intent := intent result;
          dbg_extracted_params := extracted_params result;
          dbg_retrieved_data := retrieved_data result;
          dbg_error := error result |})).

End orchestrator.

(** ** [streamlit_app.py]

    The page of the application: the query it passes to the agent, what
    it displays after a run, and the upload of a dataset.  The widgets
    the page draws are recorded in their order. *)

Module streamlit_app.

Import data_loader graph_nodes orchestrator.

(** [(question or "").strip()] *)
Definition build_user_query (question : option string) : string :=
  PyStr.strip (match question with Some q => q | None => EmptyString end).

(** *** The upload *)

(** the object of the uploader: its name and its bytes *)
Record UploadedFile : Type := {
  name : string;
  getvalue : string
}.

(** The library calls of the upload: [Path(name).suffix], the reader of
    pandas on a file that holds the given bytes, its reader on the object
    of the uploader, the bytes [DataFrame.to_parquet] writes and [len] of
    a table.  The directory and the file are taken to accept the writes. *)
Record Platform (frame : Type) : Type := {
  path_suffix : string -> string;
  read_parquet : string -> result frame;
  read_csv : UploadedFile -> result frame;
  to_parquet : frame -> string;
  len : frame -> Z
}.

Arguments path_suffix {frame}.
Arguments read_parquet {frame}.
Arguments read_csv {frame}.
Arguments to_parquet {frame}.
Arguments len {frame}.

(** What the upload acts on: the bytes of the file at [DATA_PATH], when
    there is one, and whether [get_assets_df] holds a table in its cache. *)
Record World : Type := {
  data_path : option string;
  cached : bool
}.

Definition write_bytes (content : string) (w : World) : World :=
  {| data_path := Some content; cached := cached w |}.

(** [get_assets_df.cache_clear()] *)
Definition cache_clear (w : World) : World :=
  {| data_path := data_path w; cached := false |}.

(** the text [csv], an arrow and [parquet], as the source file spells it *)
Definition FMT_CSV : string :=
  "csv" ++ byte_text [226; 134; 146]%nat ++ "parquet".

Definition persist_uploaded_dataset {frame : Type} (pf : Platform frame)
           (uploaded_file : option UploadedFile) (w : World)
  : World * result (Z * string) :=
  match uploaded_file with
  | None => (w, Raise (Exn ValueError "File is not uploaded."))
  | Some file =>
      let suffix := PyStr.lower (path_suffix pf (name file)) in
      if mem suffix [".parquet"; ".pq"] then
        let w := write_bytes (getvalue file) w in
        match read_parquet pf (getvalue file) with
        | Ok df => (cache_clear w, Ok (len pf df, "parquet"))
        | Raise e => (w, Raise e)
        | Unmodelled => (w, Unmodelled)
        end
      else if mem suffix [".csv"; ".txt"] then
        match read_csv pf file with
        | Ok df =>
            let w := write_bytes (to_parquet pf df) w in
            (cache_clear w, Ok (len pf df, FMT_CSV))
        | Raise e => (w, Raise e)
        | Unmodelled => (w, Unmodelled)
        end
      else
        (w, Raise (Exn ValueError "Only CSV and Parquet files are supported."))
  end.

(** *** The button that runs the agent *)

Inductive widget : Type :=
| st_warning (body : string)
| st_error (body : string)
| st_success (body : string)
| st_subheader (body : string)
| st_write (body : string)
| st_json (value : debug_state).

(** [answer or "Answer is empty."] *)
Definition displayed (answer : string) : string :=
  if String.eqb answer EmptyString then "Answer is empty." else answer.

(** The branch of [main] under [st.button("Run agent")], for the text of
    the text area and the configuration selected: the widgets drawn. *)
Definition run_agent_clicked (rt : Runtime) (user_question : string)
           (selected_config : StrategyConfig) : result (list widget) :=
  let user_query := build_user_query (Some user_question) in
  if String.eqb user_query EmptyString then
    Ok [ st_warning "Enter a query to run the agent." ]
  else
    match run_agent rt user_query selected_config with
    | Raise exc =>
        Ok [ st_error ("Error while running the agent: " ++ exn_str exc) ]
    | Unmodelled => Unmodelled
    | Ok (_, (answer, debug_state)) =>
        Ok [ st_success "Agent finished running.";
             st_subheader "Answer";
             st_write (displayed answer);
             st_json debug_state ]
    end.

End streamlit_app.

(** ** Concrete tables, models and runtimes

    The inputs at which the properties below are evaluated. *)

Module samples.

Import data_loader graph_nodes.

Definition ledger_row (property tenant month_text : string) (y p : float)
  : row :=
  {| entity_name := CStr "Entity A";
     property_name := CStr property;
     tenant_name := CStr tenant;
     ledger_type := CStr "revenue";
     ledger_group := CStr "rental_income";
     ledger_category := CStr "rent";
     ledger_code := CInt 8000;
     ledger_description := CStr "Rent";
     month := month_text;
     quarter := CStr "2025-Q1";
     year := y;
     profit := p;
     other := [] |}.

(** the two properties of the scenario of the specification *)
Definition two_buildings : DataFrame :=
  {| columns := REQUIRED_COLUMNS;
     rows := [ ledger_row "Building 17" "Tenant 1" "2025-M01" 2025 1000;
               ledger_row "Building 22" "Tenant 2" "2025-M02" 2025 600 ] |}.

(** a table with a record whose year is missing and one whose month is
    written in lower case *)
Definition loose_months : DataFrame :=
  {| columns := REQUIRED_COLUMNS;
     rows := [ ledger_row "Building 17" "Tenant 1" "2025-M01" 2025 1000;
               ledger_row "Building 22" "Tenant 2" "2025-M01" PrimFloat.nan 600;
               ledger_row "Building 30" "Tenant 3" "2025-m01" 2025 50 ] |}.

(** A runtime over the table [df] and the model [llm], with the decoder
    [loads]; the library functions no property depends on are trivial. *)
Definition runtime_of (df : DataFrame) (llm : string -> string -> llm_reply)
           (loads : string -> loads_result)
           (search : string -> string + (string -> bool)) : Runtime :=
  {| json_loads := loads;
     re_search_ci := search;
     float_repr := fun _ => "0.0";
     float_of_text := fun _ => None;
     groupby_sum := fun pairs => pairs;
     sort_values_desc := fun pairs => pairs;
     value_counts := fun cells => map (fun c => (c, 1)) cells;
     container_repr := fun _ => "[]";
     set_iter := fun keys => keys;
     init_chat_model := fun _ _ _ => None;
     invoke := llm;
     DATA_PATH := "data/cortex.parquet";
     data_file := Some df |}.

Definition no_json (_ : string) : loads_result :=
  JSONDecodeError "Expecting value: line 1 column 1 (char 0)".

Definition no_regex (_ : string) : string + (string -> bool) :=
  inl "nothing to repeat at position 0".

Definition prompts : Strategy :=
  {| intent_system_prompt := Some "Classify the intent.";
     extract_system_prompt := Some "Extract the parameters.";
     general_qa_system_prompt := Some "Answer the question." |}.

(** the configuration of a strategy with the three prompts *)
Definition config : orchestrator.StrategyConfig :=
  {| orchestrator.provider := Some "openai";
     orchestrator.model_name := Some "gpt-4o-mini";
     orchestrator.llm_kwargs := Some [];
     orchestrator.prompts := prompts |}.

(** a model that answers [label] to the intent prompt, [extraction] to the
    extraction prompt and [reply] to the general prompt *)
Definition scripted (label extraction reply : string)
  : string -> string -> llm_reply :=
  fun system _ =>
    if String.eqb system "Classify the intent." then LlmText label
    else if String.eqb system "Extract the parameters." then LlmText extraction
    else LlmText reply.

(** a model whose every call fails *)
Definition unreachable (_ _ : string) : llm_reply :=
  LlmRaised (Exn ModelError "Connection error.").

Definition quote : string := String (ascii_of_nat 34) EmptyString.

(** the response [{"filters": null}] and its decoding *)
Definition filters_null_text : string :=
  "{" ++ quote ++ "filters" ++ quote ++ ": null}".

Definition loads_filters_null (s : string) : loads_result :=
  if String.eqb s filters_null_text then Loaded (JObj [("filters", JNull)])
  else no_json s.

(** a response of a thousand opening brackets, on which the decoder
    exhausts the stack *)
Definition deep_text : string :=
  PyStr.of_chars (repeat "["%char 1000).

Definition loads_deep (s : string) : loads_result :=
  if String.eqb s deep_text
  then LoadsRaised
         (Exn RecursionError
            ("maximum recursion depth exceeded while decoding a JSON array "
               ++ "from a unicode string"))
  else no_json s.

(** the response [{"month": 3}] and its decoding *)
Definition month_three_text : string :=
  "{" ++ quote ++ "month" ++ quote ++ ": 3}".

Definition loads_month_three (s : string) : loads_result :=
  if String.eqb s month_three_text then Loaded (JObj [("month", JInt 3)])
  else no_json s.

(** the search of the pattern [.], which finds any character but a line
    feed *)
Definition search_dot (pat : string) : string + (string -> bool) :=
  if String.eqb pat "."
  then inr (fun s => existsb (fun c => negb (Ascii.eqb c (ascii_of_nat 10)))
                             (PyStr.chars_of s))
  else inl "nothing to repeat at position 0".

(** the search of the pattern [(], which does not compile *)
Definition search_paren (pat : string) : string + (string -> bool) :=
  inl "missing ), unterminated subpattern at position 0".

(** the runtimes of the examples *)
Definition rt_plain : Runtime :=
  runtime_of two_buildings unreachable no_json no_regex.

Definition rt_dot : Runtime :=
  runtime_of two_buildings unreachable no_json search_dot.

Definition rt_paren : Runtime :=
  runtime_of two_buildings unreachable no_json search_paren.

Definition rt_loose : Runtime :=
  runtime_of loose_months unreachable no_json no_regex.

(** the model answers the extraction prompt with [{"filters": null}] *)
Definition rt_filters_null : Runtime :=
  runtime_of two_buildings (scripted "data_query" filters_null_text "n/a")
             loads_filters_null no_regex.

(** the model answers the extraction prompt with the thousand brackets *)
Definition rt_deep : Runtime :=
  runtime_of two_buildings (scripted "data_query" deep_text "n/a")
             loads_deep no_regex.

(** the model answers the extraction prompt with a sentence *)
Definition rt_prose : Runtime :=
  runtime_of two_buildings
             (scripted "data_query" "Sure, here are the parameters." "n/a")
             no_json no_regex.

(** the model answers every prompt with an empty text *)
Definition rt_silent : Runtime :=
  runtime_of two_buildings (scripted "general_qa" "n/a" EmptyString)
             no_json no_regex.

(** a comparison of two properties with the same total *)
Definition tie : comparison :=
  {| asset_1 := {| v_property_name := CStr "Building 17";
                   v_value := 1000; v_records := 1 |};
     asset_2 := {| v_property_name := CStr "Building 22";
                   v_value := 1000; v_records := 2 |};
     difference := PrimFloat.sub 1000 1000 |}.

(** a state as it is after the intent node *)
Definition state_with (query intent_label : string) (params : dict json)
  : AgentState :=
  {| user_query := query; intent := Some intent_label;
     extracted_params := params; retrieved_data := [];
     answer := None; error := None; strategy := prompts |}.

End samples.

(** ** Further inputs *)

Module more_samples.

Import data_loader graph_nodes samples.

(** a table that lacks ten of the required columns *)
Definition short_table : DataFrame :=
  {| columns := ["profit"; "property_name"];
     rows := [ ledger_row "Building 17" "Tenant 1" "2025-M01" 2025 1000 ] |}.

Definition rt_short : Runtime :=
  runtime_of short_table unreachable no_json no_regex.

(** a table of three records over two years *)
Definition three_rows : DataFrame :=
  {| columns := REQUIRED_COLUMNS;
     rows := [ ledger_row "Building 17" "Tenant 1" "2024-M12" 2024 250;
               ledger_row "Building 17" "Tenant 1" "2025-M01" 2025 1000;
               ledger_row "Building 22" "Tenant 2" "2025-M02" 2025 600 ] |}.

Definition rt_three : Runtime :=
  runtime_of three_rows unreachable no_json no_regex.

(** the model classifies every question as a request for the details of a
    property, and answers the extraction prompt with a sentence *)
Definition rt_details : Runtime :=
  runtime_of two_buildings (scripted "asset_details" "n/a" "n/a")
             no_json no_regex.

(** the same model when the file of the dataset does not exist *)
Definition rt_no_file : Runtime :=
  {| json_loads := no_json;
     re_search_ci := no_regex;
     float_repr := fun _ => "0.0";
     float_of_text := fun _ => None;
     groupby_sum := fun pairs => pairs;
     sort_values_desc := fun pairs => pairs;
     value_counts := fun cells => map (fun c => (c, 1)) cells;
     container_repr := fun _ => "[]";
     set_iter := fun keys => keys;
     init_chat_model := fun _ _ _ => None;
     invoke := scripted "asset_details" "n/a" "n/a";
     DATA_PATH := "data/cortex.parquet";
     data_file := None |}.

(** a runtime whose sets iterate in the order of first insertion, each
    element once *)
Fixpoint first_occurrences (seen keys : list string) : list string :=
  match keys with
  | [] => []
  | k :: rest =>
      if mem k seen then first_occurrences seen rest
      else k :: first_occurrences (k :: seen) rest
  end.

Definition rt_sets : Runtime :=
  {| json_loads := no_json;
     re_search_ci := no_regex;
     float_repr := fun _ => "0.0";
     float_of_text := fun _ => None;
     groupby_sum := fun pairs => pairs;
     sort_values_desc := fun pairs => pairs;
     value_counts := fun cells => map (fun c => (c, 1)) cells;
     container_repr := fun _ => "[]";
     set_iter := first_occurrences [];
     init_chat_model := fun _ _ _ => None;
     invoke := unreachable;
     DATA_PATH := "data/cortex.parquet";
     data_file := Some two_buildings |}.

(** two rows of a result, the second with a column of its own *)
Definition two_dicts : list (dict cell) :=
  [ [("zone", CStr "north"); ("profit", CFloat 1); ("month", CStr "2025-M01")];
    [("zone", CStr "south"); ("profit", CFloat 2); ("month", CStr "2025-M02");
     ("floor", CInt 3)] ].

(** a strategy without the prompt of the general answers *)
Definition prompts_without_general : orchestrator.StrategyConfig :=
  {| orchestrator.provider := Some "openai";
     orchestrator.model_name := Some "gpt-4o-mini";
     orchestrator.llm_kwargs := None;
     orchestrator.prompts :=
       {| intent_system_prompt := Some "Classify the intent.";
          extract_system_prompt := Some "Extract the parameters.";
          general_qa_system_prompt := None |} |}.

(** a platform whose tables are lists of lines: the suffix is what
    follows the last dot of a name without directory, a parquet file reads
    when it starts with [PAR1], and a text always reads as its lines *)
Fixpoint suffix_from (s : string) (found : option string) : string :=
  match s with
  | EmptyString => match found with Some t => t | None => EmptyString end
  | String c t =>
      if Ascii.eqb c "." then suffix_from t (Some s) else suffix_from t found
  end.

Fixpoint lines (s : string) (line : string) : list string :=
  match s with
  | EmptyString =>
      if String.eqb line EmptyString then [] else [line]
  | String c t =>
      if Ascii.eqb c (ascii_of_nat 10) then line :: lines t EmptyString
      else lines t (line ++ String c EmptyString)
  end.

Definition platform : streamlit_app.Platform (list string) :=
  {| streamlit_app.path_suffix := fun file_name => suffix_from file_name None;
     streamlit_app.read_parquet :=
       fun content =>
         if String.prefix "PAR1" content then Ok (lines content EmptyString)
         else Raise (Exn ValueError "Parquet magic bytes not found.");
     streamlit_app.read_csv :=
       fun file => Ok (lines (streamlit_app.getvalue file) EmptyString);
     streamlit_app.to_parquet :=
       fun table => "PAR1" ++ PyStr.join nl table;
     streamlit_app.len := fun table => Z.of_nat (List.length table) |}.

Definition csv_upload : streamlit_app.UploadedFile :=
  {| streamlit_app.name := "ledger.CSV";
     streamlit_app.getvalue := "property_name,profit" ++ nl ++ "Building 17,5" |}.

Definition broken_upload : streamlit_app.UploadedFile :=
  {| streamlit_app.name := "ledger.parquet";
     streamlit_app.getvalue := "not a parquet file" |}.

Definition loaded_world : streamlit_app.World :=
  {| streamlit_app.data_path := Some "PAR1 previous";
     streamlit_app.cached := true |}.

End more_samples.

(** ** Row sets and messages used to state the properties *)

Module statements.

Import data_loader graph_nodes.

(** The rows that [compute_total_pnl] keeps for a year and an optional
    integer month. *)
Definition period_rows (df : DataFrame) (y : Z) (m : option Z) : list row :=
  filter (fun r => year_is y r
                   && match m with
                      | Some mm => month_is (PyStr.of_int y ++ "-M" ++ PyStr.pad2 mm) r
                      | None => true
                      end)
         (rows df).

(** the name of the period in the error message *)
Definition period_name (y : Z) (m : option Z) : string :=
  match m with
  | Some mm => PyStr.of_int y ++ "-M" ++ PyStr.pad2 mm
  | None => PyStr.of_int y
  end.

(** A case-insensitive substring test, as the specification describes the
    text matches. *)
Definition ci_substring (query text : string) : bool :=
  PyStr.contains (PyStr.lower query) (PyStr.lower text).

(** the rows whose property name contains [query], ignoring case *)
Definition substring_rows (rt : Runtime) (df : DataFrame) (query : string)
  : list row :=
  filter (fun r => ci_substring query (cell_str rt (property_name r))) (rows df).

(** what one side of a comparison holds for the rows it matched *)
Definition side_of (first : row) (subset : list row) : asset_value :=
  {| v_property_name := property_name first;
     v_value := PyFloat.series_sum (map profit subset);
     v_records := Z.of_nat (List.length subset) |}.

Definition not_found (query : string) : exn :=
  Exn ValueError
      ("Property with name like '" ++ query ++ "' not found in dataset.").

(** the rows whose month contains [token], ignoring case, and the rows
    whose month is [token] *)
Definition month_contains_rows (df : DataFrame) (token : string) : list row :=
  filter (fun r => ci_substring token (month r)) (rows df).

Definition month_equal_rows (df : DataFrame) (token : string) : list row :=
  filter (month_is token) (rows df).

(** the result of a flexible query that matched nothing *)
Definition no_data_result (filters : option (dict json)) : query_result :=
  {| q_status := "no_data";
     q_message := Some "No records found matching the filters.";
     q_filters := filters;
     q_count := 0;
     q_total_profit := None;
     q_rows := None; q_showing := None; q_total_rows := None;
     q_aggregations := None; q_counts := None |}.

(** the entries of [filters] whose key is a column *)
Definition known_filters (df : DataFrame) (filters : dict json) : dict json :=
  filter (fun kv => has_column (columns df) (fst kv)) filters.

(** A month in the format of the dataset: digits, [-M], two digits. *)
Definition month_format (s : string) : bool :=
  let '(y, rest) := PyStr.span PyStr.is_digit s in
  negb (String.eqb y EmptyString)
  && match rest with
     | String d (String m (String c1 (String c2 EmptyString))) =>
         Ascii.eqb d "-" && Ascii.eqb m "M"
         && PyStr.is_digit c1 && PyStr.is_digit c2
     | _ => false
     end.

(** the characters of a month in the format of the dataset *)
Definition month_char (c : ascii) : bool :=
  PyStr.is_digit c || Ascii.eqb c "-" || Ascii.eqb c "M".

Definition months_well_formed (df : DataFrame) : Prop :=
  forall r, In r (rows df) -> month_format (month r) = true.

(** What [retrieved_data] holds for an intent after a retrieval that set
    no error: the entry of that intent, with a payload of its kind. *)
Definition payload_for (label : string) (data : dict payload) : Prop :=
  (label = "price_comparison" ->
   exists comp, dict_get label data = Some (PComparison comp))
  /\ (label = "asset_details" ->
      exists record, dict_get label data = Some (PAsset record))
  /\ (label = "total_pnl" ->
      exists y m v, dict_get label data = Some (PTotal y m v))
  /\ (label = "data_query" ->
      exists q, dict_get label data = Some (PQuery q)
                /\ (q_status q = "no_data" ->
                    q_message q = Some "No records found matching the filters.")).

(** a filter value that is not a list nor a dictionary *)
Definition scalar (v : json) : bool :=
  match v with JList _ | JObj _ => false | _ => true end.

(** a prompt that is configured: present and not empty *)
Definition configured (prompt : option string) : Prop :=
  exists text, prompt = Some text /\ text <> EmptyString.

(** a result of the decoder that the extractor answers with its fallback:
    [json.JSONDecodeError], a decoded value that is not an object, or an
    [AttributeError] *)
Definition falls_back (r : loads_result) : Prop :=
  (exists msg, r = JSONDecodeError msg)
  \/ (exists v, r = Loaded v /\ forall parsed, v <> JObj parsed)
  \/ (exists e, r = LoadsRaised e /\ exn_class e = AttributeError).

(** the parameters the extractor leaves when no response decodes *)
Definition fallback_params (q : string) (params : dict json) : Prop :=
  params = [ ("addresses", JList []); ("year", JNull); ("month", JNull) ]
  \/ exists names year filters action,
      params = params_record (JList (building_names names)) year JNull
                             (JObj filters) (JStr action)
      /\ (year = JNull \/ exists z, year = JInt z)
      /\ forallb (fun kv => scalar (snd kv)) filters = true.

(** the value of a call that returned *)
Definition returned {A : Type} (default : A) (r : result A) : A :=
  match r with Ok a => a | _ => default end.

End statements.

(** ** Definitions used to state the further properties *)

Module coverage.

Import data_loader graph_nodes.

(** the list [missing] of [_validate_columns] *)
Definition missing_columns (df : DataFrame) : list string :=
  filter (fun col => negb (has_column (columns df) col)) REQUIRED_COLUMNS.

(** The test one entry of [filters] applies to a row: a search of the
    column's text for a text value, an equality for another scalar, and no
    test at all for a key that is not a column. *)
Definition entry_test (rt : Runtime) (df_columns : list string)
           (entry : string * json) : result (row -> bool) :=
  if has_column df_columns (fst entry) then
    match snd entry with
    | JStr s =>
        mask <- str_contains rt s ;;
        Ok (fun r => mask (cell_str rt (row_get (fst entry) r)))
    | JList _ | JObj _ => Unmodelled
    | v => Ok (fun r => cell_eq_num (row_get (fst entry) r) v)
    end
  else Ok (fun _ => true).

(** a row passes every entry of [filters] *)
Definition passes_all (rt : Runtime) (df_columns : list string)
           (filters : dict json) (r : row) : bool :=
  forallb (fun entry => match entry_test rt df_columns entry with
                        | Ok test => test r
                        | _ => false
                        end) filters.

End coverage.

(** * Properties *)

Import data_loader graph_nodes graph_builder orchestrator statements.

(** ** Text *)

Lemma prefix_lower (a b : string) :
  String.prefix a b = true ->
  String.prefix (PyStr.lower a) (PyStr.lower b) = true.
Proof.
  revert a; induction b as [|c b IH]; intros [|d a]; simpl; auto.
  destruct (ascii_dec d c) as [->|]; [|discriminate].
  intros H. destruct (ascii_dec (PyStr.lower_ascii c) (PyStr.lower_ascii c));
    [auto | congruence].
Qed.

Lemma contains_lower (sub s : string) :
  PyStr.contains sub s = true ->
  PyStr.contains (PyStr.lower sub) (PyStr.lower s) = true.
Proof.
  induction s as [|c s IH]; cbn [PyStr.contains]; intros H;
    apply orb_true_iff in H; apply orb_true_iff.
  - destruct H as [H|H]; [|discriminate].
    left. exact (prefix_lower sub EmptyString H).
  - destruct H as [H|H].
    + left. exact (prefix_lower sub (String c s) H).
    + right. auto.
Qed.

Lemma append_nonempty (a b : string) :
  a <> EmptyString -> (a ++ b)%string <> EmptyString.
Proof. destruct a; simpl; [congruence | discriminate]. Qed.

Lemma join_nonempty (sep p : string) (ps : list string) :
  p <> EmptyString -> PyStr.join sep (p :: ps) <> EmptyString.
Proof.
  intros H. destruct ps; simpl; [exact H | now apply append_nonempty].
Qed.

(** ** The intent classifier *)

Lemma validate_label_valid (label : string) :
  mem (validate_label label) valid_intents = true.
Proof.
  unfold validate_label. destruct (mem label valid_intents) eqn:E; simpl; auto.
Qed.

Lemma keyword_override_general (query : string) :
  validate_label (keyword_override query "general_qa")
  = keyword_override query "general_qa".
Proof.
  unfold keyword_override.
  destruct (PyStr.any_in keywords_data_explicit query); [reflexivity|].
  destruct (PyStr.any_in keywords_pnl query); [reflexivity|].
  destruct (PyStr.any_in keywords_asset query); reflexivity.
Qed.

(** C2. With the intent prompt configured the classifier returns, changing
    only [intent], and the label it stores is one of the five intents.  A
    failed model call gives the primary label [general_qa]; a call that
    returns gives the reply of the model, stripped and in lower case (the
    text operations being those of ASCII text).  When the primary label,
    hence the label the model asserted, is not [general_qa] the keywords
    are not consulted: the
    label is kept if it is one of the five intents and replaced by
    [general_qa] otherwise.  When the primary label is [general_qa] the
    lower-cased query decides: a data-listing phrase gives [data_query],
    else an aggregation phrase gives [total_pnl], else a word of the asset
    vocabulary gives [asset_details], else [general_qa]; in particular a
    query that contains [show all] gives [data_query]. *)
Theorem C2_detect_intent (rt : Runtime) (state : AgentState) (prompt : string) :
  intent_system_prompt (strategy state) = Some prompt ->
  prompt <> EmptyString ->
  let primary := primary_label rt prompt (user_query state) in
  let query := PyStr.lower (user_query state) in
  exists label,
    detect_intent rt state = Ok (set_intent state (Some label))
    /\ mem label valid_intents = true
    /\ (forall e, invoke rt prompt (user_query state) = LlmRaised e ->
        primary = "general_qa")
    /\ (forall content,
          invoke rt prompt (user_query state) = LlmText content ->
          primary = PyStr.lower (PyStr.strip content))
    /\ (forall content,
          invoke rt prompt (user_query state) = LlmText content ->
          PyStr.lower (PyStr.strip content) <> "general_qa" ->
          label = if mem (PyStr.lower (PyStr.strip content)) valid_intents
                  then PyStr.lower (PyStr.strip content)
                  else "general_qa")
    /\ (primary <> "general_qa" ->
        label = if mem primary valid_intents then primary else "general_qa")
    /\ (primary = "general_qa" ->
        label = if PyStr.any_in keywords_data_explicit query then "data_query"
                else if PyStr.any_in keywords_pnl query then "total_pnl"
                else if PyStr.any_in keywords_asset query then "asset_details"
                else "general_qa")
    /\ (primary = "general_qa" ->
        PyStr.contains "show all" (user_query state) = true ->
        label = "data_query").
Proof.
  intros Hp Hne primary query.
  assert (Hrun : detect_intent rt state
                 = Ok (set_intent state
                         (Some (validate_label
                                  (if String.eqb primary "general_qa"
                                   then keyword_override query primary
                                   else primary))))).
  { unfold detect_intent. rewrite Hp.
    destruct (String.eqb_spec prompt EmptyString) as [E|_]; [contradiction|].
    reflexivity. }
  eexists. split; [exact Hrun|].
  split; [apply validate_label_valid|].
  split.
  { intros e He. unfold primary, primary_label. now rewrite He. }
  assert (Hreply : forall content,
             invoke rt prompt (user_query state) = LlmText content ->
             primary = PyStr.lower (PyStr.strip content)).
  { intros content Hc. unfold primary, primary_label. now rewrite Hc. }
  assert (Htrust : primary <> "general_qa" ->
                   validate_label
                     (if String.eqb primary "general_qa"
                      then keyword_override query primary else primary)
                   = if mem primary valid_intents then primary
                     else "general_qa").
  { intros Hn. apply String.eqb_neq in Hn. rewrite Hn.
    unfold validate_label. now destruct (mem primary valid_intents). }
  split; [exact Hreply|].
  split.
  { intros content Hc Hn. rewrite <- (Hreply content Hc) in *.
    exact (Htrust Hn). }
  split; [exact Htrust|].
  assert (Hg : primary = "general_qa" ->
               validate_label
                 (if String.eqb primary "general_qa"
                  then keyword_override query primary else primary)
               = keyword_override query "general_qa").
  { intros ->. simpl. apply keyword_override_general. }
  split.
  { intros E. rewrite (Hg E). reflexivity. }
  intros E Hshow. rewrite (Hg E). unfold keyword_override.
  assert (Hk : PyStr.any_in keywords_data_explicit query = true).
  { unfold PyStr.any_in, keywords_data_explicit. cbn [existsb].
    apply contains_lower in Hshow. change (PyStr.lower "show all") with "show all" in Hshow.
    fold query in Hshow. now rewrite Hshow. }
  now rewrite Hk.
Qed.

(** The query of the specification: the model answers [general_qa] to a
    request for all rows. *)
Lemma C2_detect_intent_witness :
  exists label,
    detect_intent
      (samples.runtime_of samples.two_buildings
         (samples.scripted " General_QA " "n/a" "n/a")
         samples.no_json samples.no_regex)
      (orchestrator.initial_state "Show all rows" samples.prompts)
    = Ok (set_intent (orchestrator.initial_state "Show all rows" samples.prompts)
            (Some label))
    /\ label = "data_query".
Proof.
  destruct (C2_detect_intent
              (samples.runtime_of samples.two_buildings
                 (samples.scripted " General_QA " "n/a" "n/a")
                 samples.no_json samples.no_regex)
              (orchestrator.initial_state "Show all rows" samples.prompts)
              "Classify the intent." eq_refl)
    as (label & Hrun & _ & _ & _ & _ & _ & Hkey & _).
  - discriminate.
  - exists label. split; [exact Hrun|]. exact (Hkey eq_refl).
Defined.

(** ** The comparison answer *)

(** A difference that compares equal to zero is not above zero, and its
    absolute value prints as [0.00]. *)
Lemma zero_difference (d : float) :
  PrimFloat.eqb d 0%float = true ->
  PrimFloat.ltb 0%float d = false
  /\ PyFloat.fmt_2f (PrimFloat.abs d) = "0.00".
Proof.
  intros H. rewrite FloatAxioms.eqb_spec in H.
  rewrite FloatAxioms.ltb_spec. unfold PyFloat.fmt_2f.
  rewrite FloatAxioms.abs_spec.
  change (Prim2SF 0%float) with (S754_zero false) in *.
  destruct (Prim2SF d) as [s|s| |s m e]; try destruct s;
    cbv in H; try discriminate H; split; reflexivity.
Qed.

Lemma length_append (a b : string) :
  String.length (a ++ b) = (String.length a + String.length b)%nat.
Proof. induction a as [|c a IH]; cbn; [reflexivity | now rewrite IH]. Qed.

Lemma append_cancel_l (a b c : string) :
  (a ++ b)%string = (a ++ c)%string -> b = c.
Proof.
  induction a as [|x a IH]; cbn; [tauto|]. intros [= H]. now apply IH.
Qed.

Lemma append_cancel_r (a b t : string) :
  (a ++ t)%string = (b ++ t)%string -> a = b.
Proof.
  revert b. induction a as [|x a IH]; intros [|y b]; cbn.
  - reflexivity.
  - intros H. apply (f_equal String.length) in H. cbn in H.
    rewrite length_append in H. lia.
  - intros H. apply (f_equal String.length) in H. cbn in H.
    rewrite length_append in H. lia.
  - intros [= -> H]. f_equal. now apply IH.
Qed.

(** C9. When the difference of the two totals is zero the answer names the
    second property, as the one that generated 0.00 more profit.  For
    every comparison the text composed is the two lines of the totals and
    the sentence that names the first property when the difference is
    above zero and the second one otherwise, with the absolute value of
    the difference; so that for two properties of different names the
    text names the first exactly when the difference is strictly
    positive.  That text is the answer the node stores for the intent
    [price_comparison]. *)
Theorem C9_tie_names_second (rt : Runtime) (comp : comparison) :
  PrimFloat.eqb (difference comp) 0%float = true ->
  better comp = v_property_name (asset_2 comp)
  /\ comparison_answer rt comp
     = ("**Comparison Result:**" ++ nl ++ nl
        ++ "* **" ++ cell_str rt (v_property_name (asset_1 comp)) ++ "**: "
        ++ PyFloat.fmt_2f (v_value (asset_1 comp)) ++ " profit" ++ nl
        ++ "* **" ++ cell_str rt (v_property_name (asset_2 comp)) ++ "**: "
        ++ PyFloat.fmt_2f (v_value (asset_2 comp)) ++ " profit" ++ nl ++ nl
        ++ "The property **" ++ cell_str rt (v_property_name (asset_2 comp))
        ++ "** generated 0.00 more profit.")%string
  /\ (forall c : comparison,
        (PrimFloat.ltb 0%float (difference c) = true ->
         better c = v_property_name (asset_1 c))
        /\ (PrimFloat.ltb 0%float (difference c) = false ->
            better c = v_property_name (asset_2 c))
        /\ (v_property_name (asset_1 c) <> v_property_name (asset_2 c) ->
            (better c = v_property_name (asset_1 c)
             <-> PrimFloat.ltb 0%float (difference c) = true)))
  /\ (forall c : comparison,
        let text_naming (name : cell) :=
          ("**Comparison Result:**" ++ nl ++ nl
           ++ "* **" ++ cell_str rt (v_property_name (asset_1 c)) ++ "**: "
           ++ PyFloat.fmt_2f (v_value (asset_1 c)) ++ " profit" ++ nl
           ++ "* **" ++ cell_str rt (v_property_name (asset_2 c)) ++ "**: "
           ++ PyFloat.fmt_2f (v_value (asset_2 c)) ++ " profit" ++ nl ++ nl
           ++ "The property **" ++ cell_str rt name ++ "** generated "
           ++ PyFloat.fmt_2f (PrimFloat.abs (difference c))
           ++ " more profit.")%string in
        (PrimFloat.ltb 0%float (difference c) = true ->
         comparison_answer rt c = text_naming (v_property_name (asset_1 c)))
        /\ (PrimFloat.ltb 0%float (difference c) = false ->
            comparison_answer rt c
            = text_naming (v_property_name (asset_2 c)))
        /\ (cell_str rt (v_property_name (asset_1 c))
            <> cell_str rt (v_property_name (asset_2 c)) ->
            (comparison_answer rt c
             = text_naming (v_property_name (asset_1 c))
             <-> PrimFloat.ltb 0%float (difference c) = true)))
  /\ (forall (state : AgentState) (c : comparison),
        text_set (error state) = false ->
        intent state = Some "price_comparison" ->
        dict_get "price_comparison" (retrieved_data state)
        = Some (PComparison c) ->
        compute_answer rt state
        = Ok (set_answer state (comparison_answer rt c))).
Proof.
  intros H. destruct (zero_difference _ H) as [Hlt Hfmt].
  assert (Hb : better comp = v_property_name (asset_2 comp)).
  { unfold better. now rewrite Hlt. }
  split; [exact Hb|]. split; [|split; [|split]].
  - unfold comparison_answer. rewrite Hb, Hfmt. reflexivity.
  - intros c. unfold better.
    destruct (PrimFloat.ltb 0%float (difference c)); repeat split;
      intros; try reflexivity; try discriminate; congruence.
  - intros c text_naming.
    assert (Htext : comparison_answer rt c = text_naming (better c))
      by reflexivity.
    assert (Hfirst : PrimFloat.ltb 0%float (difference c) = true ->
                     comparison_answer rt c
                     = text_naming (v_property_name (asset_1 c))).
    { intros Hpos. rewrite Htext. unfold better. now rewrite Hpos. }
    assert (Hsecond : PrimFloat.ltb 0%float (difference c) = false ->
                      comparison_answer rt c
                      = text_naming (v_property_name (asset_2 c))).
    { intros Hneg. rewrite Htext. unfold better. now rewrite Hneg. }
    split; [exact Hfirst|]. split; [exact Hsecond|].
    intros Hnames. split; [|exact Hfirst].
    intros Hnamed.
    destruct (PrimFloat.ltb 0%float (difference c)) eqn:E; [reflexivity|].
    exfalso. apply Hnames. rewrite (Hsecond eq_refl) in Hnamed.
    unfold text_naming in Hnamed.
    repeat match type of Hnamed with
           | (?a ++ _)%string = (?a ++ _)%string =>
               apply append_cancel_l in Hnamed
           end.
    apply append_cancel_r in Hnamed. now symmetry.
  - intros state c He Hi Hd. unfold compute_answer, intent_is.
    rewrite He, Hi. cbn [String.eqb Ascii.eqb Bool.eqb]. now rewrite Hd.
Qed.

(** Two properties with a total of 1000 each. *)
Lemma C9_tie_names_second_witness :
  better samples.tie = CStr "Building 22"
  /\ PyStr.contains "The property **Building 22** generated 0.00 more profit."
       (comparison_answer
          (samples.runtime_of samples.two_buildings samples.unreachable
             samples.no_json samples.no_regex)
          samples.tie) = true.
Proof.
  destruct (C9_tie_names_second
              (samples.runtime_of samples.two_buildings samples.unreachable
                 samples.no_json samples.no_regex)
              samples.tie eq_refl) as (Hb & Ht & _).
  split; [exact Hb|]. rewrite Ht. reflexivity.
Defined.

(** ** The query engine *)

Lemma filter_filter {A : Type} (f g : A -> bool) (l : list A) :
  filter f (filter g l) = filter (fun x => g x && f x) l.
Proof.
  induction l as [|x l IH]; simpl; [reflexivity|].
  destruct (g x); simpl; [destruct (f x)|]; now rewrite IH.
Qed.

Lemma filter_none {A : Type} (f : A -> bool) (l : list A) :
  (forall x, In x l -> f x = false) -> filter f l = [].
Proof.
  induction l as [|x l IH]; simpl; intros H; [reflexivity|].
  rewrite (H x (or_introl eq_refl)). apply IH. intros y Hy. apply H. now right.
Qed.

(** A table that loads has the twelve required columns. *)
Lemma get_assets_df_loaded (rt : Runtime) (df : DataFrame) :
  get_assets_df rt = Ok df ->
  data_file rt = Some df
  /\ forall col, In col REQUIRED_COLUMNS -> has_column (columns df) col = true.
Proof.
  unfold get_assets_df. destruct (data_file rt) as [d|]; [|discriminate].
  unfold _validate_columns.
  destruct (filter (fun col => negb (has_column (columns d) col))
                   REQUIRED_COLUMNS) as [|c l] eqn:E; simpl; [|discriminate].
  intros [= ->]. split; [reflexivity|]. intros col Hin.
  destruct (has_column (columns df) col) eqn:Hc; [reflexivity|].
  assert (Hf : In col (filter (fun col => negb (has_column (columns df) col))
                              REQUIRED_COLUMNS)).
  { apply filter_In. split; [exact Hin | now rewrite Hc]. }
  rewrite E in Hf. destruct Hf.
Qed.

Lemma pnl_subset_period (df : DataFrame) (y : Z) (m : option Z) :
  pnl_subset df (Some y) (option_map MonthInt m) = Ok (period_rows df y m).
Proof.
  unfold pnl_subset, period_rows. destruct m as [mm|]; simpl.
  - now rewrite filter_filter.
  - f_equal. apply filter_ext. intros r. now rewrite andb_true_r.
Qed.

(** C7. For a year, or a year and a month, [compute_total_pnl] raises when
    the filters keep no row: a [ValueError] whose message names the period
    ([<year>], or [<year>-M<two-digit month>]); it returns a total, the sum
    over the rows kept, only when there is at least one of them. *)
Theorem C7_empty_period_raises (rt : Runtime) (df : DataFrame) (y : Z)
        (m : option Z) :
  get_assets_df rt = Ok df ->
  (period_rows df y m = [] ->
   compute_total_pnl rt (Some y) (option_map MonthInt m)
   = Raise (Exn ValueError
              ("No financial records found for the period: "
                 ++ period_name y m ++ ".")))
  /\ (period_rows df y m <> [] ->
      compute_total_pnl rt (Some y) (option_map MonthInt m)
      = Ok (PyFloat.series_sum (map profit (period_rows df y m))))
  /\ (forall total,
        compute_total_pnl rt (Some y) (option_map MonthInt m) = Ok total ->
        period_rows df y m <> []).
Proof.
  intros Hdf.
  assert (Hrun : compute_total_pnl rt (Some y) (option_map MonthInt m)
                 = match period_rows df y m with
                   | [] => Raise (Exn ValueError
                                    ("No financial records found for the period: "
                                       ++ period_name y m ++ "."))
                   | _ => Ok (PyFloat.series_sum (map profit (period_rows df y m)))
                   end).
  { unfold compute_total_pnl. rewrite Hdf. cbn [bind].
    rewrite pnl_subset_period. cbn [bind].
    destruct (period_rows df y m); [|reflexivity].
    destruct m; reflexivity. }
  rewrite Hrun. repeat split.
  - intros ->. reflexivity.
  - destruct (period_rows df y m); [congruence | reflexivity].
  - destruct (period_rows df y m); [discriminate | congruence].
Qed.

(** The table of the scenario has no record for 2023, nor for March 2025. *)
Lemma C7_empty_period_raises_witness :
  compute_total_pnl
    (samples.runtime_of samples.two_buildings samples.unreachable
       samples.no_json samples.no_regex)
    (Some 2025) (Some (MonthInt 3))
  = Raise (Exn ValueError
             "No financial records found for the period: 2025-M03.").
Proof.
  exact (proj1 (C7_empty_period_raises
                  (samples.runtime_of samples.two_buildings samples.unreachable
                     samples.no_json samples.no_regex)
                  samples.two_buildings 2025 (Some 3) eq_refl)
               eq_refl).
Defined.

(** ** Steps of the graph *)

Lemma run_from_end (g : StateGraph) (k : nat) (cur : string) (st : AgentState) :
  successor g cur st = Some END -> run_from g k cur st = Ok ([], st).
Proof. intros H. destruct k; simpl; rewrite H; reflexivity. Qed.

Lemma run_from_step (g : StateGraph) (k : nat) (cur n : string)
      (st : AgentState) (node : AgentState -> result AgentState) :
  successor g cur st = Some n ->
  String.eqb n END = false ->
  dict_get n (nodes g) = Some node ->
  run_from g (S k) cur st
  = (st' <- node st ;;
     run <- run_from g k n st' ;;
     Ok ((n :: fst run)%list, snd run)).
Proof. intros H1 H2 H3. simpl. rewrite H1, H2, H3. reflexivity. Qed.

(** After the retrieval node the router decides on [error]. *)
Lemma run_after_retrieval (rt : Runtime) (k : nat) (st : AgentState) :
  run_from (build_graph rt) (S k) "retrieve_data" st
  = if text_set (error st)
    then (st' <- end_with_error st ;; Ok (["end_with_error"], st'))
    else (st' <- compute_answer rt st ;; Ok (["compute_answer"], st')).
Proof.
  destruct (text_set (error st)) eqn:E.
  - rewrite (run_from_step _ k "retrieve_data" "end_with_error" st end_with_error);
      [| unfold successor; cbn; unfold route_after_retrieval; now rewrite E
       | reflexivity | reflexivity ].
    destruct (end_with_error st) as [st'| |]; cbn [bind]; try reflexivity.
    now rewrite run_from_end.
  - rewrite (run_from_step _ k "retrieve_data" "compute_answer" st
               (compute_answer rt));
      [| unfold successor; cbn; unfold route_after_retrieval; now rewrite E
       | reflexivity | reflexivity ].
    destruct (compute_answer rt st) as [st'| |]; cbn [bind]; try reflexivity.
    now rewrite run_from_end.
Qed.

(** ** Month without year *)

(** C4. On a table that loads, [compute_total_pnl] called with a month and
    no year raises the [ValueError] that asks for the year.  The retrieval
    node, for the intent [total_pnl] with such parameters, returns with
    exactly that message in [error] (it does not start with
    [System Error]), and the graph goes on to [end_with_error] and ends
    there: the run does not raise, and the message becomes the answer of a
    state that had none. *)
Theorem C4_month_without_year (rt : Runtime) (df : DataFrame) (m : month_arg)
        (state : AgentState) :
  get_assets_df rt = Ok df ->
  intent state = Some "total_pnl" ->
  read_year (extracted_params state) = Some None ->
  read_month (extracted_params state) = Some (Some m) ->
  compute_total_pnl rt None (Some m) = Raise (Exn ValueError MONTH_NEEDS_YEAR)
  /\ PyStr.contains "you must also specify the year" MONTH_NEEDS_YEAR = true
  /\ String.prefix "System Error" MONTH_NEEDS_YEAR = false
  /\ retrieve_data rt state = Ok (set_error state MONTH_NEEDS_YEAR)
  /\ exists final,
      run_from (build_graph rt) recursion_limit "extract_params" state
      = Ok (["retrieve_data"; "end_with_error"], final)
      /\ error final = Some MONTH_NEEDS_YEAR
      /\ (answer state = None ->
          answer final = Some MONTH_NEEDS_YEAR
          /\ final_answer final = MONTH_NEEDS_YEAR).
Proof.
  intros Hdf Hi Hy Hm.
  assert (Hc : compute_total_pnl rt None (Some m)
               = Raise (Exn ValueError MONTH_NEEDS_YEAR)).
  { unfold compute_total_pnl. rewrite Hdf. reflexivity. }
  assert (Hr : retrieve_data rt state = Ok (set_error state MONTH_NEEDS_YEAR)).
  { unfold retrieve_data, retrieve_body, intent_is. rewrite Hi. cbn.
    rewrite Hy, Hm. cbn [lift bind]. rewrite Hc. reflexivity. }
  split; [exact Hc|]. split; [reflexivity|]. split; [reflexivity|].
  split; [exact Hr|].
  unfold recursion_limit.
  rewrite (run_from_step _ _ "extract_params" "retrieve_data" state
             (retrieve_data rt)); try reflexivity.
  rewrite Hr. cbn [bind]. rewrite run_after_retrieval.
  unfold end_with_error. cbn [error set_error text_set answer].
  destruct (text_set (answer state)) eqn:Ha; cbn [negb andb bind fst snd];
    eexists; (split; [reflexivity|]); (split; [reflexivity|]);
    intros Hnone; rewrite Hnone in Ha; [discriminate Ha|].
  split; reflexivity.
Qed.

(** The model extracted March and no year. *)
Lemma C4_month_without_year_witness :
  retrieve_data
    (samples.runtime_of samples.two_buildings samples.unreachable
       samples.no_json samples.no_regex)
    (samples.state_with "total profit in March" "total_pnl"
       (params_record (JList []) JNull (JInt 3) (JObj []) (JStr "show")))
  = Ok (set_error
          (samples.state_with "total profit in March" "total_pnl"
             (params_record (JList []) JNull (JInt 3) (JObj []) (JStr "show")))
          MONTH_NEEDS_YEAR).
Proof.
  exact (proj1 (proj2 (proj2 (proj2
           (C4_month_without_year
              (samples.runtime_of samples.two_buildings samples.unreachable
                 samples.no_json samples.no_regex)
              samples.two_buildings (MonthInt 3)
              (samples.state_with "total profit in March" "total_pnl"
                 (params_record (JList []) JNull (JInt 3) (JObj [])
                    (JStr "show")))
              eq_refl eq_refl eq_refl eq_refl))))).
Defined.

(** ** The two-record comparison *)

Lemma str_contains_literal (rt : Runtime) (pat : string) :
  literal_pattern pat = true ->
  str_contains rt pat = Ok (ci_substring pat).
Proof. intros H. unfold str_contains. now rewrite H. Qed.

Lemma filter_by_property_literal (rt : Runtime) (df : DataFrame) (q : string) :
  literal_pattern q = true ->
  _filter_by_property rt df q = Ok (substring_rows rt df q).
Proof.
  intros H. unfold _filter_by_property. now rewrite (str_contains_literal rt q H).
Qed.

Lemma aggregate_value_cases (rt : Runtime) (df : DataFrame) (q : string)
      (subset : list row) :
  _filter_by_property rt df q = Ok subset ->
  _aggregate_value rt df q
  = match subset with
    | [] => Raise (not_found q)
    | first :: _ => Ok (side_of first subset)
    end.
Proof.
  intros H. unfold _aggregate_value. rewrite H. cbn [bind].
  destruct subset; reflexivity.
Qed.

(** C5 (as amended). Each side of the comparison is resolved by the pattern
    search of [_filter_by_property] on the property name, which for a query
    without regular-expression metacharacter is the case-insensitive
    substring test.  If the search of either side selects no row the whole
    operation fails with the property-not-found error of that side and
    there is no result; when both sides match, the result carries for each
    side the name of the first row matched, the total and the number of
    rows, and the difference of the first total minus the second. *)
Theorem C5_comparison_needs_both_sides (rt : Runtime) (df : DataFrame)
        (address1 address2 : string) :
  get_assets_df rt = Ok df ->
  (forall q, literal_pattern q = true ->
             _filter_by_property rt df q = Ok (substring_rows rt df q))
  /\ (_filter_by_property rt df address1 = Ok [] ->
      compare_assets_by_price rt address1 address2 = Raise (not_found address1))
  /\ (forall r1 rs1,
        _filter_by_property rt df address1 = Ok (r1 :: rs1) ->
        _filter_by_property rt df address2 = Ok [] ->
        compare_assets_by_price rt address1 address2
        = Raise (not_found address2))
  /\ (forall r1 rs1 r2 rs2,
        _filter_by_property rt df address1 = Ok (r1 :: rs1) ->
        _filter_by_property rt df address2 = Ok (r2 :: rs2) ->
        compare_assets_by_price rt address1 address2
        = Ok {| asset_1 := side_of r1 (r1 :: rs1);
                asset_2 := side_of r2 (r2 :: rs2);
                difference :=
                  PrimFloat.sub
                    (PyFloat.series_sum (map profit (r1 :: rs1)))
                    (PyFloat.series_sum (map profit (r2 :: rs2))) |}).
Proof.
  intros Hdf. split; [intros q; apply filter_by_property_literal|].
  unfold compare_assets_by_price. rewrite Hdf. cbn [bind].
  split; [|split].
  - intros H1. now rewrite (aggregate_value_cases _ _ _ _ H1).
  - intros r1 rs1 H1 H2.
    rewrite (aggregate_value_cases _ _ _ _ H1). cbn [bind].
    now rewrite (aggregate_value_cases _ _ _ _ H2).
  - intros r1 rs1 r2 rs2 H1 H2.
    rewrite (aggregate_value_cases _ _ _ _ H1). cbn [bind].
    now rewrite (aggregate_value_cases _ _ _ _ H2).
Qed.

(** The scenario of the specification: 1000 against 600, and a property
    that does not exist. *)
Lemma C5_comparison_needs_both_sides_witness :
  (exists comp,
      compare_assets_by_price samples.rt_plain "building 17" "BUILDING 22"
      = Ok comp
      /\ v_property_name (asset_1 comp) = CStr "Building 17"
      /\ v_property_name (asset_2 comp) = CStr "Building 22"
      /\ difference comp = 400%float)
  /\ compare_assets_by_price samples.rt_plain "Building 17" "Building 999"
     = Raise (not_found "Building 999").
Proof.
  destruct (C5_comparison_needs_both_sides samples.rt_plain samples.two_buildings
              "building 17" "BUILDING 22" eq_refl) as (_ & _ & _ & Hboth).
  destruct (C5_comparison_needs_both_sides samples.rt_plain samples.two_buildings
              "Building 17" "Building 999" eq_refl) as (_ & _ & Hsecond & _).
  split.
  - eexists. split; [exact (Hboth _ _ _ _ eq_refl eq_refl)|].
    repeat split; reflexivity.
  - exact (Hsecond _ _ eq_refl eq_refl).
Defined.

(** The claim as it is written fails on a query that is a pattern: no
    property name of the table contains a full stop, so the substring match
    of the first side selects no row, and yet the comparison returns a
    result, because the search of the pattern [.] finds every name. *)
Lemma C5_substring_counterexample :
  substring_rows samples.rt_dot samples.two_buildings "." = []
  /\ compare_assets_by_price samples.rt_dot "." "Building 22"
     = Ok {| asset_1 := {| v_property_name := CStr "Building 17";
                           v_value := 1600; v_records := 2 |};
             asset_2 := {| v_property_name := CStr "Building 22";
                           v_value := 600; v_records := 1 |};
             difference := 1000 |}.
Proof. split; reflexivity. Qed.

(** ** The flexible query *)

Lemma apply_filters_app (rt : Runtime) (cols : list string)
      (fs gs : dict json) (subset : list row) :
  apply_filters rt cols (fs ++ gs)%list subset
  = (kept <- apply_filters rt cols fs subset ;; apply_filters rt cols gs kept).
Proof.
  revert subset. induction fs as [|[k v] fs IH]; intros subset; [reflexivity|].
  cbn [app apply_filters]. destruct (has_column cols k); [|apply IH].
  destruct v; try apply IH; try reflexivity.
  destruct (str_contains rt s); cbn [bind]; [apply IH | reflexivity | reflexivity].
Qed.

Lemma apply_filters_known (rt : Runtime) (df : DataFrame) (fs : dict json)
      (subset : list row) :
  apply_filters rt (columns df) fs subset
  = apply_filters rt (columns df) (known_filters df fs) subset.
Proof.
  revert subset. induction fs as [|[k v] fs IH]; intros subset; [reflexivity|].
  unfold known_filters in *. cbn [filter fst apply_filters].
  destruct (has_column (columns df) k) eqn:E; [|apply IH].
  cbn [apply_filters]. rewrite E.
  destruct v; try (now rewrite IH); try reflexivity.
  destruct (str_contains rt s); cbn [bind]; [apply IH | reflexivity | reflexivity].
Qed.

Lemma apply_filters_unknown (rt : Runtime) (cols : list string) (fs : dict json)
      (subset : list row) :
  (forall kv, In kv fs -> has_column cols (fst kv) = false) ->
  apply_filters rt cols fs subset = Ok subset.
Proof.
  induction fs as [|[k v] fs IH]; intros H; [reflexivity|].
  cbn [apply_filters]. pose proof (H (k, v) (or_introl eq_refl)) as Hk.
  cbn [fst] in Hk. rewrite Hk. apply IH. intros kv Hkv. apply H. now right.
Qed.

(** one text filter on the month column *)
Lemma apply_month_filter (rt : Runtime) (cols : list string) (token : string)
      (subset : list row) :
  has_column cols "month" = true ->
  literal_pattern token = true ->
  apply_filters rt cols [("month", JStr token)] subset
  = Ok (filter (fun r => ci_substring token (month r)) subset).
Proof.
  intros Hc Hl. cbn [apply_filters]. rewrite Hc.
  rewrite (str_contains_literal rt token Hl). reflexivity.
Qed.

(** What the query returns for the rows its filters kept. *)
Lemma query_data_flexible_no_data (rt : Runtime) (df : DataFrame)
      (fs : dict json) (action : json) (limit : Z) :
  get_assets_df rt = Ok df ->
  apply_filters rt (columns df) fs (rows df) = Ok [] ->
  query_data_flexible rt (Some fs) action limit = Ok (no_data_result (Some fs)).
Proof.
  intros Hdf H. unfold query_data_flexible. rewrite Hdf. cbn [bind].
  rewrite H. reflexivity.
Qed.

Lemma query_data_flexible_count (rt : Runtime) (df : DataFrame)
      (fs : dict json) (action : json) (limit : Z) (kept : list row) :
  get_assets_df rt = Ok df ->
  apply_filters rt (columns df) fs (rows df) = Ok kept ->
  exists q, query_data_flexible rt (Some fs) action limit = Ok q
            /\ q_count q = Z.of_nat (List.length kept)
            /\ q_filters q = Some fs.
Proof.
  intros Hdf H. unfold query_data_flexible. rewrite Hdf. cbn [bind].
  rewrite H. cbn [bind]. destruct kept as [|r kept].
  - eexists. split; [reflexivity|]. split; reflexivity.
  - destruct (is_action action "show"); [eexists; repeat split; reflexivity|].
    destruct (is_action action "aggregate"); [eexists; repeat split; reflexivity|].
    destruct (is_action action "count"); eexists; repeat split; reflexivity.
Qed.

(** C8. For every filters mapping, action and limit, on a table that
    loads: the entries whose key is not a column of the table take no part
    in the selection, whatever their value (the rows kept are those kept by
    the other entries alone, and a mapping of unknown keys only keeps every
    row); and when the filters keep no row the query returns, with the
    status [no_data], the filters mapping as it was given, the count zero,
    and neither rows nor any other section. *)
Theorem C8_flexible_query_no_data (rt : Runtime) (df : DataFrame)
        (filters : dict json) (action : json) (limit : Z) :
  get_assets_df rt = Ok df ->
  (forall subset,
      apply_filters rt (columns df) filters subset
      = apply_filters rt (columns df) (known_filters df filters) subset)
  /\ ((forall kv, In kv filters -> has_column (columns df) (fst kv) = false) ->
      apply_filters rt (columns df) filters (rows df) = Ok (rows df))
  /\ (apply_filters rt (columns df) filters (rows df) = Ok [] ->
      query_data_flexible rt (Some filters) action limit
      = Ok {| q_status := "no_data";
              q_message := Some "No records found matching the filters.";
              q_filters := Some filters;
              q_count := 0;
              q_total_profit := None;
              q_rows := None; q_showing := None; q_total_rows := None;
              q_aggregations := None; q_counts := None |}).
Proof.
  intros Hdf. split; [intros subset; apply apply_filters_known|].
  split; [apply apply_filters_unknown|].
  intros H. exact (query_data_flexible_no_data rt df filters action limit Hdf H).
Qed.

(** A filter on a column the table does not have, with a list for value,
    next to a property that does not exist. *)
Lemma C8_flexible_query_no_data_witness :
  query_data_flexible samples.rt_plain
    (Some [ ("colour", JList [JStr "red"]);
            ("property_name", JStr "Building 999") ])
    (JStr "show") 200
  = Ok (no_data_result
          (Some [ ("colour", JList [JStr "red"]);
                  ("property_name", JStr "Building 999") ])).
Proof.
  exact (proj2 (proj2 (C8_flexible_query_no_data samples.rt_plain
                         samples.two_buildings
                         [ ("colour", JList [JStr "red"]);
                           ("property_name", JStr "Building 999") ]
                         (JStr "show") 200 eq_refl))
               eq_refl).
Defined.

(** ** The month filter and the monthly total *)

(** C6 (as amended). On every table with a month column, the flexible
    filter [month = "2025-M01"] selects the rows whose month contains that
    text, ignoring case, and [compute_total_pnl(year=2025, month=1)] sums
    the rows whose year equals 2025 and whose month is exactly that text.
    The rows summed are always among the rows selected (they are the
    selected rows with that exact month and that year), and the two row
    sets are equal when every row whose month contains the text, ignoring
    case, has exactly that month and the year 2025. *)
Theorem C6_month_filter_and_total (rt : Runtime) (df : DataFrame) :
  has_column (columns df) "month" = true ->
  apply_filters rt (columns df) [("month", JStr "2025-M01")] (rows df)
  = Ok (month_contains_rows df "2025-M01")
  /\ pnl_subset df (Some 2025) (Some (MonthInt 1)) = Ok (period_rows df 2025 (Some 1))
  /\ period_rows df 2025 (Some 1)
     = filter (fun r => year_is 2025 r && month_is "2025-M01" r)
              (month_contains_rows df "2025-M01")
  /\ (forall r, In r (period_rows df 2025 (Some 1)) ->
                In r (month_contains_rows df "2025-M01"))
  /\ ((forall r, In r (rows df) ->
                 ci_substring "2025-M01" (month r) = true ->
                 month r = "2025-M01" /\ year_is 2025 r = true) ->
      month_contains_rows df "2025-M01" = period_rows df 2025 (Some 1)).
Proof.
  intros Hc.
  assert (Hsub : forall r, month_is "2025-M01" r = true ->
                           ci_substring "2025-M01" (month r) = true).
  { intros r H. unfold month_is in H. apply String.eqb_eq in H. rewrite H.
    reflexivity. }
  assert (Heq : period_rows df 2025 (Some 1)
                = filter (fun r => year_is 2025 r && month_is "2025-M01" r)
                         (month_contains_rows df "2025-M01")).
  { unfold period_rows, month_contains_rows. rewrite filter_filter.
    apply filter_ext. intros r.
    change (PyStr.of_int 2025 ++ "-M" ++ PyStr.pad2 1)%string with "2025-M01".
    destruct (month_is "2025-M01" r) eqn:E.
    - now rewrite (Hsub r E).
    - now rewrite !andb_false_r. }
  split; [now apply apply_month_filter|].
  split; [exact (pnl_subset_period df 2025 (Some 1))|].
  split; [exact Heq|]. split.
  - intros r Hr. rewrite Heq in Hr. apply filter_In in Hr. tauto.
  - intros Hwf. rewrite Heq. symmetry.
    rewrite (filter_ext_in _ (fun _ => true)).
    + clear. induction (month_contains_rows df "2025-M01"); simpl; congruence.
    + intros r Hr. unfold month_contains_rows in Hr. apply filter_In in Hr.
      destruct Hr as [Hin Hm]. destruct (Hwf r Hin Hm) as [Hmo Hy].
      rewrite Hy. unfold month_is. rewrite Hmo. reflexivity.
Qed.

(** On the table of the scenario the two row sets are the one record of
    January 2025. *)
Lemma C6_month_filter_and_total_witness :
  month_contains_rows samples.two_buildings "2025-M01"
  = period_rows samples.two_buildings 2025 (Some 1).
Proof.
  refine (proj2 (proj2 (proj2 (proj2
            (C6_month_filter_and_total samples.rt_plain samples.two_buildings
               eq_refl)))) _).
  intros r [<-|[<-|[]]]; intros H; [split; reflexivity | discriminate H].
Defined.

(** The claim as it is written fails on a table where one record of
    January 2025 has no year and another one spells its month in lower
    case: the flexible filter selects three rows, two rows have the literal
    month, and the total sums one row. *)
Lemma C6_row_sets_counterexample :
  (exists selected,
      apply_filters samples.rt_loose (columns samples.loose_months)
        [("month", JStr "2025-M01")] (rows samples.loose_months) = Ok selected
      /\ List.length selected = 3%nat)
  /\ List.length (month_equal_rows samples.loose_months "2025-M01") = 2%nat
  /\ (exists summed,
         pnl_subset samples.loose_months (Some 2025) (Some (MonthInt 1))
         = Ok summed
         /\ List.length summed = 1%nat).
Proof.
  split; [eexists; split; reflexivity|].
  split; [reflexivity|]. eexists; split; reflexivity.
Qed.

(** ** A month without a year in a data query *)

Lemma chars_of_append (a b : string) :
  PyStr.chars_of (a ++ b) = (PyStr.chars_of a ++ PyStr.chars_of b)%list.
Proof. induction a as [|c a IH]; simpl; [reflexivity | now rewrite IH]. Qed.

Lemma literal_pattern_append (a b : string) :
  literal_pattern (a ++ b) = literal_pattern a && literal_pattern b.
Proof. unfold literal_pattern. now rewrite chars_of_append, forallb_app. Qed.

Lemma literal_uint (u : Decimal.uint) :
  literal_pattern (NilEmpty.string_of_uint u) = true.
Proof. induction u; simpl; auto. Qed.

Lemma literal_nilzero_uint (u : Decimal.uint) :
  literal_pattern (NilZero.string_of_uint u) = true.
Proof.
  destruct u; try reflexivity;
    match goal with
    | |- literal_pattern (NilZero.string_of_uint ?x) = true =>
        exact (literal_uint x)
    end.
Qed.

Lemma literal_of_int (z : Z) : literal_pattern (PyStr.of_int z) = true.
Proof.
  unfold PyStr.of_int, NilZero.string_of_int.
  destruct (Z.to_int z) as [u|u]; [apply literal_nilzero_uint|].
  change (String "-" (NilZero.string_of_uint u))
    with ("-" ++ NilZero.string_of_uint u)%string.
  rewrite literal_pattern_append, literal_nilzero_uint. reflexivity.
Qed.

Lemma literal_pad2 (z : Z) : literal_pattern (PyStr.pad2 z) = true.
Proof.
  unfold PyStr.pad2.
  destruct (String.length (PyStr.of_int z) <? 2)%nat;
    [rewrite literal_pattern_append|]; rewrite literal_of_int; reflexivity.
Qed.

(** Every row a sequence of filters keeps is a row it was given. *)
Lemma apply_filters_incl (rt : Runtime) (cols : list string) (fs : dict json) :
  forall subset kept,
    apply_filters rt cols fs subset = Ok kept ->
    forall r, In r kept -> In r subset.
Proof.
  induction fs as [|[k v] fs IH]; intros subset kept H r Hr.
  - cbn in H. injection H as <-. exact Hr.
  - cbn [apply_filters] in H. destruct (has_column cols k); [|eauto].
    destruct v; try discriminate H;
      try (specialize (IH _ _ H r Hr); apply filter_In in IH; tauto).
    destruct (str_contains rt s) as [mask| |]; cbn [bind] in H;
      try discriminate H.
    specialize (IH _ _ H r Hr). apply filter_In in IH. tauto.
Qed.

Lemma dict_set_absent {V : Type} (k : string) (v : V) (d : dict V) :
  dict_has k d = false -> dict_set k v d = (d ++ [(k, v)])%list.
Proof.
  unfold dict_has. induction d as [|[k' v'] d IH]; [reflexivity|].
  cbn [dict_get dict_set app]. destruct (String.eqb k k'); [discriminate|].
  intros H. now rewrite IH.
Qed.

(** A text that contains a pattern contains its first character. *)
Lemma contains_first_char (c : ascii) (p s : string) :
  PyStr.contains (String c p) s = true ->
  existsb (Ascii.eqb c) (PyStr.chars_of s) = true.
Proof.
  induction s as [|d s IH]; cbn [PyStr.contains]; intros H;
    apply orb_true_iff in H; destruct H as [H|H]; try discriminate.
  - cbn [String.prefix] in H. destruct (ascii_dec c d) as [->|]; [|discriminate].
    cbn. now rewrite Ascii.eqb_refl.
  - cbn. rewrite (IH H). apply orb_true_r.
Qed.

Lemma chars_of_lower (s : string) :
  PyStr.chars_of (PyStr.lower s) = map PyStr.lower_ascii (PyStr.chars_of s).
Proof. induction s as [|c s IH]; simpl; [reflexivity | now rewrite IH]. Qed.

Lemma span_chars (p : ascii -> bool) (s a b : string) :
  PyStr.span p s = (a, b) ->
  s = (a ++ b)%string /\ forallb p (PyStr.chars_of a) = true.
Proof.
  revert a b. induction s as [|c s IH]; intros a b; cbn [PyStr.span].
  - intros [= <- <-]. split; reflexivity.
  - destruct (p c) eqn:Hp.
    + destruct (PyStr.span p s) as [a' b'] eqn:E. intros [= <- <-].
      destruct (IH a' b' eq_refl) as [-> Hall]. split; [reflexivity|].
      cbn. now rewrite Hp, Hall.
    + intros [= <- <-]. split; reflexivity.
Qed.

Lemma month_format_chars (s : string) :
  month_format s = true -> forallb month_char (PyStr.chars_of s) = true.
Proof.
  unfold month_format. destruct (PyStr.span PyStr.is_digit s) as [y rest] eqn:E.
  destruct (span_chars _ _ _ _ E) as [-> Hy]. intros H.
  apply andb_true_iff in H. destruct H as [_ H].
  rewrite chars_of_append, forallb_app. apply andb_true_iff. split.
  - apply forallb_forall. intros c Hc.
    rewrite forallb_forall in Hy. unfold month_char. now rewrite (Hy c Hc).
  - destruct rest as [|d [|m [|c1 [|c2 [|? ?]]]]]; try discriminate H.
    apply andb_true_iff in H. destruct H as [H H4].
    apply andb_true_iff in H. destruct H as [H H3].
    apply andb_true_iff in H. destruct H as [H1 H2].
    unfold month_char, PyStr.chars_of. cbn [list_ascii_of_string forallb].
    rewrite H1, H2, H3, H4. rewrite !orb_true_r. reflexivity.
Qed.

Lemma month_char_not_n (c : ascii) :
  month_char c = true -> Ascii.eqb "n" (PyStr.lower_ascii c) = false.
Proof.
  destruct c as [[] [] [] [] [] [] [] []]; vm_compute; congruence.
Qed.

(** No month in the format of the dataset contains a text that starts
    with the letter N, whatever the case. *)
Lemma month_format_no_none (s tail : string) :
  month_format s = true ->
  ci_substring (String "N" tail) s = false.
Proof.
  intros H. apply month_format_chars in H.
  destruct (ci_substring (String "N" tail) s) eqn:E; [|reflexivity].
  unfold ci_substring in E. cbn [PyStr.lower] in E.
  apply contains_first_char in E. rewrite chars_of_lower in E.
  apply existsb_exists in E. destruct E as (c & Hc & Heq).
  apply in_map_iff in Hc. destruct Hc as (c0 & <- & Hc0).
  rewrite forallb_forall in H.
  change (PyStr.lower_ascii "N") with "n"%char in Heq.
  now rewrite (month_char_not_n c0 (H c0 Hc0)) in Heq.
Qed.

(** C10 (as amended). For the intent [data_query], on a table that loads
    and whose months have the format of the dataset: when the parameters
    hold an integer month and no year, and the filters (which apply without
    error) have no month of their own, the retrieval node adds the month
    filter built from the text [None] ([None-M03] for the month 3), which
    no row matches; the node returns without touching [error] (there is no
    month-requires-year error), and [retrieved_data] holds the [no_data]
    result of the query with the filters so completed. *)
Theorem C10_data_query_month_without_year (rt : Runtime) (df : DataFrame)
        (state : AgentState) (m : Z) (fs : dict json) (kept : list row) :
  get_assets_df rt = Ok df ->
  months_well_formed df ->
  intent state = Some "data_query" ->
  get_or "year" JNull (extracted_params state) = JNull ->
  get_or "month" JNull (extracted_params state) = JInt m ->
  get_or "filters" (JObj []) (extracted_params state) = JObj fs ->
  dict_has "month" fs = false ->
  apply_filters rt (columns df) fs (rows df) = Ok kept ->
  exists state',
    retrieve_data rt state = Ok state'
    /\ error state' = error state
    /\ retrieved_data state'
       = [("data_query",
           PQuery (no_data_result
                     (Some (fs ++ [("month", JStr ("None-M" ++ PyStr.pad2 m))])%list)))].
Proof.
  intros Hdf Hwf Hi Hy Hm Hf Hno Hfs.
  set (token := ("None-M" ++ PyStr.pad2 m)%string).
  assert (Hadd : add_period None (Some (MonthInt m)) fs
                 = (fs ++ [("month", JStr token)])%list).
  { unfold add_period. rewrite Hno. cbn [negb fmt_year].
    now apply dict_set_absent. }
  assert (Hmonth : has_column (columns df) "month" = true).
  { apply (get_assets_df_loaded rt df Hdf). cbn. tauto. }
  assert (Hlit : literal_pattern token = true).
  { unfold token. rewrite literal_pattern_append, literal_pad2. reflexivity. }
  assert (Hsel : apply_filters rt (columns df) (fs ++ [("month", JStr token)])%list
                   (rows df) = Ok []).
  { rewrite apply_filters_app, Hfs. cbn [bind].
    rewrite (apply_month_filter rt _ token kept Hmonth Hlit). f_equal.
    apply filter_none. intros r Hr.
    apply (month_format_no_none (month r) ("one-M" ++ PyStr.pad2 m)).
    apply Hwf. exact (apply_filters_incl rt _ fs _ _ Hfs r Hr). }
  unfold retrieve_data, retrieve_body, intent_is. rewrite Hi.
  cbn [String.eqb Ascii.eqb Bool.eqb].
  unfold read_year, read_month, read_filters. rewrite Hy, Hm, Hf, Hadd.
  rewrite (query_data_flexible_no_data rt df _ _ _ Hdf Hsel). cbn [bind].
  eexists. split; [reflexivity|]. split; [|reflexivity].
  destruct (dict_has "filters" (extracted_params state)); reflexivity.
Qed.

(** The model extracted the month 3 and nothing else. *)
Lemma C10_data_query_month_without_year_witness :
  exists state',
    retrieve_data samples.rt_plain
      (samples.state_with "rows of March" "data_query"
         (params_record (JList []) JNull (JInt 3) (JObj []) (JStr "show")))
    = Ok state'
    /\ error state' = None
    /\ retrieved_data state'
       = [("data_query",
           PQuery (no_data_result (Some [("month", JStr "None-M03")])))].
Proof.
  refine (C10_data_query_month_without_year samples.rt_plain
            samples.two_buildings
            (samples.state_with "rows of March" "data_query"
               (params_record (JList []) JNull (JInt 3) (JObj []) (JStr "show")))
            3 [] (rows samples.two_buildings)
            eq_refl _ eq_refl eq_refl eq_refl eq_refl eq_refl eq_refl).
  intros r [<-|[<-|[]]]; reflexivity.
Defined.

(** The claim as it is written fails when the filters already hold a month:
    the node leaves them as they are, and the query finds the record of
    January 2025.  It fails as well when another filter is not a pattern:
    the query raises, and the node reports a system error. *)
Lemma C10_existing_month_counterexample :
  (exists state' q,
      retrieve_data samples.rt_plain
        (samples.state_with "rows of March" "data_query"
           (params_record (JList []) JNull (JInt 3)
              (JObj [("month", JStr "2025-M01")]) (JStr "show")))
      = Ok state'
      /\ retrieved_data state' = [("data_query", PQuery q)]
      /\ q_status q = "success"
      /\ q_count q = 1
      /\ q_filters q = Some [("month", JStr "2025-M01")])
  /\ (exists state',
         retrieve_data samples.rt_paren
           (samples.state_with "rows of March" "data_query"
              (params_record (JList []) JNull (JInt 3)
                 (JObj [("property_name", JStr "(")]) (JStr "show")))
         = Ok state'
         /\ error state'
            = Some "System Error: missing ), unterminated subpattern at position 0"
         /\ retrieved_data state' = []).
Proof.
  split.
  - eexists. eexists. split; [reflexivity|]. repeat split; reflexivity.
  - eexists. split; [reflexivity|]. split; reflexivity.
Qed.

(** ** The parameter extractor *)

(** The addresses of the fallback extraction are final: either there are
    buildings, or the filters have no property name. *)
Lemma fallback_reconciled (q : string) :
  exists addresses year filters action,
    fallback_extraction q = (addresses, year, JNull, JObj filters, JStr action)
    /\ reconcile_addresses q addresses (JObj filters) = Ok addresses.
Proof.
  unfold fallback_extraction.
  destruct (re_search match_month_token q);
    [|destruct (re_search match_year_token q)];
    (destruct (re_findall match_building q) as [|b bs];
     destruct (re_search match_tenant q));
    do 4 eexists; (split; [reflexivity|]); reflexivity.
Qed.

(** C1 (as amended). For every intent other than [general_qa], with the
    extraction prompt configured: a failed model call is raised again by
    the node; when the model returns a text, a response on which the
    decoder raises [json.JSONDecodeError], or that decodes to a value
    that is not an object, triggers the fallback on the query text, and
    the node returns with the five-field record of the fallback; any
    other exception of the decoder (but an [AttributeError], which the
    node catches as well) is raised by the node; a response that decodes
    to an object is read field by field, and the node returns with the
    five-field record whenever the addresses of the object are not empty,
    or its filters are a mapping whose property name is absent, empty or
    a text.  The record has the keys [addresses], [year], [month],
    [filters] and [action]. *)
Theorem C1_extract_params_record (rt : Runtime) (state : AgentState)
        (prompt : string) :
  intent_is state "general_qa" = false ->
  extract_system_prompt (strategy state) = Some prompt ->
  prompt <> EmptyString ->
  (forall e, invoke rt prompt (user_query state) = LlmRaised e ->
             extract_params rt state = Raise e)
  /\ (forall content,
        invoke rt prompt (user_query state) = LlmText content ->
        (((exists msg,
              json_loads rt (clean_response content) = JSONDecodeError msg)
          \/ (exists v,
                 json_loads rt (clean_response content) = Loaded v
                 /\ forall parsed, v <> JObj parsed)
          \/ (exists e,
                 json_loads rt (clean_response content) = LoadsRaised e
                 /\ exn_class e = AttributeError)) ->
         exists addresses year filters action,
           fallback_extraction (user_query state)
           = (addresses, year, JNull, JObj filters, JStr action)
           /\ extract_params rt state
              = Ok (set_extracted_params state
                      (params_record addresses year JNull (JObj filters)
                                     (JStr action))))
        /\ (forall e,
              json_loads rt (clean_response content) = LoadsRaised e ->
              exn_class e <> AttributeError ->
              extract_params rt state = Raise e)
        /\ (forall parsed,
              json_loads rt (clean_response content) = Loaded (JObj parsed) ->
              (truthy (get_or "addresses" JNull parsed) = true
               \/ exists fs,
                   get_or "filters" (JObj []) parsed = JObj fs
                   /\ (truthy (get_or "property_name" JNull fs) = false
                       \/ exists s, get_or "property_name" JNull fs = JStr s)) ->
              exists addresses,
                extract_params rt state
                = Ok (set_extracted_params state
                        (params_record addresses
                           (get_or "year" JNull parsed)
                           (get_or "month" JNull parsed)
                           (get_or "filters" (JObj []) parsed)
                           (get_or "action" (JStr "show") parsed)))))
  /\ (forall addresses year month filters action,
        map fst (params_record addresses year month filters action)
        = ["addresses"; "year"; "month"; "filters"; "action"]).
Proof.
  intros Hi Hp Hne.
  assert (Hrun : extract_params rt state
                 = match invoke rt prompt (user_query state) with
                   | LlmRaised e => Raise e
                   | LlmText content =>
                       parsed <- parse_response rt content ;;
                       let '(addresses, year, month, filters, action) :=
                         match parsed with
                         | Some fields => fields
                         | None => fallback_extraction (user_query state)
                         end in
                       addresses <-
                         reconcile_addresses (user_query state) addresses filters ;;
                       Ok (set_extracted_params state
                             (params_record addresses year month filters action))
                   end).
  { unfold extract_params. unfold intent_is in Hi. rewrite Hi, Hp.
    destruct (String.eqb_spec prompt EmptyString); [contradiction | reflexivity]. }
  split; [|split].
  - intros e He. now rewrite Hrun, He.
  - intros content Hc. rewrite Hrun, Hc. split; [|split].
    + intros Hnot.
      assert (Hparse : parse_response rt content = Ok None).
      { unfold parse_response.
        destruct Hnot as [(msg & ->)|[(v & -> & Hv)|(e & -> & ->)]];
          try reflexivity.
        destruct v; try reflexivity. exfalso. exact (Hv _ eq_refl). }
      rewrite Hparse. cbn [bind].
      destruct (fallback_reconciled (user_query state))
        as (a & y & f & act & Hfb & Hrec).
      exists a, y, f, act. split; [exact Hfb|].
      rewrite Hfb, Hrec. reflexivity.
    + intros e Hj Hclass. unfold parse_response. rewrite Hj.
      destruct (exn_class e); try reflexivity. now elim Hclass.
    + intros parsed Hj Hshape. unfold parse_response. rewrite Hj.
      cbn [bind]. unfold reconcile_addresses.
      destruct (truthy (get_or "addresses" JNull parsed)) eqn:Ha.
      * rewrite Ha. eexists. reflexivity.
      * destruct Hshape as [Habs|(fs & Hf & Hprop)]; [discriminate|].
        cbn [truthy]. rewrite Hf.
        destruct Hprop as [Hp0|(s & Hs)].
        -- rewrite Hp0. eexists. reflexivity.
        -- rewrite Hs.
           destruct (truthy (JStr s)); [|eexists; reflexivity].
           cbn [building_in bind].
           destruct (PyStr.contains "Building" s); [|eexists; reflexivity].
           destruct (re_findall match_building (user_query state));
             eexists; reflexivity.
  - reflexivity.
Qed.

(** The model answers with a sentence: the fallback finds the building,
    the month and the action in the query. *)
Lemma C1_extract_params_record_witness :
  extract_params samples.rt_prose
    (samples.state_with "list rows of Building 17 for 2025-M01" "data_query" [])
  = Ok (set_extracted_params
          (samples.state_with "list rows of Building 17 for 2025-M01"
             "data_query" [])
          (params_record (JList [JStr "Building 17"]) (JInt 2025) JNull
             (JObj [ ("month", JStr "2025-M01");
                     ("property_name", JStr "Building 17") ])
             (JStr "show"))).
Proof.
  destruct (C1_extract_params_record samples.rt_prose
              (samples.state_with "list rows of Building 17 for 2025-M01"
                 "data_query" [])
              "Extract the parameters." eq_refl eq_refl)
    as (_ & Htext & _); [discriminate|].
  destruct (Htext "Sure, here are the parameters." eq_refl) as (Hfall & _).
  destruct Hfall as (a & y & f & act & Hfb & Hrun);
    [left; eexists; reflexivity|].
  rewrite Hrun. injection Hfb as <- <- <- <-. reflexivity.
Defined.

(** The claim as it is written fails three times.  A response that is a
    JSON object with [null] for filters is read without the fallback, and
    the node raises on it; a response on which the decoder raises another
    exception than [json.JSONDecodeError], as the [RecursionError] of a
    thousand opening brackets, is not caught either; and a failed model
    call is fatal as well, though the extraction prompt is configured. *)
Lemma C1_raises_counterexample :
  intent_is (samples.state_with "show the rows" "data_query" []) "general_qa"
  = false
  /\ extract_system_prompt samples.prompts = Some "Extract the parameters."
  /\ invoke samples.rt_filters_null "Extract the parameters." "show the rows"
     = LlmText samples.filters_null_text
  /\ json_loads samples.rt_filters_null
       (clean_response samples.filters_null_text)
     = Loaded (JObj [("filters", JNull)])
  /\ extract_params samples.rt_filters_null
       (samples.state_with "show the rows" "data_query" [])
     = Raise (Exn AttributeError "'NoneType' object has no attribute 'get'")
  /\ invoke samples.rt_deep "Extract the parameters." "show the rows"
     = LlmText samples.deep_text
  /\ exn_class
       (Exn RecursionError
          ("maximum recursion depth exceeded while decoding a JSON array "
             ++ "from a unicode string")) <> AttributeError
  /\ extract_params samples.rt_deep
       (samples.state_with "show the rows" "data_query" [])
     = Raise (Exn RecursionError
                ("maximum recursion depth exceeded while decoding a JSON array "
                   ++ "from a unicode string"))
  /\ extract_params samples.rt_plain
       (samples.state_with "show the rows" "data_query" [])
     = Raise (Exn ModelError "Connection error.").
Proof. repeat split; try reflexivity. discriminate. Qed.

(** ** The pipeline *)

Lemma valid_intent_cases (label : string) :
  mem label valid_intents = true ->
  label = "price_comparison" \/ label = "total_pnl"
  \/ label = "asset_details" \/ label = "general_qa" \/ label = "data_query".
Proof.
  unfold mem, valid_intents. cbn [existsb]. rewrite !orb_true_iff.
  rewrite !String.eqb_eq. intuition discriminate.
Qed.

Lemma detect_intent_ok (rt : Runtime) (s s' : AgentState) :
  detect_intent rt s = Ok s' ->
  exists label, s' = set_intent s (Some label)
                /\ mem label valid_intents = true.
Proof.
  unfold detect_intent.
  destruct (intent_system_prompt (strategy s)) as [p|]; [|discriminate].
  destruct (String.eqb p EmptyString); [discriminate|].
  intros [= <-]. eexists. split; [reflexivity | apply validate_label_valid].
Qed.

Lemma extract_params_ok (rt : Runtime) (s s' : AgentState) :
  extract_params rt s = Ok s' ->
  exists params, s' = set_extracted_params s params.
Proof.
  unfold extract_params.
  destruct (match intent s with
            | Some i => String.eqb i "general_qa"
            | None => false
            end).
  - intros [= <-]. eexists; reflexivity.
  - destruct (extract_system_prompt (strategy s)) as [p|]; [|discriminate].
    destruct (String.eqb p EmptyString); [discriminate|].
    destruct (invoke rt p (user_query s)); [discriminate|].
    destruct (parse_response rt content) as [parsed| |]; cbn [bind];
      try discriminate.
    destruct (match parsed with
              | Some fields => fields
              | None => fallback_extraction (user_query s)
              end) as [[[[a y] mo] f] act].
    destruct (reconcile_addresses (user_query s) a f); cbn [bind];
      try discriminate.
    intros [= <-]. eexists; reflexivity.
Qed.

(** *** The errors of the retrieval are never empty *)

Lemma get_assets_df_error (rt : Runtime) (e : exn) :
  get_assets_df rt = Raise e -> retrieval_error e <> EmptyString.
Proof.
  unfold get_assets_df. destruct (data_file rt) as [df|].
  - unfold _validate_columns.
    destruct (filter _ REQUIRED_COLUMNS); cbn [bind]; [discriminate|].
    intros [= <-]. discriminate.
  - intros [= <-]. discriminate.
Qed.

Lemma str_contains_error (rt : Runtime) (pat : string) (e : exn) :
  str_contains rt pat = Raise e -> retrieval_error e <> EmptyString.
Proof.
  unfold str_contains. destruct (literal_pattern pat); [discriminate|].
  destruct (re_search_ci rt pat); [|discriminate].
  intros [= <-]. discriminate.
Qed.

Lemma filter_by_property_error (rt : Runtime) (df : DataFrame) (q : string)
      (e : exn) :
  _filter_by_property rt df q = Raise e -> retrieval_error e <> EmptyString.
Proof.
  unfold _filter_by_property.
  destruct (str_contains rt q) eqn:E; cbn [bind]; try discriminate.
  intros [= <-]. exact (str_contains_error rt q _ E).
Qed.

Lemma aggregate_value_error (rt : Runtime) (df : DataFrame) (q : string)
      (e : exn) :
  _aggregate_value rt df q = Raise e -> retrieval_error e <> EmptyString.
Proof.
  unfold _aggregate_value.
  destruct (_filter_by_property rt df q) as [[|r rs]| e' |] eqn:E;
    cbn [bind]; try discriminate.
  - intros [= <-]. discriminate.
  - intros [= <-]. exact (filter_by_property_error rt df q _ E).
Qed.

Lemma compare_assets_error (rt : Runtime) (a1 a2 : string) (e : exn) :
  compare_assets_by_price rt a1 a2 = Raise e ->
  retrieval_error e <> EmptyString.
Proof.
  unfold compare_assets_by_price.
  destruct (get_assets_df rt) as [df|e'|] eqn:Hdf; cbn [bind];
    [| intros [= <-]; exact (get_assets_df_error rt _ Hdf) | discriminate].
  destruct (_aggregate_value rt df a1) as [v1|e'|] eqn:H1; cbn [bind];
    [| intros [= <-]; exact (aggregate_value_error rt df a1 _ H1) | discriminate].
  destruct (_aggregate_value rt df a2) as [v2|e'|] eqn:H2; cbn [bind];
    [discriminate
    | intros [= <-]; exact (aggregate_value_error rt df a2 _ H2)
    | discriminate].
Qed.

Lemma get_single_asset_error (rt : Runtime) (q : string) (e : exn) :
  get_single_asset rt q = Raise e -> retrieval_error e <> EmptyString.
Proof.
  unfold get_single_asset.
  destruct (get_assets_df rt) as [df|e'|] eqn:Hdf; cbn [bind];
    [| intros [= <-]; exact (get_assets_df_error rt _ Hdf) | discriminate].
  destruct (_filter_by_property rt df q) as [[|r rs]|e'|] eqn:H1; cbn [bind];
    try discriminate.
  intros [= <-]. exact (filter_by_property_error rt df q _ H1).
Qed.

Lemma fmt_month_error (m : month_arg) (e : exn) :
  fmt_month_02d m = Raise e -> retrieval_error e <> EmptyString.
Proof. destruct m; [discriminate|]. intros [= <-]. discriminate. Qed.

Lemma pnl_subset_error (df : DataFrame) (y : option Z) (m : option month_arg)
      (e : exn) :
  pnl_subset df y m = Raise e -> retrieval_error e <> EmptyString.
Proof.
  unfold pnl_subset. destruct m as [m|]; [|discriminate].
  destruct y as [y|]; [|intros [= <-]; discriminate].
  destruct (fmt_month_02d m) eqn:E; cbn [bind]; try discriminate.
  intros [= <-]. exact (fmt_month_error m _ E).
Qed.

Lemma compute_total_pnl_error (rt : Runtime) (y : option Z)
      (m : option month_arg) (e : exn) :
  compute_total_pnl rt y m = Raise e -> retrieval_error e <> EmptyString.
Proof.
  unfold compute_total_pnl.
  destruct (get_assets_df rt) as [df|e'|] eqn:Hdf; cbn [bind];
    [| intros [= <-]; exact (get_assets_df_error rt _ Hdf) | discriminate].
  destruct (pnl_subset df y m) as [[|r rs]|e'|] eqn:H1; cbn [bind];
    [| discriminate
     | intros [= <-]; exact (pnl_subset_error df y m _ H1) | discriminate].
  destruct m as [m|]; cbn [bind].
  - destruct (fmt_month_02d m) eqn:E; cbn [bind]; try discriminate.
    + intros [= <-]. discriminate.
    + intros [= <-]. exact (fmt_month_error m _ E).
  - intros [= <-]. discriminate.
Qed.

Lemma apply_filters_error (rt : Runtime) (cols : list string) (fs : dict json) :
  forall subset e,
    apply_filters rt cols fs subset = Raise e ->
    retrieval_error e <> EmptyString.
Proof.
  induction fs as [|[k v] fs IH]; intros subset e; [discriminate|].
  cbn [apply_filters]. destruct (has_column cols k); [|apply IH].
  destruct v; try apply IH; try discriminate.
  destruct (str_contains rt s) eqn:E; cbn [bind]; try discriminate.
  - apply IH.
  - intros [= <-]. exact (str_contains_error rt s _ E).
Qed.

Lemma query_data_flexible_cases (rt : Runtime) (fs : dict json) (action : json)
      (limit : Z) :
  match query_data_flexible rt (Some fs) action limit with
  | Ok q => q_status q = "no_data" ->
            q_message q = Some "No records found matching the filters."
  | Raise e => retrieval_error e <> EmptyString
  | Unmodelled => True
  end.
Proof.
  unfold query_data_flexible.
  destruct (get_assets_df rt) as [df|e'|] eqn:Hdf; cbn [bind];
    [| exact (get_assets_df_error rt _ Hdf) | exact I].
  destruct (apply_filters rt (columns df) fs (rows df)) as [[|r rs]|e'|] eqn:H1;
    cbn [bind];
    [ reflexivity | | exact (apply_filters_error rt _ fs _ _ H1) | exact I ].
  destruct (is_action action "show"); [discriminate|].
  destruct (is_action action "aggregate"); [discriminate|].
  destruct (is_action action "count"); discriminate.
Qed.

(** *** What the retrieval node leaves in the state *)

Ltac payload_case :=
  right; split; [reflexivity|];
  unfold payload_for; repeat split; intros Hl; try discriminate Hl;
  repeat eexists; try reflexivity.

Lemma retrieve_data_ok (rt : Runtime) (s s' : AgentState) (label : string) :
  intent s = Some label ->
  mem label valid_intents = true ->
  retrieve_data rt s = Ok s' ->
  intent s' = Some label /\ answer s' = answer s
  /\ strategy s' = strategy s /\ user_query s' = user_query s
  /\ ((exists msg, error s' = Some msg /\ msg <> EmptyString)
      \/ (error s' = error s /\ payload_for label (retrieved_data s'))).
Proof.
  intros Hi Hv.
  unfold retrieve_data, retrieve_body, intent_is. rewrite Hi.
  destruct (valid_intent_cases label Hv) as [ -> | [ -> | [ -> | [ -> | -> ] ] ] ];
    cbn [String.eqb Ascii.eqb Bool.eqb].
  - (* price_comparison *)
    destruct (read_addresses (extracted_params s)) as [[|a1 [|a2 rest]]|];
      cbn [lift bind]; try discriminate;
      try (intros [= <-]; repeat (split; [assumption || reflexivity|]);
           left; eexists; split; [reflexivity | discriminate]).
    destruct (compare_assets_by_price rt a1 a2) as [comp|e|] eqn:E;
      cbn [bind]; try discriminate; intros [= <-];
      repeat (split; [assumption || reflexivity|]).
    + payload_case.
    + left. eexists. split; [reflexivity|]. exact (compare_assets_error rt _ _ _ E).
  - (* total_pnl *)
    destruct (read_year (extracted_params s)) as [y|]; cbn [lift bind];
      [|discriminate].
    destruct (read_month (extracted_params s)) as [m|]; cbn [lift bind];
      [|discriminate].
    destruct (compute_total_pnl rt y m) as [total|e|] eqn:E;
      cbn [bind]; try discriminate; intros [= <-];
      repeat (split; [assumption || reflexivity|]).
    + payload_case.
    + left. eexists. split; [reflexivity|].
      exact (compute_total_pnl_error rt _ _ _ E).
  - (* asset_details *)
    destruct (read_addresses (extracted_params s)) as [[|a1 rest]|];
      cbn [lift bind]; try discriminate;
      try (intros [= <-]; repeat (split; [assumption || reflexivity|]);
           left; eexists; split; [reflexivity | discriminate]).
    destruct (get_single_asset rt a1) as [[record|]|e|] eqn:E;
      cbn [bind]; try discriminate; intros [= <-];
      repeat (split; [assumption || reflexivity|]).
    + payload_case.
    + left. eexists. split; [reflexivity | discriminate].
    + left. eexists. split; [reflexivity|].
      exact (get_single_asset_error rt _ _ E).
  - (* general_qa *)
    intros [= <-]. repeat (split; [assumption || reflexivity|]). payload_case.
  - (* data_query *)
    destruct (read_year (extracted_params s)) as [y|]; [|discriminate].
    destruct (read_month (extracted_params s)) as [m|]; [|discriminate].
    destruct (read_filters (extracted_params s)) as [fs|]; [|discriminate].
    pose proof (query_data_flexible_cases rt (add_period y m fs)
                  (get_or "action" (JStr "show") (extracted_params s)) 200)
      as Hq.
    destruct (query_data_flexible rt (Some (add_period y m fs))
                (get_or "action" (JStr "show") (extracted_params s)) 200)
      as [q|e|]; cbn [bind]; try discriminate; intros [= <-];
      destruct (dict_has "filters" (extracted_params s));
      repeat (split; [assumption || reflexivity|]).
    + payload_case. exact Hq.
    + payload_case. exact Hq.
    + left. eexists. split; [reflexivity | exact Hq].
    + left. eexists. split; [reflexivity | exact Hq].
Qed.

(** *** The answers of the terminal nodes *)

Lemma query_header_nonempty (rt : Runtime) (filters : option (dict json)) :
  query_header rt filters <> EmptyString.
Proof.
  unfold query_header. destruct filters as [[|kv fs]|];
    apply append_nonempty; discriminate.
Qed.

Lemma compute_answer_ok (rt : Runtime) (s s' : AgentState) (label : string) :
  intent s = Some label ->
  mem label valid_intents = true ->
  text_set (error s) = false ->
  payload_for label (retrieved_data s) ->
  compute_answer rt s = Ok s' ->
  error s' = error s /\ intent s' = intent s
  /\ exists a,
      answer s' = Some a
      /\ (a = EmptyString ->
          label = "general_qa"
          /\ exists prompt,
              general_qa_system_prompt (strategy s) = Some prompt
              /\ invoke rt prompt (user_query s) = LlmText EmptyString).
Proof.
  intros Hi Hv He (Hcomp & Hasset & Htotal & Hquery).
  unfold compute_answer, intent_is. rewrite He, Hi.
  destruct (valid_intent_cases label Hv) as [ -> | [ -> | [ -> | [ -> | -> ] ] ] ];
    cbn [String.eqb Ascii.eqb Bool.eqb].
  - destruct (Hcomp eq_refl) as (comp & ->). intros [= <-].
    repeat (split; [first [reflexivity | exact Hi]|]). eexists. split; [reflexivity|].
    intros Hempty. exfalso. revert Hempty. unfold comparison_answer.
    apply append_nonempty. discriminate.
  - destruct (Htotal eq_refl) as (y & m & v & ->).
    destruct (time_frame y m) as [frame|e|]; cbn [bind]; try discriminate.
    intros [= <-]. repeat (split; [first [reflexivity | exact Hi]|]).
    eexists. split; [reflexivity|].
    intros Hempty. exfalso. revert Hempty. unfold total_answer.
    apply append_nonempty. discriminate.
  - destruct (Hasset eq_refl) as (record & ->). intros [= <-].
    repeat (split; [first [reflexivity | exact Hi]|]). eexists. split; [reflexivity|].
    intros Hempty. discriminate Hempty.
  - destruct (general_qa_system_prompt (strategy s)) as [p|]; [|discriminate].
    destruct (String.eqb p EmptyString); [discriminate|].
    destruct (invoke rt p (user_query s)) as [e|content] eqn:E; [discriminate|].
    intros [= <-]. repeat (split; [first [reflexivity | exact Hi]|]).
    eexists. split; [reflexivity|]. intros ->.
    split; [reflexivity|]. exists p. split; [reflexivity | exact E].
  - destruct (Hquery eq_refl) as (q & -> & Hmsg).
    destruct (String.eqb_spec (q_status q) "no_data") as [Hs|_].
    + rewrite (Hmsg Hs). intros [= <-]. repeat (split; [first [reflexivity | exact Hi]|]).
      eexists. split; [reflexivity|]. discriminate.
    + intros [= <-]. repeat (split; [first [reflexivity | exact Hi]|]).
      eexists. split; [reflexivity|].
      intros Hempty. exfalso. revert Hempty. unfold query_answer.
      apply join_nonempty, query_header_nonempty.
Qed.

Lemma end_with_error_ok (s : AgentState) (msg : string) :
  error s = Some msg -> msg <> EmptyString -> answer s = None ->
  end_with_error s = Ok (set_answer s msg).
Proof.
  intros He Hne Ha. unfold end_with_error. rewrite He, Ha. cbn [text_set].
  apply String.eqb_neq in Hne. now rewrite Hne.
Qed.

(** The graph, from its start: the three nodes in a row and then the
    terminal node the router chooses. *)
Lemma run_pipeline (rt : Runtime) (s0 : AgentState) :
  run_from (build_graph rt) recursion_limit START s0
  = (s1 <- detect_intent rt s0 ;;
     s2 <- extract_params rt s1 ;;
     s3 <- retrieve_data rt s2 ;;
     if text_set (error s3)
     then (s4 <- end_with_error s3 ;;
           Ok (["detect_intent"; "extract_params"; "retrieve_data";
                "end_with_error"], s4))
     else (s4 <- compute_answer rt s3 ;;
           Ok (["detect_intent"; "extract_params"; "retrieve_data";
                "compute_answer"], s4))).
Proof.
  unfold recursion_limit.
  rewrite (run_from_step _ _ START "detect_intent" s0 (detect_intent rt));
    try reflexivity.
  destruct (detect_intent rt s0) as [s1| |]; cbn [bind]; try reflexivity.
  rewrite (run_from_step _ _ "detect_intent" "extract_params" s1
             (extract_params rt)); try reflexivity.
  destruct (extract_params rt s1) as [s2| |]; cbn [bind]; try reflexivity.
  rewrite (run_from_step _ _ "extract_params" "retrieve_data" s2
             (retrieve_data rt)); try reflexivity.
  destruct (retrieve_data rt s2) as [s3| |]; cbn [bind]; try reflexivity.
  rewrite run_after_retrieval.
  destruct (text_set (error s3)).
  - destruct (end_with_error s3); reflexivity.
  - destruct (compute_answer rt s3); reflexivity.
Qed.

Lemma final_answer_of (s : AgentState) (a : string) :
  answer s = Some a ->
  (a <> EmptyString \/ text_set (error s) = false) ->
  final_answer s = a.
Proof.
  intros Ha H. unfold final_answer. rewrite Ha.
  destruct (String.eqb_spec a EmptyString) as [->|_]; [|reflexivity].
  destruct H as [H|H]; [congruence|]. now rewrite H.
Qed.

(** C3 (as amended). Every run of the pipeline that returns executed the
    three nodes [detect_intent], [extract_params] and [retrieve_data] and
    then exactly one terminal node: [compute_answer] when [error] is unset
    after the retrieval, [end_with_error] when it is set.  The answer that
    [run_agent] returns is not empty, except when the intent is
    [general_qa] and the reply of the model to the general prompt is the
    empty text, which is then the answer.  (Runs do return: see
    [run_agent_returns] below.) *)
Theorem C3_one_terminal_node (rt : Runtime) (query : string)
        (strategy_config : StrategyConfig) (trace : list string)
        (answer_text : string) (dbg : debug_state) :
  run_agent rt query strategy_config = Ok (trace, (answer_text, dbg)) ->
  exists s1 s2 s3 final,
    detect_intent rt (initial_state query strategy_config) = Ok s1
    /\ extract_params rt s1 = Ok s2
    /\ retrieve_data rt s2 = Ok s3
    /\ ((text_set (error s3) = false
         /\ compute_answer rt s3 = Ok final
         /\ trace = ["detect_intent"; "extract_params"; "retrieve_data";
                     "compute_answer"])
        \/ (text_set (error s3) = true
            /\ end_with_error s3 = Ok final
            /\ trace = ["detect_intent"; "extract_params"; "retrieve_data";
                        "end_with_error"]))
    /\ answer_text = final_answer final
    /\ dbg_error dbg = error s3
    /\ (answer_text = EmptyString ->
        dbg_intent dbg = Some "general_qa"
        /\ exists prompt,
            general_qa_system_prompt strategy_config = Some prompt
            /\ invoke rt prompt (PyStr.strip query) = LlmText EmptyString).
Proof.
  unfold run_agent.
  destruct (build_llm_from_strategy rt strategy_config) as [built| |];
    cbn [bind]; try discriminate.
  unfold app_invoke. rewrite run_pipeline.
  set (s0 := initial_state query strategy_config).
  destruct (detect_intent rt s0) as [s1| |] eqn:H1; cbn [bind]; try discriminate.
  destruct (extract_params rt s1) as [s2| |] eqn:H2; cbn [bind]; try discriminate.
  destruct (retrieve_data rt s2) as [s3| |] eqn:H3; cbn [bind]; try discriminate.
  destruct (detect_intent_ok rt s0 s1 H1) as (label & -> & Hv).
  destruct (extract_params_ok rt _ s2 H2) as (params & ->).
  destruct (retrieve_data_ok rt
              (set_extracted_params (set_intent s0 (Some label)) params)
              s3 label eq_refl Hv H3)
    as (Hi3 & Ha3 & Hs3 & Hq3 & Hcases).
  cbn in Ha3, Hs3, Hq3.
  destruct (text_set (error s3)) eqn:He.
  - (* the error terminal *)
    destruct Hcases as [(msg & Hmsg & Hne)|(Herr & _)];
      [| rewrite Herr in He; discriminate He ].
    rewrite (end_with_error_ok s3 msg Hmsg Hne Ha3). cbn [bind fst snd].
    intros [= <- <- <-].
    exists (set_intent s0 (Some label)),
           (set_extracted_params (set_intent s0 (Some label)) params),
           s3, (set_answer s3 msg).
    repeat (split; [first [assumption | reflexivity]|]).
    split; [right; split; [exact He|]; split;
            [exact (end_with_error_ok s3 msg Hmsg Hne Ha3) | reflexivity]|].
    assert (Hf : final_answer (set_answer s3 msg) = msg).
    { apply final_answer_of; [reflexivity | now left]. }
    split; [now rewrite Hf|]. split; [reflexivity|].
    rewrite Hf. intros ->. congruence.
  - (* the answer terminal *)
    destruct Hcases as [(msg & Hmsg & Hne)|(Herr & Hpay)].
    { rewrite Hmsg in He. cbn in He. apply String.eqb_neq in Hne.
      rewrite Hne in He. discriminate He. }
    destruct (compute_answer rt s3) as [final| |] eqn:H4; cbn [bind];
      try discriminate.
    destruct (compute_answer_ok rt s3 final label Hi3 Hv He Hpay H4)
      as (Hef & Hif & a & Haf & Hempty).
    cbn [fst snd]. intros [= <- <- <-].
    exists (set_intent s0 (Some label)),
           (set_extracted_params (set_intent s0 (Some label)) params),
           s3, final.
    repeat (split; [first [assumption | reflexivity]|]).
    split; [left; split; [exact He|]; split; [exact H4 | reflexivity]|].
    assert (Hf : final_answer final = a).
    { apply final_answer_of; [exact Haf | right; now rewrite Hef]. }
    split; [now rewrite Hf|]. split; [exact Hef|].
    rewrite Hf. intros Ha. destruct (Hempty Ha) as (-> & p & Hp & Hinv).
    split; [now rewrite Hif, Hi3|].
    exists p. rewrite Hs3 in Hp. rewrite Hq3 in Hinv. split; assumption.
Qed.

(** The comparison of the scenario, end to end. *)
Lemma C3_one_terminal_node_witness :
  exists trace answer_text dbg,
    run_agent
      (samples.runtime_of samples.two_buildings
         (samples.scripted "price_comparison" "n/a" "n/a")
         samples.no_json samples.no_regex)
      "Compare Building 17 and Building 22" samples.config
    = Ok (trace, (answer_text, dbg))
    /\ trace = ["detect_intent"; "extract_params"; "retrieve_data";
                "compute_answer"]
    /\ answer_text <> EmptyString.
Proof.
  pose (run := returned ([], (EmptyString,
                              {| dbg_intent := None; dbg_extracted_params := [];
                                 dbg_retrieved_data := []; dbg_error := None |}))
                 (run_agent
                    (samples.runtime_of samples.two_buildings
                       (samples.scripted "price_comparison" "n/a" "n/a")
                       samples.no_json samples.no_regex)
                    "Compare Building 17 and Building 22" samples.config)).
  exists (fst run), (fst (snd run)), (snd (snd run)).
  destruct (C3_one_terminal_node
              (samples.runtime_of samples.two_buildings
                 (samples.scripted "price_comparison" "n/a" "n/a")
                 samples.no_json samples.no_regex)
              "Compare Building 17 and Building 22" samples.config
              (fst run) (fst (snd run)) (snd (snd run)) eq_refl)
    as (s1 & s2 & s3 & final & _ & _ & _ & _ & _ & _ & Hempty).
  split; [reflexivity|]. split; [reflexivity|].
  intros H. destruct (Hempty H) as (Hintent & _). discriminate Hintent.
Defined.

(** The claim as it is written fails on a run whose intent is [general_qa]
    and whose model answers the general prompt with an empty text: the
    answer node executes, and the answer returned is empty. *)
Lemma C3_empty_answer_counterexample :
  exists dbg,
    run_agent samples.rt_silent "hello" samples.config
    = Ok (["detect_intent"; "extract_params"; "retrieve_data";
           "compute_answer"], (EmptyString, dbg))
    /\ dbg_error dbg = None.
Proof. eexists. split; reflexivity. Qed.

(** *** Runs that return

    With a chat model that is built, the three prompts configured, a
    model that answers every call and answers that send the extractor to
    its fallback, the pipeline returns:
    the fallback extraction gives parameters of the expected types, the
    retrieval node catches what the query engine raises, and each answer
    template applies. *)

Lemma texts_of_names (l : list string) :
  texts_of (building_names l) = Some (map (fun num => "Building " ++ num) l).
Proof.
  induction l as [|x l IH]; [reflexivity|].
  cbn [building_names map texts_of] in *. unfold building_names in IH.
  now rewrite IH.
Qed.

Lemma dict_set_scalar (k : string) (v : json) (d : dict json) :
  scalar v = true ->
  forallb (fun kv => scalar (snd kv)) d = true ->
  forallb (fun kv => scalar (snd kv)) (dict_set k v d) = true.
Proof.
  intros Hv. induction d as [|[k' v'] d IH]; cbn [dict_set forallb snd].
  - now rewrite Hv.
  - intros H. apply andb_true_iff in H. destruct H as [H1 H2].
    destruct (String.eqb k k'); cbn [forallb snd].
    + now rewrite Hv, H2.
    + now rewrite H1, (IH H2).
Qed.

Lemma apply_filters_scalar (rt : Runtime) (cols : list string) (fs : dict json) :
  forallb (fun kv => scalar (snd kv)) fs = true ->
  forall subset, apply_filters rt cols fs subset <> Unmodelled.
Proof.
  induction fs as [|[k v] fs IH]; intros H subset; [discriminate|].
  cbn [forallb snd] in H. apply andb_true_iff in H. destruct H as [Hv Hfs].
  cbn [apply_filters]. destruct (has_column cols k); [|now apply IH].
  destruct v; try discriminate Hv; try (now apply IH).
  destruct (str_contains rt s) as [mask|e|] eqn:E; cbn [bind];
    [now apply IH | discriminate |].
  unfold str_contains in E. destruct (literal_pattern s); [discriminate|].
  destruct (re_search_ci rt s); discriminate.
Qed.

(** The shape of what the fallback extracts. *)
Lemma fallback_shape (q : string) :
  exists names year filters action,
    fallback_extraction q
    = (JList (building_names names), year, JNull, JObj filters, JStr action)
    /\ (year = JNull \/ exists z, year = JInt z)
    /\ forallb (fun kv => scalar (snd kv)) filters = true
    /\ reconcile_addresses q (JList (building_names names)) (JObj filters)
       = Ok (JList (building_names names)).
Proof.
  unfold fallback_extraction.
  destruct (re_search match_month_token q);
    [|destruct (re_search match_year_token q)];
    (destruct (re_findall match_building q) as [|b bs];
     destruct (re_search match_tenant q));
    cbv beta zeta iota;
    lazymatch goal with
    | |- context [building_names (?x :: ?l)] => exists (x :: l)
    | _ => exists (@nil string)
    end;
    do 3 eexists; (split; [reflexivity|]);
    (split; [first [left; reflexivity | right; eexists; reflexivity]|]);
    split; reflexivity.
Qed.

Lemma get_assets_df_modelled (rt : Runtime) : get_assets_df rt <> Unmodelled.
Proof.
  unfold get_assets_df. destruct (data_file rt) as [df|]; [|discriminate].
  unfold _validate_columns. destruct (filter _ REQUIRED_COLUMNS); discriminate.
Qed.

Lemma filter_by_property_modelled (rt : Runtime) (df : DataFrame) (q : string) :
  _filter_by_property rt df q <> Unmodelled.
Proof.
  unfold _filter_by_property, str_contains.
  destruct (literal_pattern q); [discriminate|].
  destruct (re_search_ci rt q); discriminate.
Qed.

Lemma compare_assets_modelled (rt : Runtime) (a1 a2 : string) :
  compare_assets_by_price rt a1 a2 <> Unmodelled.
Proof.
  unfold compare_assets_by_price, _aggregate_value.
  pose proof (get_assets_df_modelled rt) as Hdf.
  destruct (get_assets_df rt) as [df| |]; cbn [bind]; try discriminate;
    [|contradiction].
  pose proof (filter_by_property_modelled rt df a1) as H1.
  destruct (_filter_by_property rt df a1) as [[|r1 rs1]| |]; cbn [bind];
    try discriminate; [|contradiction].
  pose proof (filter_by_property_modelled rt df a2) as H2.
  destruct (_filter_by_property rt df a2) as [[|r2 rs2]| |]; cbn [bind];
    try discriminate; contradiction.
Qed.

Lemma get_single_asset_modelled (rt : Runtime) (q : string) :
  get_single_asset rt q <> Unmodelled.
Proof.
  unfold get_single_asset.
  pose proof (get_assets_df_modelled rt) as Hdf.
  destruct (get_assets_df rt) as [df| |]; cbn [bind]; try discriminate;
    [|contradiction].
  pose proof (filter_by_property_modelled rt df q) as H1.
  destruct (_filter_by_property rt df q) as [[|r1 rs1]| |]; cbn [bind];
    try discriminate; contradiction.
Qed.

Lemma compute_total_pnl_modelled (rt : Runtime) (y : option Z) :
  compute_total_pnl rt y None <> Unmodelled.
Proof.
  unfold compute_total_pnl, pnl_subset.
  pose proof (get_assets_df_modelled rt) as Hdf.
  destruct (get_assets_df rt) as [df| |]; cbn [bind]; try discriminate;
    [|contradiction].
  destruct (match y with
            | Some y0 => filter (year_is y0) (rows df)
            | None => rows df
            end); discriminate.
Qed.

Lemma query_data_flexible_modelled (rt : Runtime) (fs : dict json)
      (action : json) (limit : Z) :
  forallb (fun kv => scalar (snd kv)) fs = true ->
  query_data_flexible rt (Some fs) action limit <> Unmodelled.
Proof.
  intros Hfs. unfold query_data_flexible.
  pose proof (get_assets_df_modelled rt) as Hdf.
  destruct (get_assets_df rt) as [df| |]; cbn [bind]; try discriminate;
    [|contradiction].
  pose proof (apply_filters_scalar rt (columns df) fs Hfs (rows df)) as Hap.
  destruct (apply_filters rt (columns df) fs (rows df)) as [[|r rs]| |];
    cbn [bind]; try discriminate; [|contradiction].
  destruct (is_action action "show"); [discriminate|].
  destruct (is_action action "aggregate"); [discriminate|].
  destruct (is_action action "count"); discriminate.
Qed.

Lemma detect_intent_returns (rt : Runtime) (s : AgentState) :
  configured (intent_system_prompt (strategy s)) ->
  exists label,
    detect_intent rt s = Ok (set_intent s (Some label))
    /\ mem label valid_intents = true.
Proof.
  intros (p & Hp & Hne). unfold detect_intent. rewrite Hp.
  apply String.eqb_neq in Hne. rewrite Hne.
  eexists. split; [reflexivity | apply validate_label_valid].
Qed.

Lemma end_with_error_returns (s : AgentState) :
  exists s', end_with_error s = Ok s'.
Proof.
  unfold end_with_error.
  destruct (text_set (error s) && negb (text_set (answer s)));
    [destruct (error s)|]; eexists; reflexivity.
Qed.

Lemma time_frame_no_month (y : option Z) :
  exists frame, time_frame y None = Ok frame.
Proof.
  unfold time_frame.
  destruct (match y with Some y0 => negb (y0 =? 0)%Z | None => false end);
    cbn [andb]; eexists; reflexivity.
Qed.

Lemma extract_params_fallback (rt : Runtime) (s : AgentState) :
  configured (extract_system_prompt (strategy s)) ->
  (forall system human, exists content, invoke rt system human = LlmText content) ->
  (forall text, falls_back (json_loads rt text)) ->
  exists params,
    extract_params rt s = Ok (set_extracted_params s params)
    /\ fallback_params (user_query s) params.
Proof.
  intros (p & Hp & Hne) Hllm Hjson. unfold extract_params.
  destruct (match intent s with
            | Some i => String.eqb i "general_qa"
            | None => false
            end).
  - eexists. split; [reflexivity | left; reflexivity].
  - rewrite Hp. apply String.eqb_neq in Hne. rewrite Hne.
    destruct (Hllm p (user_query s)) as (content & ->).
    assert (Hparse : parse_response rt content = Ok None).
    { unfold parse_response.
      destruct (Hjson (clean_response content))
        as [(msg & ->)|[(v & -> & Hv)|(e & -> & ->)]]; try reflexivity.
      destruct v; try reflexivity. exfalso. exact (Hv _ eq_refl). }
    rewrite Hparse. cbn [bind].
    destruct (fallback_shape (user_query s))
      as (names & year & filters & action & Hfb & Hy & Hsc & Hrec).
    rewrite Hfb, Hrec. cbn [bind].
    eexists. split; [reflexivity|]. right.
    exists names, year, filters, action. repeat split; assumption.
Qed.

Lemma read_addresses_names (names : list string) (year month filters action : json) :
  read_addresses (params_record (JList (building_names names)) year month
                                filters action)
  = Some (map (fun num => "Building " ++ num) names).
Proof.
  unfold read_addresses. cbn [params_record get_or dict_get String.eqb
                              Ascii.eqb Bool.eqb].
  destruct names as [|n names]; [reflexivity|].
  cbn [truthy building_names map]. exact (texts_of_names (n :: names)).
Qed.

Lemma add_year_scalar (y : option Z) (fs : dict json) :
  forallb (fun kv => scalar (snd kv)) fs = true ->
  forallb (fun kv => scalar (snd kv)) (add_period y None fs) = true.
Proof.
  intros H. unfold add_period. destruct y as [y|]; [|exact H].
  destruct (negb (dict_has "year" fs)); [|exact H].
  now apply dict_set_scalar.
Qed.

(** After a fallback extraction the retrieval node returns. *)
Lemma retrieve_data_returns (rt : Runtime) (s : AgentState) (label : string) :
  intent s = Some label ->
  mem label valid_intents = true ->
  fallback_params (user_query s) (extracted_params s) ->
  exists s',
    retrieve_data rt s = Ok s'
    /\ (forall y m v,
           dict_get "total_pnl" (retrieved_data s') = Some (PTotal y m v) ->
           retrieved_data s <> retrieved_data s' -> m = None).
Proof.
  intros Hi Hv Hparams.
  assert (Hshape : exists addresses y fs action,
             read_addresses (extracted_params s) = Some addresses
             /\ read_year (extracted_params s) = Some y
             /\ read_month (extracted_params s) = Some None
             /\ read_filters (extracted_params s) = Some fs
             /\ get_or "action" (JStr "show") (extracted_params s) = action
             /\ forallb (fun kv => scalar (snd kv)) fs = true).
  { destruct Hparams as [->|(names & year & fs & action & -> & Hy & Hsc)].
    - exists [], None, [], (JStr "show"). repeat split; reflexivity.
    - exists (map (fun num => "Building " ++ num) names),
        (match year with JInt z => Some z | _ => None end), fs, (JStr action).
      split; [apply read_addresses_names|].
      destruct Hy as [->|(z & ->)]; repeat split; try reflexivity; assumption. }
  destruct Hshape as (addresses & y & fs & action & Ha & Hy & Hm & Hf & Hact & Hsc).
  unfold retrieve_data, retrieve_body, intent_is. rewrite Hi.
  destruct (valid_intent_cases label Hv) as [ -> | [ -> | [ -> | [ -> | -> ] ] ] ];
    cbn [String.eqb Ascii.eqb Bool.eqb].
  - rewrite Ha. cbn [lift bind].
    destruct addresses as [|a1 [|a2 rest]];
      try (eexists; split; [reflexivity|]; cbn; intros; congruence).
    pose proof (compare_assets_modelled rt a1 a2) as Hc.
    destruct (compare_assets_by_price rt a1 a2); cbn [bind];
      [| | contradiction];
      (eexists; split; [reflexivity|]); cbn; intros; congruence.
  - rewrite Hy, Hm. cbn [lift bind].
    pose proof (compute_total_pnl_modelled rt y) as Hc.
    destruct (compute_total_pnl rt y None); cbn [bind]; [| | contradiction];
      (eexists; split; [reflexivity|]); cbn; intros; congruence.
  - rewrite Ha. cbn [lift bind].
    destruct addresses as [|a1 rest];
      try (eexists; split; [reflexivity|]; cbn; intros; congruence).
    pose proof (get_single_asset_modelled rt a1) as Hc.
    destruct (get_single_asset rt a1) as [[r|]| |]; cbn [bind];
      [| | | contradiction];
      (eexists; split; [reflexivity|]); cbn; intros; congruence.
  - eexists. split; [reflexivity|]. cbn. intros; congruence.
  - rewrite Hy, Hm, Hf, Hact.
    pose proof (query_data_flexible_modelled rt (add_period y None fs) action 200
                  (add_year_scalar y fs Hsc)) as Hc.
    destruct (query_data_flexible rt (Some (add_period y None fs)) action 200);
      cbn [bind]; [| | contradiction];
      destruct (dict_has "filters" (extracted_params s));
      (eexists; split; [reflexivity|]); cbn; intros; congruence.
Qed.

Lemma compute_answer_returns (rt : Runtime) (s : AgentState) (label : string) :
  intent s = Some label ->
  mem label valid_intents = true ->
  text_set (error s) = false ->
  payload_for label (retrieved_data s) ->
  (forall y m v,
      dict_get "total_pnl" (retrieved_data s) = Some (PTotal y m v) ->
      m = None) ->
  configured (general_qa_system_prompt (strategy s)) ->
  (forall system human, exists content, invoke rt system human = LlmText content) ->
  exists s', compute_answer rt s = Ok s'.
Proof.
  intros Hi Hv He (Hcomp & Hasset & Htotal & Hquery) Hmonth (p & Hp & Hne) Hllm.
  unfold compute_answer, intent_is. rewrite He, Hi.
  destruct (valid_intent_cases label Hv) as [ -> | [ -> | [ -> | [ -> | -> ] ] ] ];
    cbn [String.eqb Ascii.eqb Bool.eqb].
  - destruct (Hcomp eq_refl) as (comp & ->). eexists; reflexivity.
  - destruct (Htotal eq_refl) as (y & m & v & Hd). rewrite Hd.
    rewrite (Hmonth y m v Hd).
    destruct (time_frame_no_month y) as (frame & ->). eexists; reflexivity.
  - destruct (Hasset eq_refl) as (record & ->). eexists; reflexivity.
  - rewrite Hp. apply String.eqb_neq in Hne. rewrite Hne.
    destruct (Hllm p (user_query s)) as (content & ->). eexists; reflexivity.
  - destruct (Hquery eq_refl) as (q & -> & _).
    destruct (String.eqb (q_status q) "no_data"); eexists; reflexivity.
Qed.

(** With a chat model that is built, the three prompts configured, a model
    that answers every call, and answers that send the extractor to its
    fallback, [run_agent] returns. *)
Lemma run_agent_returns (rt : Runtime) (query : string)
      (strategy_config : StrategyConfig) :
  build_llm_from_strategy rt strategy_config = Ok tt ->
  configured (intent_system_prompt strategy_config) ->
  configured (extract_system_prompt strategy_config) ->
  configured (general_qa_system_prompt strategy_config) ->
  (forall system human, exists content, invoke rt system human = LlmText content) ->
  (forall text, falls_back (json_loads rt text)) ->
  exists trace answer_text dbg,
    run_agent rt query strategy_config = Ok (trace, (answer_text, dbg)).
Proof.
  intros Hbuilt Hci Hce Hcg Hllm Hjson.
  unfold run_agent. rewrite Hbuilt. cbn [bind].
  unfold app_invoke. rewrite run_pipeline.
  set (s0 := initial_state query strategy_config).
  destruct (detect_intent_returns rt s0 Hci) as (label & -> & Hv).
  cbn [bind].
  destruct (extract_params_fallback rt (set_intent s0 (Some label)) Hce Hllm Hjson)
    as (params & -> & Hfb).
  cbn [bind].
  set (s2 := set_extracted_params (set_intent s0 (Some label)) params).
  destruct (retrieve_data_returns rt s2 label eq_refl Hv Hfb)
    as (s3 & H3 & Hmonth).
  rewrite H3. cbn [bind].
  destruct (retrieve_data_ok rt s2 s3 label eq_refl Hv H3)
    as (Hi3 & Ha3 & Hs3 & Hq3 & Hcases).
  destruct (text_set (error s3)) eqn:He.
  - destruct (end_with_error_returns s3) as (s4 & ->). cbn [bind fst snd].
    do 3 eexists. reflexivity.
  - destruct Hcases as [(msg & Hmsg & Hnonempty)|(Herr & Hpay)].
    { rewrite Hmsg in He. cbn in He. apply String.eqb_neq in Hnonempty.
      rewrite Hnonempty in He. discriminate He. }
    destruct (compute_answer_returns rt s3 label Hi3 Hv He Hpay) as (s4 & ->).
    + intros y m v Hd. apply (Hmonth y m v Hd).
      cbn [s2 retrieved_data set_extracted_params set_intent s0 initial_state].
      intros Hnil. rewrite <- Hnil in Hd. discriminate Hd.
    + rewrite Hs3. exact Hcg.
    + exact Hllm.
    + cbn [bind fst snd]. do 3 eexists. reflexivity.
Qed.

(** * Further properties of the code *)

Import coverage.
From Stdlib Require Import Sorting.Permutation.

(** ** Loading the table *)

(** X1. A dataset file that exists loads exactly when each of the twelve
    required columns is among its columns, in any order and whatever other
    columns there are; otherwise the load is refused with a
    [DatasetConfigError] whose message lists the required columns that are
    absent, and only those, in the order of [REQUIRED_COLUMNS]. *)
Theorem X1_load_needs_required_columns (rt : Runtime) (df : DataFrame) :
  data_file rt = Some df ->
  (get_assets_df rt = Ok df <-> incl REQUIRED_COLUMNS (columns df))
  /\ (forall col, In col (missing_columns df)
                  <-> In col REQUIRED_COLUMNS /\ ~ In col (columns df))
  /\ (~ incl REQUIRED_COLUMNS (columns df) ->
      missing_columns df <> []
      /\ get_assets_df rt
         = Raise (Exn DatasetConfigError
                    ("Dataset is missing required columns: "
                       ++ PyStr.join ", " (missing_columns df)))).
Proof.
  intros Hfile.
  assert (Hcol : forall col, has_column (columns df) col = true
                             <-> In col (columns df)).
  { intros col. unfold has_column. rewrite existsb_exists. split.
    - intros (c & Hc & He). apply String.eqb_eq in He. now subst.
    - intros H. exists col. split; [exact H | apply String.eqb_refl]. }
  assert (Hmiss : forall col, In col (missing_columns df)
                              <-> In col REQUIRED_COLUMNS /\ ~ In col (columns df)).
  { intros col. unfold missing_columns. rewrite filter_In, negb_true_iff.
    rewrite <- Hcol. destruct (has_column (columns df) col); intuition congruence. }
  assert (Hrun : get_assets_df rt
                 = match missing_columns df with
                   | [] => Ok df
                   | _ => Raise (Exn DatasetConfigError
                                   ("Dataset is missing required columns: "
                                      ++ PyStr.join ", " (missing_columns df)))
                   end).
  { unfold get_assets_df, _validate_columns. rewrite Hfile.
    fold (missing_columns df). destruct (missing_columns df); reflexivity. }
  assert (Hincl : incl REQUIRED_COLUMNS (columns df) <-> missing_columns df = []).
  { split.
    - intros Hin. destruct (missing_columns df) as [|c l] eqn:E; [reflexivity|].
      destruct (proj1 (Hmiss c) (or_introl eq_refl)) as [Hr Hn].
      elim Hn. now apply Hin.
    - intros E col Hr. destruct (has_column (columns df) col) eqn:Hh.
      + now apply Hcol.
      + assert (Hc : In col (missing_columns df)).
        { apply Hmiss. split; [exact Hr|]. rewrite <- Hcol, Hh. discriminate. }
        rewrite E in Hc. destruct Hc. }
  split; [|split; [exact Hmiss|]].
  - rewrite Hrun, Hincl. destruct (missing_columns df); split;
      intros H; try reflexivity; discriminate.
  - intros Hn. rewrite Hincl in Hn. rewrite Hrun.
    destruct (missing_columns df); [contradiction|].
    split; [discriminate | reflexivity].
Qed.

(** A table with two columns only. *)
Lemma X1_load_needs_required_columns_witness :
  get_assets_df more_samples.rt_short
  = Raise (Exn DatasetConfigError
             ("Dataset is missing required columns: entity_name, tenant_name, "
                ++ "ledger_type, ledger_group, ledger_category, ledger_code, "
                ++ "ledger_description, month, quarter, year")).
Proof.
  refine (proj2 (proj2 (proj2 (X1_load_needs_required_columns
                                 more_samples.rt_short more_samples.short_table
                                 eq_refl)) _)).
  intros H. specialize (H "entity_name" (or_introl eq_refl)).
  cbn in H. intuition discriminate.
Defined.

(** ** Lookup and comparison *)

Lemma filter_by_property_raises (rt : Runtime) (df : DataFrame) (q : string)
      (e : exn) :
  _filter_by_property rt df q = Raise e -> exn_class e = ReError.
Proof.
  unfold _filter_by_property, str_contains.
  destruct (literal_pattern q); [discriminate|].
  destruct (re_search_ci rt q); cbn [bind]; [|discriminate].
  intros [= <-]. reflexivity.
Qed.

(** X2. The single-asset lookup and one side of the comparison agree on
    every query: the lookup returns [None] exactly when the side fails with
    the property-not-found error, and when the lookup finds rows, the side
    has the same canonical name, total and number of records, the number
    being at least one. *)
Theorem X2_lookup_agrees_with_comparison_side (rt : Runtime) (df : DataFrame)
        (q : string) :
  get_assets_df rt = Ok df ->
  (get_single_asset rt q = Ok None
   <-> _aggregate_value rt df q = Raise (not_found q))
  /\ (forall summary,
        get_single_asset rt q = Ok (Some summary) ->
        _aggregate_value rt df q
        = Ok {| v_property_name := s_property_name summary;
                v_value := s_total_profit summary;
                v_records := s_total_records summary |}
        /\ (1 <= s_total_records summary)%Z).
Proof.
  intros Hdf. unfold get_single_asset, _aggregate_value. rewrite Hdf.
  cbn [bind].
  destruct (_filter_by_property rt df q) as [[|r rs]|e|] eqn:E; cbn [bind].
  - split; [split; reflexivity | discriminate].
  - split; [split; discriminate|].
    intros summary [= <-]. cbn. split; [reflexivity | lia].
  - split; [|discriminate]. split; [discriminate|].
    intros [= ->]. apply filter_by_property_raises in E. discriminate E.
  - split; [split; discriminate | discriminate].
Qed.

(** The table of the scenario: a property that exists and one that does
    not. *)
Lemma X2_lookup_agrees_with_comparison_side_witness :
  get_single_asset samples.rt_plain "Building 999" = Ok None
  /\ exists summary,
      get_single_asset samples.rt_plain "building 22" = Ok (Some summary)
      /\ s_total_records summary = 1%Z.
Proof.
  destruct (X2_lookup_agrees_with_comparison_side samples.rt_plain
              samples.two_buildings "Building 999" eq_refl) as [Hnone _].
  split; [exact (proj2 Hnone eq_refl)|].
  eexists. split; [reflexivity | reflexivity].
Defined.

(** X3. The order of the two addresses matters only for the direction: a
    comparison that succeeds succeeds the other way round, with the two
    sides exchanged and the difference taken in the other direction; and
    when neither address matches a row, the error names the address given
    first. *)
Theorem X3_comparison_swaps (rt : Runtime) (df : DataFrame) (a b : string) :
  get_assets_df rt = Ok df ->
  (forall comp,
      compare_assets_by_price rt a b = Ok comp ->
      compare_assets_by_price rt b a
      = Ok {| asset_1 := asset_2 comp;
              asset_2 := asset_1 comp;
              difference := PrimFloat.sub (v_value (asset_2 comp))
                                          (v_value (asset_1 comp)) |})
  /\ (_filter_by_property rt df a = Ok [] ->
      _filter_by_property rt df b = Ok [] ->
      compare_assets_by_price rt a b = Raise (not_found a)
      /\ compare_assets_by_price rt b a = Raise (not_found b)).
Proof.
  intros Hdf. unfold compare_assets_by_price. rewrite Hdf. cbn [bind]. split.
  - intros comp.
    destruct (_aggregate_value rt df a) as [va| |]; cbn [bind]; try discriminate.
    destruct (_aggregate_value rt df b) as [vb| |]; cbn [bind]; try discriminate.
    intros [= <-]. reflexivity.
  - intros Ha Hb.
    rewrite (aggregate_value_cases rt df a [] Ha).
    rewrite (aggregate_value_cases rt df b [] Hb). split; reflexivity.
Qed.

Lemma X3_comparison_swaps_witness :
  (exists comp,
      compare_assets_by_price samples.rt_plain "Building 22" "Building 17"
      = Ok comp
      /\ difference comp = (-400)%float)
  /\ compare_assets_by_price samples.rt_plain "Building 8" "Building 9"
     = Raise (not_found "Building 8").
Proof.
  destruct (X3_comparison_swaps samples.rt_plain samples.two_buildings
              "Building 17" "Building 22" eq_refl) as [Hswap _].
  destruct (X3_comparison_swaps samples.rt_plain samples.two_buildings
              "Building 8" "Building 9" eq_refl) as [_ Hnone].
  split.
  - eexists. split; [exact (Hswap _ eq_refl) | reflexivity].
  - exact (proj1 (Hnone eq_refl eq_refl)).
Defined.

(** ** The flexible query and the yearly total *)

Lemma has_required (rt : Runtime) (df : DataFrame) (col : string) :
  get_assets_df rt = Ok df ->
  In col REQUIRED_COLUMNS ->
  has_column (columns df) col = true.
Proof. intros Hdf. exact (proj2 (get_assets_df_loaded rt df Hdf) col). Qed.

(** X4. The year of a flexible query and the year of the total select the
    same rows: on a table that loads, the filter [year = y] of
    [query_data_flexible] keeps exactly the rows that
    [compute_total_pnl(year=y)] sums.  The total raises its no-records
    error exactly when the query answers [no_data], and when the total
    returns a value the query succeeds with that value as its total profit
    and the number of rows summed as its count. *)
Theorem X4_year_filter_matches_total (rt : Runtime) (df : DataFrame) (y : Z)
        (action : json) (limit : Z) :
  get_assets_df rt = Ok df ->
  apply_filters rt (columns df) [("year", JInt y)] (rows df)
  = Ok (period_rows df y None)
  /\ (compute_total_pnl rt (Some y) None
      = Raise (Exn ValueError
                 ("No financial records found for the period: "
                    ++ PyStr.of_int y ++ "."))
      <-> query_data_flexible rt (Some [("year", JInt y)]) action limit
          = Ok (no_data_result (Some [("year", JInt y)])))
  /\ (forall total,
        compute_total_pnl rt (Some y) None = Ok total ->
        exists q,
          query_data_flexible rt (Some [("year", JInt y)]) action limit = Ok q
          /\ q_status q = "success"
          /\ q_total_profit q = Some total
          /\ q_count q = Z.of_nat (List.length (period_rows df y None))).
Proof.
  intros Hdf.
  assert (Hsel : apply_filters rt (columns df) [("year", JInt y)] (rows df)
                 = Ok (period_rows df y None)).
  { cbn [apply_filters]. rewrite (has_required rt df "year" Hdf) by (cbn; tauto).
    f_equal. unfold period_rows. apply filter_ext. intros r.
    now rewrite andb_true_r. }
  assert (Htotal : compute_total_pnl rt (Some y) None
                   = match period_rows df y None with
                     | [] => Raise (Exn ValueError
                                      ("No financial records found for the period: "
                                         ++ PyStr.of_int y ++ "."))
                     | _ => Ok (PyFloat.series_sum
                                  (map profit (period_rows df y None)))
                     end).
  { unfold compute_total_pnl. rewrite Hdf. cbn [bind].
    rewrite (pnl_subset_period df y None : pnl_subset df (Some y) None = _).
    cbn [bind]. destruct (period_rows df y None); reflexivity. }
  split; [exact Hsel|]. rewrite Htotal.
  unfold query_data_flexible. rewrite Hdf. cbn [bind]. rewrite Hsel. cbn [bind].
  destruct (period_rows df y None) as [|r rs].
  - split; [split; reflexivity | discriminate].
  - split.
    + split; [discriminate|].
      destruct (is_action action "show"); [discriminate|].
      destruct (is_action action "aggregate"); [discriminate|].
      destruct (is_action action "count"); discriminate.
    + intros total [= <-].
      destruct (is_action action "show");
        [eexists; repeat split; reflexivity|].
      destruct (is_action action "aggregate");
        [eexists; repeat split; reflexivity|].
      destruct (is_action action "count"); eexists; repeat split; reflexivity.
Qed.

(** Two of the three records are of 2025. *)
Lemma X4_year_filter_matches_total_witness :
  compute_total_pnl more_samples.rt_three (Some 2025) None = Ok 1600%float
  /\ exists q,
      query_data_flexible more_samples.rt_three (Some [("year", JInt 2025)])
        (JStr "count") 200 = Ok q
      /\ q_total_profit q = Some 1600%float
      /\ q_count q = 2%Z.
Proof.
  destruct (X4_year_filter_matches_total more_samples.rt_three
              more_samples.three_rows 2025 (JStr "count") 200 eq_refl)
    as (_ & _ & Hq).
  split; [reflexivity|].
  destruct (Hq 1600%float eq_refl) as (q & Hrun & _ & Hp & Hc).
  exists q. repeat split; assumption.
Defined.

(** X5. A flexible query that keeps rows answers with the status
    [success], the number of rows kept and their total profit, and with the
    one section of its action: for [show] the first [limit] rows kept (for
    a limit that is not negative), with [showing] the smaller of the limit
    and the count, and [total_rows] the count; for [aggregate] the
    aggregations; for [count] the counts; for any other action no section
    at all. *)
Theorem X5_sections_follow_action (rt : Runtime) (df : DataFrame)
        (filters : dict json) (action : json) (limit : Z)
        (first : row) (others : list row) :
  get_assets_df rt = Ok df ->
  apply_filters rt (columns df) filters (rows df) = Ok (first :: others) ->
  exists q,
    query_data_flexible rt (Some filters) action limit = Ok q
    /\ q_status q = "success"
    /\ q_count q = Z.of_nat (List.length (first :: others))
    /\ q_total_profit q
       = Some (PyFloat.series_sum (map profit (first :: others)))
    /\ (q_rows q <> None <-> action = JStr "show")
    /\ (q_aggregations q <> None <-> action = JStr "aggregate")
    /\ (q_counts q <> None <-> action = JStr "count")
    /\ (action = JStr "show" ->
        (0 <= limit)%Z ->
        q_rows q = Some (map (row_to_dict (columns df))
                             (firstn (Z.to_nat limit) (first :: others)))
        /\ q_showing q = Some (Z.min limit (q_count q))
        /\ q_total_rows q = Some (q_count q)).
Proof.
  intros Hdf Hsel. unfold query_data_flexible. rewrite Hdf. cbn [bind].
  rewrite Hsel. cbn [bind].
  assert (Hact : forall name, is_action action name = true <-> action = JStr name).
  { intros name. unfold is_action. destruct action; try (split; discriminate).
    rewrite String.eqb_eq. split; congruence. }
  destruct (is_action action "show") eqn:E1.
  { apply Hact in E1. subst action. eexists. split; [reflexivity|].
    cbn [q_status q_count q_total_profit q_rows q_aggregations q_counts
         q_showing q_total_rows].
    repeat (split; [first [reflexivity | split; congruence]|]).
    intros _ Hl. unfold head. apply Z.leb_le in Hl. rewrite Hl.
    repeat split. f_equal. rewrite length_firstn. lia. }
  destruct (is_action action "aggregate") eqn:E2.
  { apply Hact in E2. subst action. eexists. split; [reflexivity|].
    cbn [q_status q_count q_total_profit q_rows q_aggregations q_counts].
    repeat (split; [first [reflexivity | split; congruence]|]).
    discriminate. }
  destruct (is_action action "count") eqn:E3.
  { apply Hact in E3. subst action. eexists. split; [reflexivity|].
    cbn [q_status q_count q_total_profit q_rows q_aggregations q_counts].
    repeat (split; [first [reflexivity | split; congruence]|]).
    discriminate. }
  eexists. split; [reflexivity|].
  cbn [q_status q_count q_total_profit q_rows q_aggregations q_counts].
  assert (N1 : action <> JStr "show") by (intros H; apply Hact in H; congruence).
  assert (N2 : action <> JStr "aggregate") by (intros H; apply Hact in H; congruence).
  assert (N3 : action <> JStr "count") by (intros H; apply Hact in H; congruence).
  repeat (split; [first [reflexivity | split; congruence]|]).
  intros H. contradiction.
Qed.

(** Three rows, of which the query shows two. *)
Lemma X5_sections_follow_action_witness :
  exists q,
    query_data_flexible more_samples.rt_three (Some []) (JStr "show") 2 = Ok q
    /\ q_showing q = Some 2%Z
    /\ q_total_rows q = Some 3%Z
    /\ q_counts q = None.
Proof.
  destruct (X5_sections_follow_action more_samples.rt_three
              more_samples.three_rows [] (JStr "show") 2 _ _ eq_refl eq_refl)
    as (q & Hrun & _ & Hc & _ & _ & _ & Hcnt & Hshow).
  destruct (Hshow eq_refl ltac:(lia)) as (_ & Hs & Ht).
  exists q. split; [exact Hrun|]. rewrite Hs, Ht, Hc.
  repeat split.
  destruct (q_counts q) eqn:E; [|reflexivity].
  exfalso. assert (Heq : JStr "show" = JStr "count")
    by (apply Hcnt; discriminate).
  discriminate Heq.
Defined.

(** *** Filters as a conjunction *)

Lemma filter_all {A : Type} (l : list A) : filter (fun _ => true) l = l.
Proof. induction l as [|x l IH]; simpl; congruence. Qed.

Lemma apply_filters_cons (rt : Runtime) (cols : list string)
      (entry : string * json) (rest : dict json) (subset : list row) :
  apply_filters rt cols (entry :: rest) subset
  = (test <- entry_test rt cols entry ;;
     apply_filters rt cols rest (filter test subset)).
Proof.
  destruct entry as [k v]. unfold entry_test. cbn [apply_filters fst snd].
  destruct (has_column cols k); cbn [bind]; [|now rewrite filter_all].
  destruct v; cbn [bind]; try reflexivity.
  destruct (str_contains rt s); reflexivity.
Qed.

Lemma apply_filters_passes (rt : Runtime) (cols : list string) (fs : dict json) :
  forall subset kept,
    apply_filters rt cols fs subset = Ok kept ->
    kept = filter (passes_all rt cols fs) subset
    /\ forall entry, In entry fs -> exists test, entry_test rt cols entry = Ok test.
Proof.
  induction fs as [|entry fs IH]; intros subset kept H.
  - cbn in H. injection H as <-. split; [now rewrite filter_all | intros ? []].
  - rewrite apply_filters_cons in H.
    destruct (entry_test rt cols entry) as [test| |] eqn:E; cbn [bind] in H;
      try discriminate H.
    destruct (IH _ _ H) as [-> Hall]. split.
    + rewrite filter_filter. apply filter_ext. intros r.
      unfold passes_all. cbn [forallb]. now rewrite E.
    + intros e [<-|He]; [eauto | auto].
Qed.

Lemma passes_all_apply (rt : Runtime) (cols : list string) (fs : dict json) :
  (forall entry, In entry fs -> exists test, entry_test rt cols entry = Ok test) ->
  forall subset,
    apply_filters rt cols fs subset = Ok (filter (passes_all rt cols fs) subset).
Proof.
  induction fs as [|entry fs IH]; intros Hall subset.
  - cbn. now rewrite filter_all.
  - rewrite apply_filters_cons.
    destruct (Hall entry (or_introl eq_refl)) as (test & E). rewrite E.
    cbn [bind]. rewrite IH by (intros e He; apply Hall; now right).
    f_equal. rewrite filter_filter. apply filter_ext. intros r.
    unfold passes_all. cbn [forallb]. now rewrite E.
Qed.

Lemma forallb_permutation {A : Type} (f : A -> bool) (l l' : list A) :
  Permutation l l' -> forallb f l = forallb f l'.
Proof.
  induction 1; cbn [forallb]; try congruence.
  - destruct (f x), (f y); reflexivity.
Qed.

(** X6. The filters of a flexible query act as a conjunction.  When they
    apply without error the rows kept are the rows of the table, in the
    order of the table, that pass every entry; the same entries in any
    other order keep the same rows; and applying the filters once more to
    the rows kept changes nothing. *)
Theorem X6_filters_are_a_conjunction (rt : Runtime) (cols : list string)
        (filters : dict json) (subset kept : list row) :
  apply_filters rt cols filters subset = Ok kept ->
  kept = filter (passes_all rt cols filters) subset
  /\ (forall reordered,
        Permutation filters reordered ->
        apply_filters rt cols reordered subset = Ok kept)
  /\ apply_filters rt cols filters kept = Ok kept.
Proof.
  intros H. destruct (apply_filters_passes rt cols filters _ _ H) as [Hk Hall].
  split; [exact Hk|]. split.
  - intros reordered Hperm.
    rewrite (passes_all_apply rt cols reordered).
    + rewrite Hk. f_equal. apply filter_ext. intros r.
      unfold passes_all. symmetry. now apply forallb_permutation.
    + intros e He. apply Hall. apply Permutation_sym in Hperm.
      exact (Permutation_in e Hperm He).
  - rewrite (passes_all_apply rt cols filters Hall). rewrite Hk at 2.
    f_equal. rewrite Hk, filter_filter. apply filter_ext. intros r.
    now rewrite andb_diag.
Qed.

(** Two filters, in both orders, on the table of three records. *)
Lemma X6_filters_are_a_conjunction_witness :
  apply_filters more_samples.rt_three REQUIRED_COLUMNS
    [ ("property_name", JStr "building 17"); ("year", JInt 2025) ]
    (rows more_samples.three_rows)
  = apply_filters more_samples.rt_three REQUIRED_COLUMNS
      [ ("year", JInt 2025); ("property_name", JStr "building 17") ]
      (rows more_samples.three_rows).
Proof.
  rewrite (proj1 (proj2 (X6_filters_are_a_conjunction more_samples.rt_three
                           REQUIRED_COLUMNS
                           [ ("year", JInt 2025);
                             ("property_name", JStr "building 17") ]
                           (rows more_samples.three_rows) _ eq_refl))
                 [ ("property_name", JStr "building 17"); ("year", JInt 2025) ]
                 (perm_swap _ _ [])).
  reflexivity.
Defined.

(** ** The fallback extraction *)

Lemma re_search_some (p : string -> option (string * nat)) (s g : string) :
  re_search p s = Some g ->
  exists pre rest n, s = (pre ++ rest)%string /\ p rest = Some (g, n).
Proof.
  induction s as [|c s IH]; cbn [re_search]; [discriminate|].
  destruct (p (String c s)) as [[g' n]|] eqn:E.
  - intros [= <-]. exists EmptyString, (String c s), n. split; [reflexivity | exact E].
  - intros H. destruct (IH H) as (pre & rest & n & -> & Hp).
    exists (String c pre), rest, n. split; [reflexivity | exact Hp].
Qed.

Lemma re_findall_from_some (p : string -> option (string * nat)) (s : string) :
  forall skip g,
    In g (re_findall_from p skip s) ->
    exists rest n, p rest = Some (g, n).
Proof.
  induction s as [|c s IH]; intros skip g; cbn [re_findall_from]; [intros []|].
  destruct skip as [|k]; [|apply IH].
  destruct (p (String c s)) as [[g' n]|] eqn:E; [|apply IH].
  intros [<-|H]; [eauto | eapply IH; eauto].
Qed.

Lemma contains_append (pre rest g : string) :
  String.prefix g rest = true -> PyStr.contains g (pre ++ rest) = true.
Proof.
  intros H. induction pre as [|c pre IH]; cbn [append].
  - destruct rest; cbn [PyStr.contains]; rewrite H; reflexivity.
  - cbn [PyStr.contains]. rewrite IH. apply orb_true_r.
Qed.

Lemma span_nonempty_digits (s ds rest : string) :
  PyStr.span PyStr.is_digit s = (ds, rest) ->
  forallb PyStr.is_digit (PyStr.chars_of ds) = true.
Proof. intros H. exact (proj2 (span_chars _ _ _ _ H)). Qed.

(** What the pattern of a label and a number captures. *)
Lemma match_label_number_digits (upper lower : ascii) (tail s ds : string)
      (n : nat) :
  match_label_number upper lower tail s = Some (ds, n) ->
  ds <> EmptyString /\ forallb PyStr.is_digit (PyStr.chars_of ds) = true.
Proof.
  unfold match_label_number. destruct s as [|c t]; [discriminate|].
  destruct ((Ascii.eqb c upper || Ascii.eqb c lower) && String.prefix tail t);
    [|discriminate].
  destruct (PyStr.span PyStr.is_space (PyStr.drop (String.length tail) t))
    as [ws after].
  destruct (PyStr.span PyStr.is_digit after) as [d rest] eqn:E.
  destruct (negb (String.eqb ws EmptyString)); cbn [andb]; [|discriminate].
  destruct (String.eqb_spec d EmptyString) as [->|Hne]; cbn [negb];
    [discriminate|].
  intros [= <- <-]. split; [exact Hne | exact (span_nonempty_digits _ _ _ E)].
Qed.

(** the value of a decimal digit among the years 2020 to 2029 *)
Lemma year_of_digit (d : ascii) :
  PyStr.is_digit d = true ->
  exists y, PyStr.int_of_digits (String "2" (String "0" (String "2"
                                   (String d EmptyString)))) = y
            /\ (2020 <= y <= 2029)%Z
            /\ PyStr.of_int y = String "2" (String "0" (String "2"
                                  (String d EmptyString))).
Proof.
  destruct d as [[] [] [] [] [] [] [] []]; try discriminate; intros _;
    eexists; (split; [reflexivity|]);
    (split; [vm_compute; intuition discriminate | reflexivity]).
Qed.

Lemma match_year_token_year (s tok : string) (n : nat) :
  match_year_token s = Some (tok, n) ->
  exists y, PyStr.int_of_digits tok = y /\ (2020 <= y <= 2029)%Z.
Proof.
  unfold match_year_token.
  destruct s as [|c1 [|c2 [|c3 [|c4 rest]]]]; try discriminate.
  destruct (Ascii.eqb_spec c1 "2") as [->|]; [|discriminate].
  destruct (Ascii.eqb_spec c2 "0") as [->|]; [|discriminate].
  destruct (Ascii.eqb_spec c3 "2") as [->|]; [|discriminate].
  destruct (PyStr.is_digit c4) eqn:E4; cbn [andb]; [|discriminate].
  intros [= <- <-]. destruct (year_of_digit c4 E4) as (y & Hy & Hr & _).
  exists y. split; assumption.
Qed.

(** What the pattern of a month captures: a text in the format of the
    dataset, whose first four characters are a year from 2020 to 2029. *)
Lemma match_month_token_shape (s tok : string) (n : nat) :
  match_month_token s = Some (tok, n) ->
  String.prefix tok s = true
  /\ month_format tok = true
  /\ exists y mm,
      PyStr.int_of_digits (String.substring 0 4 tok) = y
      /\ (2020 <= y <= 2029)%Z
      /\ tok = (PyStr.of_int y ++ "-M" ++ mm)%string
      /\ String.length mm = 2%nat.
Proof.
  unfold match_month_token.
  destruct s as [|c1 [|c2 [|c3 [|c4 [|c5 [|c6 [|c7 [|c8 rest]]]]]]]];
    try discriminate.
  destruct (Ascii.eqb_spec c1 "2") as [->|]; [|discriminate].
  destruct (Ascii.eqb_spec c2 "0") as [->|]; [|discriminate].
  destruct (Ascii.eqb_spec c3 "2") as [->|]; [|discriminate].
  destruct (PyStr.is_digit c4) eqn:E4; cbn [andb]; [|discriminate].
  destruct (Ascii.eqb_spec c5 "-") as [->|]; [|discriminate].
  destruct (Ascii.eqb_spec c6 "M") as [->|]; [|discriminate].
  destruct (PyStr.is_digit c7) eqn:E7; cbn [andb]; [|discriminate].
  destruct (PyStr.is_digit c8) eqn:E8; cbn [andb]; [|discriminate].
  intros [= <- <-]. split; [|split].
  - cbn [String.prefix].
    repeat match goal with
           | |- context [ascii_dec ?a ?a] =>
               destruct (ascii_dec a a); [|congruence]
           end.
    destruct rest; reflexivity.
  - unfold month_format. cbn [PyStr.span].
    change (PyStr.is_digit "2") with true. change (PyStr.is_digit "0") with true.
    rewrite E4. change (PyStr.is_digit "-") with false.
    cbn. now rewrite E7, E8.
  - destruct (year_of_digit c4 E4) as (y & Hy & Hr & Hs).
    exists y, (String c7 (String c8 EmptyString)).
    split; [exact Hy|]. split; [exact Hr|]. split; [|reflexivity].
    rewrite Hs. reflexivity.
Qed.

Lemma re_search_none (p : string -> option (string * nat)) (s : string) :
  p EmptyString = None ->
  re_search p s = None ->
  forall pre rest, s = (pre ++ rest)%string -> p rest = None.
Proof.
  intros Hp. induction s as [|c s IH]; cbn [re_search].
  - intros _ [|? ?] rest; cbn [append]; [intros <-; exact Hp | discriminate].
  - destruct (p (String c s)) as [[g n]|] eqn:E; [discriminate|].
    intros H [|c' pre] rest; cbn [append].
    + intros <-. exact E.
    + intros [= _ ->]. now apply (IH H pre rest).
Qed.

Lemma contains_split (g s : string) :
  PyStr.contains g s = true ->
  exists pre rest, s = (pre ++ rest)%string /\ String.prefix g rest = true.
Proof.
  induction s as [|c s IH]; cbn [PyStr.contains]; intros H;
    apply orb_true_iff in H; destruct H as [H|H].
  - exists EmptyString, EmptyString. split; [reflexivity | exact H].
  - discriminate.
  - exists EmptyString, (String c s). split; [reflexivity | exact H].
  - destruct (IH H) as (pre & rest & -> & Hp).
    exists (String c pre), rest. split; [reflexivity | exact Hp].
Qed.

Lemma prefix_year_token (y : Z) (rest : string) :
  (2020 <= y <= 2029)%Z ->
  String.prefix (PyStr.of_int y) rest = true ->
  match_year_token rest <> None.
Proof.
  intros Hy Hp.
  assert (Hc : (y = 2020 \/ y = 2021 \/ y = 2022 \/ y = 2023 \/ y = 2024
                \/ y = 2025 \/ y = 2026 \/ y = 2027 \/ y = 2028
                \/ y = 2029)%Z) by lia.
  clear Hy.
  destruct Hc as [Hc|[Hc|[Hc|[Hc|[Hc|[Hc|[Hc|[Hc|[Hc|Hc]]]]]]]]]; subst y;
    match type of Hp with
    | String.prefix ?t _ = _ =>
        let s := eval vm_compute in t in change t with s in Hp
    end;
    destruct rest as [|c1 [|c2 [|c3 [|c4 rest]]]];
    cbn [String.prefix] in Hp;
    repeat match type of Hp with
           | context [ascii_dec ?a ?b] =>
               destruct (ascii_dec a b); [subst|discriminate]
           end;
    try discriminate; cbn; discriminate.
Qed.

(** X7.  What the extraction from the query text alone gives, for every
    question (in ASCII, as all text here): one address
    ["Building <digits>"] for each number found,
    a year that is absent or between 2020 and 2029, no month argument,
    text filters on [month], [property_name] and [tenant_name] only, of
    which [property_name] is the first address exactly when there is one,
    and one of the three actions. *)
Theorem X7_fallback_extraction_shape (q : string) :
  exists numbers year filters action,
    fallback_extraction q
    = (JList (building_names numbers), year, JNull, JObj filters, JStr action)
    /\ (forall n, In n numbers ->
          n <> EmptyString
          /\ forallb PyStr.is_digit (PyStr.chars_of n) = true)
    /\ (year = JNull \/ exists y, year = JInt y /\ (2020 <= y <= 2029)%Z)
    /\ dict_get "property_name" filters
       = match numbers with
         | first :: _ => Some (JStr ("Building " ++ first))
         | [] => None
         end
    /\ (forall k v, In (k, v) filters ->
          (k = "month" \/ k = "property_name" \/ k = "tenant_name")
          /\ exists text, v = JStr text)
    /\ In action ["show"; "aggregate"; "count"].
Proof.
  unfold fallback_extraction.
  assert (Hnum : forall n, In n (re_findall match_building q) ->
                   n <> EmptyString
                   /\ forallb PyStr.is_digit (PyStr.chars_of n) = true).
  { intros n Hn. apply re_findall_from_some in Hn. destruct Hn as (rest & k & Hm).
    exact (match_label_number_digits _ _ _ _ _ _ Hm). }
  assert (Hyear :
            match re_search match_month_token q with
            | Some token =>
                exists y, PyStr.int_of_digits (String.substring 0 4 token) = y
                          /\ (2020 <= y <= 2029)%Z
            | None =>
                match re_search match_year_token q with
                | Some t => exists y, PyStr.int_of_digits t = y
                                      /\ (2020 <= y <= 2029)%Z
                | None => True
                end
            end).
  { destruct (re_search match_month_token q) as [token|] eqn:Em.
    - destruct (re_search_some _ _ _ Em) as (pre & rest & n & _ & Hm).
      destruct (match_month_token_shape _ _ _ Hm) as (_ & _ & y & mm & Hy & Hr & _).
      exists y. split; assumption.
    - destruct (re_search match_year_token q) as [t|] eqn:Ey; [|exact I].
      destruct (re_search_some _ _ _ Ey) as (pre & rest & n & _ & Hm).
      exact (match_year_token_year _ _ _ Hm). }
  set (action := if PyStr.any_in _ _ then _ else _).
  assert (Hact : In action ["show"; "aggregate"; "count"]).
  { subst action.
    repeat match goal with
           | |- context [if ?b then _ else _] => destruct b
           end; cbn; tauto. }
  clearbody action.
  destruct (re_search match_month_token q) as [token|];
    [|destruct (re_search match_year_token q) as [t|]];
    (destruct (re_findall match_building q) as [|b bs];
     destruct (re_search match_tenant q) as [ten|]);
    cbv beta zeta iota;
    lazymatch goal with
    | |- context [building_names (?x :: ?l)] => exists (x :: l)
    | _ => exists (@nil string)
    end;
    do 2 eexists; exists action; (split; [reflexivity|]);
    (split; [exact Hnum|]);
    (split; [first [left; reflexivity
                   | right; destruct Hyear as (y & <- & Hr); eexists;
                     split; [reflexivity | exact Hr]]|]);
    (split; [reflexivity|]);
    (split; [|exact Hact]);
    intros k v Hin; cbn in Hin;
    repeat match type of Hin with
           | _ \/ _ => destruct Hin as [Hin|Hin]
           | (_, _) = (_, _) => injection Hin as <- <-
           | False => destruct Hin
           end;
    (split; [tauto | eexists; reflexivity]).
Qed.

(** X8.  The year and the month of the extraction from the query text go
    together.  A month filter is a text of the question in the format of
    the dataset, and the year is then the year of that month; without a
    month filter, a year is one the question writes out; and no year is
    extracted only from a question that names none of 2020 to 2029. *)
Theorem X8_fallback_month_and_year (q : string)
        (addresses year month action : json) (filters : dict json) :
  fallback_extraction q = (addresses, year, month, JObj filters, action) ->
  (forall token, dict_get "month" filters = Some (JStr token) ->
     PyStr.contains token q = true
     /\ statements.month_format token = true
     /\ exists y mm,
         year = JInt y /\ (2020 <= y <= 2029)%Z
         /\ token = (PyStr.of_int y ++ "-M" ++ mm)%string
         /\ String.length mm = 2%nat)
  /\ (dict_get "month" filters = None ->
      forall y, year = JInt y -> PyStr.contains (PyStr.of_int y) q = true)
  /\ (year = JNull ->
      forall y, (2020 <= y <= 2029)%Z ->
                PyStr.contains (PyStr.of_int y) q = false).
Proof.
  unfold fallback_extraction.
  destruct (re_search match_month_token q) as [token|] eqn:Em.
  - destruct (re_search_some _ _ _ Em) as (pre & rest & n & -> & Hm).
    destruct (match_month_token_shape _ _ _ Hm)
      as (Hpre & Hfmt & y & mm & Hy & Hr & Htok & Hlen).
    destruct (re_findall match_building (pre ++ rest)) as [|b bs];
      destruct (re_search match_tenant (pre ++ rest)) as [ten|];
      cbv beta zeta iota; intros [= <- <- <- <- <-];
      (split; [|split]); try discriminate;
      cbn; intros tok [= <-];
      (split; [now apply contains_append|]);
      (split; [exact Hfmt|]);
      exists y, mm; rewrite Hy; repeat split; try assumption; apply Hr.
  - destruct (re_search match_year_token q) as [t|] eqn:Ey.
    + destruct (re_search_some _ _ _ Ey) as (pre & rest & n & -> & Hm).
      assert (Ht : String.prefix t rest = true
                   /\ PyStr.of_int (PyStr.int_of_digits t) = t).
      { revert Hm. unfold match_year_token.
        destruct rest as [|c1 [|c2 [|c3 [|c4 rest]]]]; try discriminate.
        destruct (Ascii.eqb_spec c1 "2") as [->|]; [|discriminate].
        destruct (Ascii.eqb_spec c2 "0") as [->|]; [|discriminate].
        destruct (Ascii.eqb_spec c3 "2") as [->|]; [|discriminate].
        destruct (PyStr.is_digit c4) eqn:E4; cbn [andb]; [|discriminate].
        intros [= <- <-]. split.
        - cbn [String.prefix].
          repeat match goal with
                 | |- context [ascii_dec ?a ?a] =>
                     destruct (ascii_dec a a); [|congruence]
                 end.
          destruct rest; reflexivity.
        - destruct (year_of_digit c4 E4) as (y & Hy & _ & Hs).
          rewrite Hy. exact Hs. }
      destruct Ht as [Hpre Hround].
      destruct (re_findall match_building (pre ++ rest)) as [|b bs];
        destruct (re_search match_tenant (pre ++ rest)) as [ten|];
        cbv beta zeta iota; intros [= <- <- <- <- <-];
        (split; [cbn; intros tok; discriminate|]);
        (split; [|discriminate]);
        intros _ y [= <-]; rewrite Hround; now apply contains_append.
    + assert (Hnone : forall y, (2020 <= y <= 2029)%Z ->
                        PyStr.contains (PyStr.of_int y) q = false).
      { intros y Hy. destruct (PyStr.contains (PyStr.of_int y) q) eqn:Ec;
          [|reflexivity].
        destruct (contains_split _ _ Ec) as (pre & rest & Hq & Hp).
        exfalso. apply (prefix_year_token y rest Hy Hp).
        exact (re_search_none _ _ eq_refl Ey pre rest Hq). }
      destruct (re_findall match_building q) as [|b bs];
        destruct (re_search match_tenant q) as [ten|];
        cbv beta zeta iota; intros [= <- <- <- <- <-];
        (split; [cbn; intros tok; discriminate|]);
        (split; [intros _ y; discriminate|]);
        intros _; exact Hnone.
Qed.

Lemma X8_fallback_month_and_year_witness :
  fallback_extraction "profit of Building 17 in 2025-M03"
  = (JList [JStr "Building 17"], JInt 2025, JNull,
     JObj [("month", JStr "2025-M03"); ("property_name", JStr "Building 17")],
     JStr "show")
  /\ PyStr.contains "2025-M03" "profit of Building 17 in 2025-M03" = true
  /\ statements.month_format "2025-M03" = true.
Proof.
  split; [reflexivity|].
  destruct (X8_fallback_month_and_year
              "profit of Building 17 in 2025-M03"
              (JList [JStr "Building 17"]) (JInt 2025) JNull (JStr "show")
              [("month", JStr "2025-M03");
               ("property_name", JStr "Building 17")] eq_refl) as [Hm _].
  destruct (Hm "2025-M03" eq_refl) as (Hc & Hf & _).
  split; assumption.
Defined.

(** ** What the nodes leave untouched *)

Lemma retrieve_body_state (rt : Runtime) (s : AgentState) :
  fst (retrieve_body rt s) = s
  \/ exists fs,
      intent_is s "data_query" = true
      /\ fst (retrieve_body rt s)
         = set_extracted_params s
             (dict_set "filters" (JObj fs) (extracted_params s)).
Proof.
  unfold retrieve_body.
  destruct (intent_is s "price_comparison"); [left; reflexivity|].
  destruct (intent_is s "asset_details"); [left; reflexivity|].
  destruct (intent_is s "total_pnl"); [left; reflexivity|].
  destruct (intent_is s "data_query").
  - destruct (read_year (extracted_params s)) as [y|]; [|left; reflexivity].
    destruct (read_month (extracted_params s)) as [m|]; [|left; reflexivity].
    destruct (read_filters (extracted_params s)) as [fs|]; [|left; reflexivity].
    destruct (dict_has "filters" (extracted_params s)); [|left; reflexivity].
    right. eexists. split; reflexivity.
  - destruct (intent_is s "general_qa"); left; reflexivity.
Qed.

Lemma retrieve_data_frame (rt : Runtime) (s s' : AgentState) :
  retrieve_data rt s = Ok s' ->
  user_query s' = user_query s /\ intent s' = intent s
  /\ answer s' = answer s /\ strategy s' = strategy s
  /\ (error s' = error s \/ retrieved_data s' = retrieved_data s).
Proof.
  unfold retrieve_data.
  pose proof (retrieve_body_state rt s) as Hst.
  destruct (retrieve_body rt s) as [st out]. cbn [fst] in Hst.
  assert (Hfields : user_query st = user_query s /\ intent st = intent s
                    /\ answer st = answer s /\ strategy st = strategy s
                    /\ error st = error s
                    /\ retrieved_data st = retrieved_data s).
  { destruct Hst as [->|(fs & _ & ->)]; repeat split; reflexivity. }
  destruct Hfields as (Hq & Hi & Ha & Hs & He & Hr).
  destruct out as [[msg|data]| |]; try discriminate; intros [= <-];
    cbn; repeat split; auto.
Qed.

Lemma compute_answer_frame (rt : Runtime) (s s' : AgentState) :
  compute_answer rt s = Ok s' ->
  s' = s \/ exists a, s' = set_answer s a.
Proof.
  unfold compute_answer.
  repeat match goal with
         | |- context [match ?x with _ => _ end] =>
             destruct x; cbn [bind]
         | |- context [bind ?x _] => destruct x; cbn [bind]
         end;
    try discriminate; intros [= <-];
    first [left; reflexivity | right; eexists; reflexivity].
Qed.

Lemma end_with_error_frame (s s' : AgentState) :
  end_with_error s = Ok s' ->
  s' = s \/ exists a, s' = set_answer s a.
Proof.
  unfold end_with_error.
  destruct (text_set (error s) && negb (text_set (answer s)));
    [destruct (error s)|]; intros [= <-];
    first [left; reflexivity | right; eexists; reflexivity].
Qed.

(** ** What a run reports *)

(** X9.  A run of the agent that returns reports one of the five intents,
    and either an error or data, never both.  When the retrieval node set
    an error, that text, which is not empty, is the answer word for word,
    no data was stored and the run ended in [end_with_error]; otherwise no
    error is reported, the data stored is the payload of the intent and
    the run ended in [compute_answer]. *)
Theorem X9_error_text_is_the_answer (rt : Runtime) (query : string)
        (strategy_config : StrategyConfig) (trace : list string)
        (answer_text : string) (dbg : debug_state) :
  run_agent rt query strategy_config = Ok (trace, (answer_text, dbg)) ->
  exists label,
    dbg_intent dbg = Some label
    /\ mem label valid_intents = true
    /\ ((exists msg,
            dbg_error dbg = Some msg /\ msg <> EmptyString
            /\ answer_text = msg
            /\ dbg_retrieved_data dbg = []
            /\ last trace EmptyString = "end_with_error")
        \/ (dbg_error dbg = None
            /\ statements.payload_for label (dbg_retrieved_data dbg)
            /\ last trace EmptyString = "compute_answer")).
Proof.
  unfold run_agent.
  destruct (build_llm_from_strategy rt strategy_config) as [built| |];
    cbn [bind]; try discriminate.
  unfold app_invoke. rewrite run_pipeline.
  set (s0 := initial_state query strategy_config).
  destruct (detect_intent rt s0) as [s1| |] eqn:H1; cbn [bind]; try discriminate.
  destruct (extract_params rt s1) as [s2| |] eqn:H2; cbn [bind]; try discriminate.
  destruct (retrieve_data rt s2) as [s3| |] eqn:H3; cbn [bind]; try discriminate.
  destruct (detect_intent_ok rt s0 s1 H1) as (label & -> & Hv).
  destruct (extract_params_ok rt _ s2 H2) as (params & ->).
  destruct (retrieve_data_ok rt
              (set_extracted_params (set_intent s0 (Some label)) params)
              s3 label eq_refl Hv H3)
    as (Hi3 & Ha3 & Hs3 & Hq3 & Hcases).
  destruct (retrieve_data_frame rt _ s3 H3) as (_ & _ & _ & _ & Hframe).
  cbn in Ha3, Hs3, Hq3, Hframe.
  destruct (text_set (error s3)) eqn:He.
  - destruct Hcases as [(msg & Hmsg & Hne)|(Herr & _)];
      [| rewrite Herr in He; discriminate He ].
    rewrite (end_with_error_ok s3 msg Hmsg Hne Ha3). cbn [bind fst snd].
    intros [= <- <- <-]. exists label. cbn.
    split; [exact Hi3|]. split; [exact Hv|]. left. exists msg.
    split; [exact Hmsg|]. split; [exact Hne|].
    split; [apply final_answer_of; [reflexivity | now left]|].
    split; [|reflexivity].
    destruct Hframe as [Hsame|Hdata]; [congruence | exact Hdata].
  - destruct Hcases as [(msg & Hmsg & Hne)|(Herr & Hpay)].
    { rewrite Hmsg in He. cbn in He. apply String.eqb_neq in Hne.
      rewrite Hne in He. discriminate He. }
    destruct (compute_answer rt s3) as [final| |] eqn:H4; cbn [bind];
      try discriminate.
    cbn [fst snd]. intros [= <- <- <-]. exists label.
    cbn [dbg_intent dbg_error dbg_retrieved_data].
    cbn in Herr.
    destruct (compute_answer_frame rt s3 final H4) as [->|(a & ->)]; cbn;
      (split; [exact Hi3|]); (split; [exact Hv|]); right;
      (split; [exact Herr|]); (split; [exact Hpay | reflexivity]).
Qed.

Lemma X9_error_text_is_the_answer_witness :
  exists dbg,
    run_agent more_samples.rt_details "Tell me about Building 99"
              samples.config
    = Ok (["detect_intent"; "extract_params"; "retrieve_data";
           "end_with_error"],
          ("Property 'Building 99' not found.", dbg))
    /\ dbg_intent dbg = Some "asset_details"
    /\ dbg_retrieved_data dbg = [].
Proof.
  pose (run := statements.returned
                 ([], (EmptyString,
                       {| dbg_intent := None; dbg_extracted_params := [];
                          dbg_retrieved_data := []; dbg_error := None |}))
                 (run_agent more_samples.rt_details
                            "Tell me about Building 99" samples.config)).
  exists (snd (snd run)).
  destruct (X9_error_text_is_the_answer
              more_samples.rt_details "Tell me about Building 99"
              samples.config (fst run) (fst (snd run)) (snd (snd run))
              eq_refl)
    as (label & Hi & _ & [(msg & _ & _ & _ & Hdata & _)|(Herr & _)]).
  - split; [reflexivity|]. split; [reflexivity | exact Hdata].
  - discriminate Herr.
Defined.

(** ** What a run can raise *)

Lemma detect_intent_raises (rt : Runtime) (s : AgentState) (e : exn) :
  detect_intent rt s = Raise e ->
  ~ statements.configured (intent_system_prompt (strategy s))
  /\ e = Exn ValueError INTENT_NOT_CONFIGURED.
Proof.
  unfold detect_intent, statements.configured.
  destruct (intent_system_prompt (strategy s)) as [p|].
  - destruct (String.eqb_spec p EmptyString) as [->|_]; [|discriminate].
    intros [= <-]. split; [|reflexivity].
    intros (text & [= <-] & Hne). now apply Hne.
  - intros [= <-]. split; [|reflexivity]. intros (text & Ht & _). discriminate Ht.
Qed.

Lemma parse_response_fields (rt : Runtime) (content : string)
      (a y m f act : json) :
  parse_response rt content = Ok (Some (a, y, m, f, act)) ->
  (truthy a = true \/ a = JList [])
  /\ exists parsed,
      json_loads rt (clean_response content) = Loaded (JObj parsed).
Proof.
  unfold parse_response.
  destruct (json_loads rt (clean_response content)) as [[]|msg|e];
    try discriminate.
  - destruct (truthy (get_or "addresses" JNull kv)) eqn:E;
      intros [= <- _ _ _ _];
      (split; [first [left; exact E | right; reflexivity]
              | eexists; reflexivity]).
  - destruct (exn_class e); discriminate.
Qed.

Lemma parse_response_raises (rt : Runtime) (content : string) (e : exn) :
  parse_response rt content = Raise e ->
  json_loads rt (clean_response content) = LoadsRaised e
  /\ exn_class e <> AttributeError.
Proof.
  unfold parse_response.
  destruct (json_loads rt (clean_response content)) as [[]|msg|e'];
    try discriminate.
  destruct (exn_class e') eqn:E; try discriminate; intros [= <-];
    (split; [reflexivity | rewrite E; discriminate]).
Qed.

Lemma reconcile_addresses_raises (q : string) (addresses filters : json)
      (e : exn) :
  reconcile_addresses q addresses filters = Raise e ->
  exn_class e = AttributeError \/ exn_class e = TypeError.
Proof.
  unfold reconcile_addresses. destruct (truthy addresses); [discriminate|].
  destruct filters; try (intros [= <-]; left; reflexivity).
  destruct (truthy (get_or "property_name" JNull kv)); [|discriminate].
  unfold building_in.
  destruct (get_or "property_name" JNull kv); cbn [bind];
    try (intros [= <-]; right; reflexivity);
    repeat match goal with
           | |- context [if ?b then _ else _] => destruct b
           | |- context [match ?x with _ => _ end] => destruct x
           end; discriminate.
Qed.

Lemma extract_params_raises (rt : Runtime) (s : AgentState) (e : exn) :
  extract_params rt s = Raise e ->
  (~ statements.configured (extract_system_prompt (strategy s))
   /\ e = Exn ValueError EXTRACT_NOT_CONFIGURED)
  \/ exists p,
      extract_system_prompt (strategy s) = Some p
      /\ (invoke rt p (user_query s) = LlmRaised e
          \/ exists content,
              invoke rt p (user_query s) = LlmText content
              /\ ((json_loads rt (clean_response content) = LoadsRaised e
                   /\ exn_class e <> AttributeError)
                  \/ ((exists parsed,
                          json_loads rt (clean_response content)
                          = Loaded (JObj parsed))
                      /\ (exn_class e = AttributeError
                          \/ exn_class e = TypeError)))).
Proof.
  unfold extract_params, statements.configured.
  destruct (match intent s with
            | Some i => String.eqb i "general_qa"
            | None => false
            end); [discriminate|].
  destruct (extract_system_prompt (strategy s)) as [p|].
  - destruct (String.eqb_spec p EmptyString) as [->|_].
    + intros [= <-]. left. split; [|reflexivity].
      intros (text & [= <-] & Hne). now apply Hne.
    + intros H. right. exists p. split; [reflexivity|].
      destruct (invoke rt p (user_query s)) as [e'|content].
      * injection H as <-. left. reflexivity.
      * right. exists content. split; [reflexivity|].
        destruct (parse_response rt content)
          as [[[[[[a y] m] f] act]|]|e'|] eqn:Hparse; cbn [bind] in H;
          try discriminate H.
        -- right.
           split; [exact (proj2 (parse_response_fields _ _ _ _ _ _ _ Hparse))|].
           destruct (reconcile_addresses (user_query s) a f) eqn:E;
             cbn [bind] in H; try discriminate.
           injection H as <-. exact (reconcile_addresses_raises _ _ _ _ E).
        -- exfalso.
           destruct (fallback_reconciled (user_query s))
             as (a & y & f & act & Hfb & Hrec).
           rewrite Hfb, Hrec in H. discriminate H.
        -- injection H as <-. left.
           exact (parse_response_raises _ _ _ Hparse).
  - intros [= <-]. left. split; [|reflexivity].
    intros (text & Ht & _). discriminate Ht.
Qed.

(** the parameters of a state the extractor returned: those of the
    extraction from the text, unless a response decoded to an object *)
Lemma extract_params_decoded (rt : Runtime) (s s' : AgentState) :
  extract_params rt s = Ok s' ->
  statements.fallback_params (user_query s) (extracted_params s')
  \/ exists p content parsed,
      extract_system_prompt (strategy s) = Some p
      /\ invoke rt p (user_query s) = LlmText content
      /\ json_loads rt (clean_response content) = Loaded (JObj parsed).
Proof.
  unfold extract_params.
  destruct (match intent s with
            | Some i => String.eqb i "general_qa"
            | None => false
            end).
  - intros [= <-]. left. left. reflexivity.
  - destruct (extract_system_prompt (strategy s)) as [p|]; [|discriminate].
    destruct (String.eqb p EmptyString); [discriminate|].
    destruct (invoke rt p (user_query s)) as [e'|content] eqn:E;
      [discriminate|].
    destruct (parse_response rt content)
      as [[[[[[a y] m] f] act]|]|e'|] eqn:Ep; cbn [bind]; try discriminate.
    + intros _. right.
      destruct (proj2 (parse_response_fields _ _ _ _ _ _ _ Ep))
        as (parsed & Hj).
      exists p, content, parsed.
      split; [reflexivity|]. split; [exact E | exact Hj].
    + destruct (fallback_shape (user_query s))
        as (names & year & filters & action & Hfb & Hy & Hsc & Hrec).
      rewrite Hfb, Hrec. cbn [bind]. intros [= <-]. left. right.
      exists names, year, filters, action. repeat split; assumption.
Qed.

Lemma time_frame_raises (y : option Z) (m : option month_arg) (e : exn) :
  time_frame y m = Raise e ->
  m <> None /\ (exn_class e = IndexError \/ exn_class e = TypeError).
Proof.
  unfold time_frame, month_name.
  destruct m as [[z|t]|]; rewrite ?Bool.andb_false_r;
    repeat match goal with
           | |- context [if ?b then _ else _] => destruct b; cbn [bind]
           end;
    try discriminate; intros [= <-]; (split; [discriminate|]);
    first [left; reflexivity | right; reflexivity].
Qed.

Lemma compute_answer_raises (rt : Runtime) (s : AgentState) (label : string)
      (e : exn) :
  intent s = Some label ->
  mem label valid_intents = true ->
  text_set (error s) = false ->
  statements.payload_for label (retrieved_data s) ->
  compute_answer rt s = Raise e ->
  (exists y m v,
      dict_get "total_pnl" (retrieved_data s) = Some (PTotal y m v)
      /\ time_frame y m = Raise e)
  \/ (~ statements.configured (general_qa_system_prompt (strategy s))
      /\ e = Exn ValueError GENERAL_QA_NOT_CONFIGURED)
  \/ exists p,
      general_qa_system_prompt (strategy s) = Some p
      /\ invoke rt p (user_query s) = LlmRaised e.
Proof.
  intros Hi Hv He (Hcomp & Hasset & Htotal & Hquery).
  unfold compute_answer, intent_is, statements.configured. rewrite He, Hi.
  destruct (valid_intent_cases label Hv) as [ -> | [ -> | [ -> | [ -> | -> ] ] ] ];
    cbn [String.eqb Ascii.eqb Bool.eqb].
  - destruct (Hcomp eq_refl) as (comp & ->). discriminate.
  - destruct (Htotal eq_refl) as (y & m & v & Hd). rewrite Hd.
    destruct (time_frame y m) as [frame|e'|] eqn:E; cbn [bind];
      try discriminate.
    intros [= <-]. left. exists y, m, v. split; [reflexivity | exact E].
  - destruct (Hasset eq_refl) as (record & ->). discriminate.
  - destruct (general_qa_system_prompt (strategy s)) as [p|].
    + destruct (String.eqb_spec p EmptyString) as [->|_].
      * intros [= <-]. right. left. split; [|reflexivity].
        intros (text & [= <-] & Hne). now apply Hne.
      * destruct (invoke rt p (user_query s)) as [e'|content] eqn:E;
          [|discriminate].
        intros [= <-]. right. right. exists p. split; [reflexivity | exact E].
    + intros [= <-]. right. left. split; [|reflexivity].
      intros (text & Ht & _). discriminate Ht.
  - destruct (Hquery eq_refl) as (q & -> & _).
    destruct (String.eqb (q_status q) "no_data"); discriminate.
Qed.

(** X10.  What [run_agent] raises, within the typed data model.  A
    failure of the library to build the chat model is raised by
    [run_agent] as it is, whatever the query and the prompts.  A run
    that raises does so for one of these reasons: the library fails to
    build the chat model, before the graph starts; a prompt is not
    configured (the error of the node that needs it); the model raises
    at the extraction prompt or at the general prompt (its failure at
    the intent prompt is absorbed); the decoder raises on the response
    to the extraction prompt something else than the two exceptions the
    node catches; or, only when that response decoded to an object, an
    [AttributeError], [TypeError] or [IndexError] on the decoded values.
    Nothing the dataset raises escapes, nor the recursion limit of the
    graph. *)
Theorem X10_failures_of_a_run (rt : Runtime) (query : string)
        (strategy_config : StrategyConfig) (e : exn) :
  (build_llm_from_strategy rt strategy_config = Raise e ->
   run_agent rt query strategy_config = Raise e)
  /\
  (run_agent rt query strategy_config = Raise e ->
  build_llm_from_strategy rt strategy_config = Raise e
  \/ (~ statements.configured (intent_system_prompt strategy_config)
      /\ e = Exn ValueError INTENT_NOT_CONFIGURED)
  \/ (~ statements.configured (extract_system_prompt strategy_config)
      /\ e = Exn ValueError EXTRACT_NOT_CONFIGURED)
  \/ (~ statements.configured (general_qa_system_prompt strategy_config)
      /\ e = Exn ValueError GENERAL_QA_NOT_CONFIGURED)
  \/ (exists system,
         (extract_system_prompt strategy_config = Some system
          \/ general_qa_system_prompt strategy_config = Some system)
         /\ invoke rt system (PyStr.strip query) = LlmRaised e)
  \/ (exists system content,
         extract_system_prompt strategy_config = Some system
         /\ invoke rt system (PyStr.strip query) = LlmText content
         /\ json_loads rt (clean_response content) = LoadsRaised e
         /\ exn_class e <> AttributeError)
  \/ (exists system content parsed,
         extract_system_prompt strategy_config = Some system
         /\ invoke rt system (PyStr.strip query) = LlmText content
         /\ json_loads rt (clean_response content) = Loaded (JObj parsed)
         /\ (exn_class e = AttributeError \/ exn_class e = TypeError
             \/ exn_class e = IndexError))).
Proof.
  split.
  { intros Hbuild. unfold run_agent. now rewrite Hbuild. }
  unfold run_agent.
  destruct (build_llm_from_strategy rt strategy_config) as [built|e0|];
    cbn [bind]; try discriminate.
  2:{ intros [= <-]. left. reflexivity. }
  unfold app_invoke. rewrite run_pipeline.
  set (s0 := initial_state query strategy_config).
  destruct (detect_intent rt s0) as [s1|e1|] eqn:H1; cbn [bind];
    try discriminate.
  2:{ intros [= <-]. right. left. exact (detect_intent_raises rt s0 e1 H1). }
  destruct (detect_intent_ok rt s0 s1 H1) as (label & -> & Hv).
  destruct (extract_params rt (set_intent s0 (Some label)))
    as [s2|e2|] eqn:H2; cbn [bind]; try discriminate.
  2:{ intros [= <-]. right. right.
      destruct (extract_params_raises rt _ e2 H2)
        as [Hconf|(p & Hp & [Hllm|(content & Hllm
                                     & [(Hj & Hclass)
                                       |((parsed & Hj) & Hclass)])])].
      - left. exact Hconf.
      - right. right. left. exists p. split; [left; exact Hp | exact Hllm].
      - do 3 right. left. exists p, content.
        repeat (split; [assumption|]). exact Hclass.
      - do 4 right. exists p, content, parsed.
        repeat (split; [assumption|]). tauto. }
  destruct (extract_params_ok rt _ s2 H2) as (params & ->).
  pose proof (extract_params_decoded rt _ _ H2) as Hdecoded.
  cbn [extracted_params set_extracted_params user_query set_intent strategy]
    in Hdecoded.
  set (s2 := set_extracted_params (set_intent s0 (Some label)) params) in *.
  destruct (retrieve_data rt s2) as [s3|e3|] eqn:H3; cbn [bind];
    try discriminate.
  2:{ exfalso. revert H3. unfold retrieve_data.
      destruct (retrieve_body rt s2) as [st [[msg|data]| |]]; discriminate. }
  destruct (retrieve_data_ok rt s2 s3 label eq_refl Hv H3)
    as (Hi3 & Ha3 & Hs3 & Hq3 & Hcases).
  cbn in Hs3, Hq3.
  destruct (text_set (error s3)) eqn:He.
  { destruct (end_with_error_returns s3) as (s4 & ->). discriminate. }
  destruct Hcases as [(msg & Hmsg & Hne)|(Herr & Hpay)].
  { rewrite Hmsg in He. cbn in He. apply String.eqb_neq in Hne.
    rewrite Hne in He. discriminate He. }
  destruct (compute_answer rt s3) as [s4|e4|] eqn:H4; cbn [bind];
    try discriminate.
  intros [= <-]. do 3 right.
  destruct (compute_answer_raises rt s3 label e4 Hi3 Hv He Hpay H4)
    as [(y & m & v & Hd & Hframe)|[Hconf|(p & Hp & Hllm)]].
  - destruct (time_frame_raises y m e4 Hframe) as (Hm & Hclass).
    do 3 right.
    destruct Hdecoded as [Hfb|(p & content & parsed & Hp & Hllm & Hj)].
    + exfalso. apply Hm.
      destruct (retrieve_data_returns rt s2 label eq_refl Hv Hfb)
        as (s3' & H3' & Hmonth).
      rewrite H3 in H3'. injection H3' as <-.
      apply (Hmonth y m v Hd). cbn. intros Hnil. rewrite <- Hnil in Hd.
      discriminate Hd.
    + exists p, content, parsed. repeat (split; [assumption|]). tauto.
  - left. rewrite Hs3 in Hconf. exact Hconf.
  - right. left. exists p. rewrite Hs3 in Hp. rewrite Hq3 in Hllm.
    split; [right; exact Hp | exact Hllm].
Qed.

(** The run on the thousand brackets: what the decoder raises reaches the
    caller of [run_agent]. *)
Lemma X10_failures_of_a_run_witness :
  run_agent samples.rt_deep "show the rows" samples.config
  = Raise (Exn RecursionError
             ("maximum recursion depth exceeded while decoding a JSON array "
                ++ "from a unicode string"))
  /\ exists system content,
      extract_system_prompt samples.config = Some system
      /\ invoke samples.rt_deep system (PyStr.strip "show the rows")
         = LlmText content
      /\ json_loads samples.rt_deep (clean_response content)
         = LoadsRaised
             (Exn RecursionError
                ("maximum recursion depth exceeded while decoding a JSON "
                   ++ "array from a unicode string")).
Proof.
  split; [reflexivity|].
  destruct (proj2 (X10_failures_of_a_run
                     samples.rt_deep "show the rows" samples.config
                     (Exn RecursionError
                        ("maximum recursion depth exceeded while decoding a "
                           ++ "JSON array from a unicode string"))) eq_refl)
    as [Hbuild|[(_ & He)|[(_ & He)|[(_ & He)|[(system & _ & Hllm)
       |[(system & content & Hp & Hllm & Hj & _)
        |(system & content & parsed & _ & _ & _ & Hclass)]]]]]].
  - discriminate Hbuild.
  - discriminate He.
  - discriminate He.
  - discriminate He.
  - exfalso. revert Hllm. cbv [samples.rt_deep samples.runtime_of invoke
                               samples.scripted].
    repeat match goal with
           | |- context [if ?b then _ else _] => destruct b
           end; discriminate.
  - exists system, content. repeat split; assumption.
  - exfalso. cbn in Hclass. intuition discriminate.
Defined.

(** ** The graph has no cycle *)

Lemma successor_cases (rt : Runtime) (cur : string) (s : AgentState) :
  cur = START \/ cur = "detect_intent" \/ cur = "extract_params"
  \/ cur = "retrieve_data"
  \/ successor (build_graph rt) cur s = Some END
  \/ successor (build_graph rt) cur s = None.
Proof.
  destruct (String.eqb_spec cur START) as [->|H0]; [tauto|].
  destruct (String.eqb_spec cur "detect_intent") as [->|H1]; [tauto|].
  destruct (String.eqb_spec cur "extract_params") as [->|H2]; [tauto|].
  destruct (String.eqb_spec cur "retrieve_data") as [->|H3]; [tauto|].
  do 4 right.
  unfold successor, build_graph. cbn [edges conditional_edges dict_get].
  apply String.eqb_neq in H0, H1, H2, H3. rewrite H0, H1, H2, H3.
  destruct (String.eqb cur "compute_answer"); [left; reflexivity|].
  destruct (String.eqb cur "end_with_error"); [left; reflexivity|].
  right. reflexivity.
Qed.

Lemma run_from_none (g : StateGraph) (k : nat) (cur : string) (st : AgentState) :
  successor g cur st = None -> run_from g k cur st = Ok ([], st).
Proof. intros H. destruct k; simpl; rewrite H; reflexivity. Qed.

Lemma run_after_extraction (rt : Runtime) (k : nat) (s : AgentState) :
  run_from (build_graph rt) (S (S k)) "extract_params" s
  = (s3 <- retrieve_data rt s ;;
     if text_set (error s3)
     then (s4 <- end_with_error s3 ;;
           Ok (["retrieve_data"; "end_with_error"], s4))
     else (s4 <- compute_answer rt s3 ;;
           Ok (["retrieve_data"; "compute_answer"], s4))).
Proof.
  rewrite (run_from_step _ _ "extract_params" "retrieve_data" s
             (retrieve_data rt)); try reflexivity.
  destruct (retrieve_data rt s) as [s3| |]; cbn [bind]; try reflexivity.
  rewrite run_after_retrieval.
  destruct (text_set (error s3)).
  - destruct (end_with_error s3); reflexivity.
  - destruct (compute_answer rt s3); reflexivity.
Qed.

Lemma run_after_detection (rt : Runtime) (k : nat) (s : AgentState) :
  run_from (build_graph rt) (S (S (S k))) "detect_intent" s
  = (s2 <- extract_params rt s ;;
     s3 <- retrieve_data rt s2 ;;
     if text_set (error s3)
     then (s4 <- end_with_error s3 ;;
           Ok (["extract_params"; "retrieve_data"; "end_with_error"], s4))
     else (s4 <- compute_answer rt s3 ;;
           Ok (["extract_params"; "retrieve_data"; "compute_answer"], s4))).
Proof.
  rewrite (run_from_step _ _ "detect_intent" "extract_params" s
             (extract_params rt)); try reflexivity.
  destruct (extract_params rt s) as [s2| |]; cbn [bind]; try reflexivity.
  rewrite run_after_extraction.
  destruct (retrieve_data rt s2) as [s3| |]; cbn [bind]; try reflexivity.
  destruct (text_set (error s3)).
  - destruct (end_with_error s3); reflexivity.
  - destruct (compute_answer rt s3); reflexivity.
Qed.

Lemma run_from_start (rt : Runtime) (k : nat) (s : AgentState) :
  run_from (build_graph rt) (S (S (S (S k)))) START s
  = run_from (build_graph rt) recursion_limit START s.
Proof.
  unfold recursion_limit.
  rewrite !(run_from_step _ _ START "detect_intent" s (detect_intent rt));
    try reflexivity.
  destruct (detect_intent rt s) as [s1| |]; cbn [bind]; try reflexivity.
  now rewrite !run_after_detection.
Qed.

Lemma terminal_frame (rt : Runtime) (s3 : AgentState) (steps : list string)
      (run : list string * AgentState) :
  (if text_set (error s3)
   then (s4 <- end_with_error s3 ;;
         Ok ((steps ++ ["end_with_error"])%list, s4))
   else (s4 <- compute_answer rt s3 ;;
         Ok ((steps ++ ["compute_answer"])%list, s4))) = Ok run ->
  (fst run = (steps ++ ["end_with_error"])%list
   \/ fst run = (steps ++ ["compute_answer"])%list)
  /\ user_query (snd run) = user_query s3
  /\ strategy (snd run) = strategy s3
  /\ intent (snd run) = intent s3
  /\ extracted_params (snd run) = extracted_params s3
  /\ retrieved_data (snd run) = retrieved_data s3
  /\ error (snd run) = error s3.
Proof.
  destruct (text_set (error s3)).
  - destruct (end_with_error s3) as [s4| |] eqn:E; cbn [bind]; try discriminate.
    intros [= <-]. cbn [fst snd]. split; [left; reflexivity|].
    destruct (end_with_error_frame s3 s4 E) as [->|(a & ->)];
      repeat split; reflexivity.
  - destruct (compute_answer rt s3) as [s4| |] eqn:E; cbn [bind];
      try discriminate.
    intros [= <-]. cbn [fst snd]. split; [right; reflexivity|].
    destruct (compute_answer_frame rt s3 s4 E) as [->|(a & ->)];
      repeat split; reflexivity.
Qed.

(** X11.  The compiled graph has no cycle.  From any node and any state,
    four steps of the engine are as good as any larger limit, so the
    limit of 25 is never what ends a run.  A run that returns executed a
    final part of one of the two paths, each node at most once, and left
    the question and the strategy of the state as they were. *)
Theorem X11_graph_has_no_cycle (rt : Runtime) (cur : string)
        (s : AgentState) :
  (forall more,
      run_from (build_graph rt) (4 + more) cur s
      = run_from (build_graph rt) 4 cur s)
  /\ (forall trace final,
        run_from (build_graph rt) recursion_limit cur s = Ok (trace, final) ->
        (exists done,
            (done ++ trace)%list
            = ["detect_intent"; "extract_params"; "retrieve_data";
               "compute_answer"]
            \/ (done ++ trace)%list
               = ["detect_intent"; "extract_params"; "retrieve_data";
                  "end_with_error"])
        /\ NoDup trace
        /\ user_query final = user_query s
        /\ strategy final = strategy s).
Proof.
  assert (Hnodup : forall l : list string,
             (exists done,
                 (done ++ l)%list
                 = ["detect_intent"; "extract_params"; "retrieve_data";
                    "compute_answer"]
                 \/ (done ++ l)%list
                    = ["detect_intent"; "extract_params"; "retrieve_data";
                       "end_with_error"]) ->
             NoDup l).
  { intros l (done & H).
    assert (Hall : NoDup (done ++ l)%list).
    { destruct H as [-> | ->];
        repeat (constructor; [cbn; intuition discriminate|]); constructor. }
    exact (NoDup_app_remove_l _ _ Hall). }
  destruct (successor_cases rt cur s)
    as [ -> | [ -> | [ -> | [ -> | [Hend | Hnone ] ] ] ] ].
  - (* the start *)
    split; [intros more; cbn [plus]; now rewrite !run_from_start|].
    intros trace final. rewrite run_pipeline.
    destruct (detect_intent rt s) as [s1| |] eqn:H1; cbn [bind];
      try discriminate.
    destruct (extract_params rt s1) as [s2| |] eqn:H2; cbn [bind];
      try discriminate.
    destruct (retrieve_data rt s2) as [s3| |] eqn:H3; cbn [bind];
      try discriminate.
    intros Hrun.
    destruct (terminal_frame rt s3
                ["detect_intent"; "extract_params"; "retrieve_data"]
                (trace, final) Hrun) as (Htrace & Hq & Hs & _).
    cbn [fst snd app] in Htrace, Hq, Hs.
    destruct (detect_intent_ok rt s s1 H1) as (label & -> & _).
    destruct (extract_params_ok rt _ s2 H2) as (params & ->).
    destruct (retrieve_data_frame rt _ s3 H3) as (Hq3 & _ & _ & Hs3 & _).
    cbn in Hq3, Hs3.
    assert (Hsuffix : exists done,
               (done ++ trace)%list
               = ["detect_intent"; "extract_params"; "retrieve_data";
                  "compute_answer"]
               \/ (done ++ trace)%list
                  = ["detect_intent"; "extract_params"; "retrieve_data";
                     "end_with_error"]).
    { exists []. cbn [app]. destruct Htrace as [-> | ->]; tauto. }
    split; [exact Hsuffix|]. split; [exact (Hnodup _ Hsuffix)|].
    split; congruence.
  - (* after the detection *)
    split; [intros more; cbn [plus]; now rewrite !run_after_detection|].
    intros trace final. unfold recursion_limit. rewrite run_after_detection.
    destruct (extract_params rt s) as [s2| |] eqn:H2; cbn [bind];
      try discriminate.
    destruct (retrieve_data rt s2) as [s3| |] eqn:H3; cbn [bind];
      try discriminate.
    intros Hrun.
    destruct (terminal_frame rt s3 ["extract_params"; "retrieve_data"]
                (trace, final) Hrun) as (Htrace & Hq & Hs & _).
    cbn [fst snd app] in Htrace, Hq, Hs.
    destruct (extract_params_ok rt _ s2 H2) as (params & ->).
    destruct (retrieve_data_frame rt _ s3 H3) as (Hq3 & _ & _ & Hs3 & _).
    cbn in Hq3, Hs3.
    assert (Hsuffix : exists done,
               (done ++ trace)%list
               = ["detect_intent"; "extract_params"; "retrieve_data";
                  "compute_answer"]
               \/ (done ++ trace)%list
                  = ["detect_intent"; "extract_params"; "retrieve_data";
                     "end_with_error"]).
    { exists ["detect_intent"]. cbn [app].
      destruct Htrace as [-> | ->]; tauto. }
    split; [exact Hsuffix|]. split; [exact (Hnodup _ Hsuffix)|].
    split; congruence.
  - (* after the extraction *)
    split; [intros more; cbn [plus]; now rewrite !run_after_extraction|].
    intros trace final. unfold recursion_limit. rewrite run_after_extraction.
    destruct (retrieve_data rt s) as [s3| |] eqn:H3; cbn [bind];
      try discriminate.
    intros Hrun.
    destruct (terminal_frame rt s3 ["retrieve_data"] (trace, final) Hrun)
      as (Htrace & Hq & Hs & _).
    cbn [fst snd app] in Htrace, Hq, Hs.
    destruct (retrieve_data_frame rt _ s3 H3) as (Hq3 & _ & _ & Hs3 & _).
    assert (Hsuffix : exists done,
               (done ++ trace)%list
               = ["detect_intent"; "extract_params"; "retrieve_data";
                  "compute_answer"]
               \/ (done ++ trace)%list
                  = ["detect_intent"; "extract_params"; "retrieve_data";
                     "end_with_error"]).
    { exists ["detect_intent"; "extract_params"]. cbn [app].
      destruct Htrace as [-> | ->]; tauto. }
    split; [exact Hsuffix|]. split; [exact (Hnodup _ Hsuffix)|].
    split; congruence.
  - (* after the retrieval *)
    split; [intros more; cbn [plus]; now rewrite !run_after_retrieval|].
    intros trace final. unfold recursion_limit. rewrite run_after_retrieval.
    intros Hrun.
    destruct (terminal_frame rt s [] (trace, final) Hrun)
      as (Htrace & Hq & Hs & _).
    cbn [fst snd app] in Htrace, Hq, Hs.
    assert (Hsuffix : exists done,
               (done ++ trace)%list
               = ["detect_intent"; "extract_params"; "retrieve_data";
                  "compute_answer"]
               \/ (done ++ trace)%list
                  = ["detect_intent"; "extract_params"; "retrieve_data";
                     "end_with_error"]).
    { exists ["detect_intent"; "extract_params"; "retrieve_data"]. cbn [app].
      destruct Htrace as [-> | ->]; tauto. }
    split; [exact Hsuffix|]. split; [exact (Hnodup _ Hsuffix)|].
    split; assumption.
  - (* a terminal node *)
    split; [intros more; now rewrite !run_from_end|].
    intros trace final. rewrite run_from_end by exact Hend.
    intros [= <- <-].
    split; [eexists; left; apply app_nil_r|].
    split; [constructor|]. split; reflexivity.
  - (* not a node with an edge *)
    split; [intros more; now rewrite !run_from_none|].
    intros trace final. rewrite run_from_none by exact Hnone.
    intros [= <- <-].
    split; [eexists; left; apply app_nil_r|].
    split; [constructor|]. split; reflexivity.
Qed.

(** ** A dataset that does not load *)

Lemma get_assets_df_raises (rt : Runtime) (e : exn) :
  get_assets_df rt = Raise e ->
  (data_file rt = None
   /\ e = Exn FileNotFoundError ("Dataset file not found at " ++ DATA_PATH rt))
  \/ exists df,
      data_file rt = Some df
      /\ missing_columns df <> []
      /\ e = Exn DatasetConfigError
               ("Dataset is missing required columns: "
                  ++ PyStr.join ", " (missing_columns df)).
Proof.
  unfold get_assets_df, _validate_columns.
  destruct (data_file rt) as [df|].
  - fold (missing_columns df).
    destruct (missing_columns df) as [|c l] eqn:E; cbn [bind]; [discriminate|].
    intros [= <-]. right. exists df. rewrite E.
    split; [reflexivity|]. split; [discriminate | reflexivity].
  - intros [= <-]. left. split; reflexivity.
Qed.

(** X12.  When the dataset does not load, each of the four operations on
    it raises the error of the load whatever its arguments, before any of
    its own checks.  The retrieval node then stores no data for any
    intent but [general_qa]: it returns with an error, which is the one
    of the load, prefixed with [System Error: ] for a file that does not
    exist and with [Data Config Error: ] for missing columns, unless the
    node found too few addresses or an unknown intent first. *)
Theorem X12_dataset_failures_are_reported (rt : Runtime) (e : exn) :
  get_assets_df rt = Raise e ->
  (forall q, get_single_asset rt q = Raise e)
  /\ (forall a1 a2, compare_assets_by_price rt a1 a2 = Raise e)
  /\ (forall y m, compute_total_pnl rt y m = Raise e)
  /\ (forall filters action limit,
         query_data_flexible rt filters action limit = Raise e)
  /\ ((data_file rt = None
       /\ retrieval_error e
          = "System Error: Dataset file not found at " ++ DATA_PATH rt)
      \/ (exists df,
             data_file rt = Some df
             /\ missing_columns df <> []
             /\ retrieval_error e
                = "Data Config Error: Dataset is missing required columns: "
                  ++ PyStr.join ", " (missing_columns df)))
  /\ (forall s s',
         retrieve_data rt s = Ok s' ->
         intent_is s "general_qa" = false ->
         retrieved_data s' = retrieved_data s
         /\ exists msg,
             error s' = Some msg
             /\ (msg = retrieval_error e
                 \/ msg = "To compare, I need two property names."
                 \/ msg = "I couldn't identify the property name."
                 \/ msg = "Unknown intent: "
                          ++ match intent s with
                             | Some i => i
                             | None => "None"
                             end)).
Proof.
  intros Hload.
  assert (Hsingle : forall q, get_single_asset rt q = Raise e)
    by (intros q; unfold get_single_asset; now rewrite Hload).
  assert (Hcompare : forall a1 a2, compare_assets_by_price rt a1 a2 = Raise e)
    by (intros a1 a2; unfold compare_assets_by_price; now rewrite Hload).
  assert (Htotal : forall y m, compute_total_pnl rt y m = Raise e)
    by (intros y m; unfold compute_total_pnl; now rewrite Hload).
  assert (Hquery : forall filters action limit,
             query_data_flexible rt filters action limit = Raise e)
    by (intros f a l; unfold query_data_flexible; now rewrite Hload).
  repeat (split; [assumption|]).
  split.
  - destruct (get_assets_df_raises rt e Hload)
      as [(Hfile & ->)|(df & Hfile & Hmiss & ->)].
    + left. split; [exact Hfile | reflexivity].
    + right. exists df. split; [exact Hfile|]. split; [exact Hmiss | reflexivity].
  - intros s s'. unfold retrieve_data, retrieve_body.
    destruct (intent_is s "price_comparison").
    { destruct (read_addresses (extracted_params s)) as [[|a1 [|a2 rest]]|];
        cbn [lift bind]; try discriminate;
        rewrite ?Hcompare; cbn [bind]; intros [= <-] _;
        (split; [reflexivity|]); eexists; (split; [reflexivity|]); tauto. }
    destruct (intent_is s "asset_details").
    { destruct (read_addresses (extracted_params s)) as [[|a1 rest]|];
        cbn [lift bind]; try discriminate;
        rewrite ?Hsingle; cbn [bind]; intros [= <-] _;
        (split; [reflexivity|]); eexists; (split; [reflexivity|]); tauto. }
    destruct (intent_is s "total_pnl").
    { destruct (read_year (extracted_params s)) as [y|]; cbn [lift bind];
        [|discriminate].
      destruct (read_month (extracted_params s)) as [m|]; cbn [lift bind];
        [|discriminate].
      rewrite Htotal. cbn [bind]. intros [= <-] _.
      split; [reflexivity|]. eexists. split; [reflexivity|]. tauto. }
    destruct (intent_is s "data_query").
    { destruct (read_year (extracted_params s)) as [y|]; [|discriminate].
      destruct (read_month (extracted_params s)) as [m|]; [|discriminate].
      destruct (read_filters (extracted_params s)) as [fs|]; [|discriminate].
      rewrite Hquery. cbn [bind]. intros [= <-] _.
      destruct (dict_has "filters" (extracted_params s));
        (split; [reflexivity|]); eexists; (split; [reflexivity|]); tauto. }
    destruct (intent_is s "general_qa"); [discriminate|].
    intros [= <-] _. split; [reflexivity|]. eexists. split; [reflexivity|].
    tauto.
Qed.

Lemma X12_dataset_failures_are_reported_witness :
  retrieve_data more_samples.rt_no_file
    (samples.state_with "total for 2025" "total_pnl"
       [("year", JInt 2025); ("month", JNull)])
  = Ok (set_error
          (samples.state_with "total for 2025" "total_pnl"
             [("year", JInt 2025); ("month", JNull)])
          "System Error: Dataset file not found at data/cortex.parquet")
  /\ compute_total_pnl more_samples.rt_no_file (Some 2025) None
     = Raise (Exn FileNotFoundError
                "Dataset file not found at data/cortex.parquet").
Proof.
  split; [reflexivity|].
  exact (proj1 (proj2 (proj2
           (X12_dataset_failures_are_reported
              more_samples.rt_no_file
              (Exn FileNotFoundError
                 "Dataset file not found at data/cortex.parquet")
              eq_refl))) (Some 2025) None).
Defined.

(** ** Addresses and the property filter *)

Lemma contains_nonempty (sub s : string) :
  sub <> EmptyString -> PyStr.contains sub s = true -> s <> EmptyString.
Proof.
  intros Hsub H ->. cbn in H. destruct sub; [now apply Hsub | discriminate H].
Qed.

Lemma reconcile_addresses_ok (q : string) (a f a' : json) :
  reconcile_addresses q a f = Ok a' ->
  (truthy a = true -> a' = a)
  /\ ((truthy a = true \/ a = JList []) ->
      truthy a' = true \/ a' = JList [])
  /\ (forall fs name,
        f = JObj fs ->
        dict_get "property_name" fs = Some (JStr name) ->
        PyStr.contains "Building" name = true ->
        truthy a' = true)
  /\ (truthy a = false ->
      truthy a' = true ->
      a' = JList (building_names (re_findall match_building q))
      \/ (re_findall match_building q = []
          /\ exists fs prop_name,
              f = JObj fs /\ dict_get "property_name" fs = Some prop_name
              /\ a' = JList [prop_name])).
Proof.
  unfold reconcile_addresses.
  destruct (truthy a) eqn:Ha.
  - intros [= <-]. split; [reflexivity|]. split; [tauto|].
    split; [intros; exact Ha | discriminate].
  - destruct f as [| | | | | |fs]; try discriminate.
    unfold get_or.
    destruct (dict_get "property_name" fs) as [prop|] eqn:Hp.
    + destruct (truthy prop) eqn:Ht.
      * destruct (building_in prop) as [found| |] eqn:Hb; cbn [bind];
          try discriminate.
        destruct found.
        -- destruct (re_findall match_building q) as [|b bs] eqn:Hf.
           ++ intros [= <-]. split; [discriminate|].
              split; [intros _; left; reflexivity|].
              split; [intros; reflexivity|].
              intros _ _. right. split; [reflexivity|].
              exists fs, prop. repeat split; assumption.
           ++ intros [= <-]. split; [discriminate|].
              split; [intros _; left; reflexivity|].
              split; [intros; reflexivity|].
              intros _ _. left. reflexivity.
        -- intros [= <-]. split; [discriminate|].
           split; [intros [H|H]; [discriminate H | right; exact H]|].
           split; [|intros _ H; congruence].
           intros fs' name [= <-] Hn Hc. rewrite Hp in Hn.
           injection Hn as ->. cbn in Hb. congruence.
      * intros [= <-]. split; [discriminate|].
        split; [intros [H|H]; [discriminate H | right; exact H]|].
        split; [|intros _ H; congruence].
        intros fs' name [= <-] Hn Hc. rewrite Hp in Hn. injection Hn as ->.
        cbn in Ht. apply negb_false_iff, String.eqb_eq in Ht. subst name.
        discriminate Hc.
    + cbn [truthy]. intros [= <-]. split; [discriminate|].
      split; [intros [H|H]; [discriminate H | right; exact H]|].
      split; [|intros _ H; congruence].
      intros fs' name [= <-] Hn _. rewrite Hp in Hn. discriminate Hn.
Qed.

(** X13.  What the extraction node guarantees about [addresses] for an
    intent other than [general_qa].  The stored record has the five keys;
    [addresses] is never null: it is the empty list or a value that
    counts as true; and whenever the filters name a property whose text
    contains [Building], [addresses] is not empty, so that the nodes that
    need an address find one.  Addresses the node had to add itself are
    all the buildings the question names, or else the property of the
    filter alone. *)
Theorem X13_addresses_follow_the_property_filter (rt : Runtime)
        (s s' : AgentState) :
  extract_params rt s = Ok s' ->
  intent_is s "general_qa" = false ->
  exists addresses year month filters action,
    extracted_params s'
    = params_record addresses year month filters action
    /\ (truthy addresses = true \/ addresses = JList [])
    /\ (forall fs name,
          filters = JObj fs ->
          dict_get "property_name" fs = Some (JStr name) ->
          PyStr.contains "Building" name = true ->
          truthy addresses = true)
    /\ (forall p content parsed,
          extract_system_prompt (strategy s) = Some p ->
          invoke rt p (user_query s) = LlmText content ->
          json_loads rt (clean_response content) = Loaded (JObj parsed) ->
          (truthy (get_or "addresses" JNull parsed) = true ->
           addresses = get_or "addresses" JNull parsed)
          /\ (truthy (get_or "addresses" JNull parsed) = false ->
              truthy addresses = true ->
              addresses
              = JList (building_names
                         (re_findall match_building (user_query s)))
              \/ (re_findall match_building (user_query s) = []
                  /\ exists fs prop_name,
                      filters = JObj fs
                      /\ dict_get "property_name" fs = Some prop_name
                      /\ addresses = JList [prop_name]))).
Proof.
  unfold extract_params, intent_is.
  destruct (match intent s with
            | Some i => String.eqb i "general_qa"
            | None => false
            end); [intros _ H; discriminate H|].
  destruct (extract_system_prompt (strategy s)) as [p|]; [|discriminate].
  destruct (String.eqb p EmptyString); [discriminate|].
  destruct (invoke rt p (user_query s)) as [e|content] eqn:Hllm;
    [discriminate|].
  destruct (parse_response rt content)
    as [[[[[[a y] m] f] act]|]|e|] eqn:Hparse; cbn [bind]; try discriminate.
  - destruct (reconcile_addresses (user_query s) a f) as [a'| |] eqn:Hrec;
      cbn [bind]; try discriminate.
    intros [= <-] _. exists a', y, m, f, act.
    destruct (reconcile_addresses_ok _ _ _ _ Hrec) as (Hsame & Hshape & Hprop & Hadded).
    split; [reflexivity|].
    split; [apply Hshape;
            exact (proj1 (parse_response_fields rt content _ _ _ _ _ Hparse))|].
    split; [exact Hprop|].
    intros p' content' parsed [= <-] Hinv Hjson.
    rewrite Hllm in Hinv. injection Hinv as <-.
    revert Hparse. unfold parse_response. rewrite Hjson.
    destruct (truthy (get_or "addresses" JNull parsed)) eqn:Ht;
      intros [= <- <- <- <- <-].
    + split; [intros _; now apply Hsame | discriminate].
    + split; [discriminate|]. intros _. now apply Hadded.
  - destruct (fallback_shape (user_query s))
      as (names & year & filters & action & Hfb & Hy & Hsc & Hrec).
    rewrite Hfb, Hrec. cbn [bind]. intros [= <-] _.
    exists (JList (building_names names)), year, JNull, (JObj filters),
      (JStr action).
    destruct (reconcile_addresses_ok _ _ _ _ Hrec) as (_ & Hshape & Hprop & _).
    split; [reflexivity|].
    split; [destruct names; [right | left]; reflexivity|].
    split; [exact Hprop|].
    intros p' content' parsed [= <-] Hinv Hjson.
    rewrite Hllm in Hinv. injection Hinv as <-. exfalso.
    revert Hparse. unfold parse_response. rewrite Hjson. discriminate.
Qed.

Lemma X13_addresses_follow_the_property_filter_witness :
  extract_params samples.rt_prose
    (samples.state_with "show Building 17" "asset_details" [])
  = Ok (set_extracted_params
          (samples.state_with "show Building 17" "asset_details" [])
          (params_record (JList [JStr "Building 17"]) JNull JNull
             (JObj [("property_name", JStr "Building 17")]) (JStr "show")))
  /\ exists addresses year month filters action,
      params_record (JList [JStr "Building 17"]) JNull JNull
        (JObj [("property_name", JStr "Building 17")]) (JStr "show")
      = params_record addresses year month filters action
      /\ (truthy addresses = true \/ addresses = JList []).
Proof.
  split; [reflexivity|].
  destruct (X13_addresses_follow_the_property_filter
              samples.rt_prose
              (samples.state_with "show Building 17" "asset_details" [])
              (set_extracted_params
                 (samples.state_with "show Building 17" "asset_details" [])
                 (params_record (JList [JStr "Building 17"]) JNull JNull
                    (JObj [("property_name", JStr "Building 17")])
                    (JStr "show")))
              eq_refl eq_refl)
    as (a & y & m & f & act & Hrec & Hshape & _).
  exists a, y, m, f, act. split; [exact Hrec | exact Hshape].
Defined.

(** ** The columns of the table of rows *)

Lemma mem_In (x : string) (xs : list string) : mem x xs = true <-> In x xs.
Proof.
  unfold mem. rewrite existsb_exists. split.
  - intros (y & Hy & He). apply String.eqb_eq in He. now subst.
  - intros H. exists x. split; [exact H | apply String.eqb_refl].
Qed.

Lemma mem_app (x : string) (xs ys : list string) :
  mem x (xs ++ ys) = mem x xs || mem x ys.
Proof. unfold mem. apply existsb_app. Qed.

(** the loop that appends the keys not yet displayed *)
Lemma append_missing (keys : list string) :
  NoDup keys ->
  forall acc,
    fold_left (fun acc col => if mem col acc then acc else (acc ++ [col])%list)
              keys acc
    = (acc ++ filter (fun col => negb (mem col acc)) keys)%list.
Proof.
  induction 1 as [|k ks Hk Hks IH]; intros acc; cbn [fold_left filter].
  - now rewrite app_nil_r.
  - destruct (mem k acc) eqn:E; cbn [negb].
    + apply IH.
    + rewrite IH, <- app_assoc. cbn [app]. do 2 f_equal.
      apply filter_ext_in. intros c Hc. rewrite mem_app. cbn [mem existsb].
      destruct (String.eqb_spec c k) as [->|_]; [contradiction|].
      now rewrite !orb_false_r.
Qed.

(** X14.  The header of the table of rows.  When the iteration over the
    set of keys gives the keys of the rows, each once, the columns
    displayed are the important columns that occur among the keys, in
    their fixed order, followed by the other keys in the order of the
    iteration; a column is displayed exactly when it is a key of some
    row, and no column is displayed twice. *)
Theorem X14_table_columns (rt : Runtime) (rows : list (dict cell)) :
  let keys := List.concat (map (map fst) rows) in
  let all_keys := set_iter rt keys in
  NoDup all_keys ->
  (forall key, In key all_keys <-> In key keys) ->
  display_columns rt rows
  = (filter (fun col => mem col all_keys) IMPORTANT_COLS
       ++ filter (fun col => negb (mem col IMPORTANT_COLS)) all_keys)%list
  /\ NoDup (display_columns rt rows)
  /\ (forall col,
        In col (display_columns rt rows)
        <-> exists row, In row rows /\ In col (map fst row)).
Proof.
  intros keys all_keys Hnodup Hsame.
  assert (Heq : display_columns rt rows
                = (filter (fun col => mem col all_keys) IMPORTANT_COLS
                     ++ filter (fun col => negb (mem col IMPORTANT_COLS))
                               all_keys)%list).
  { unfold display_columns. fold keys. fold all_keys.
    rewrite (append_missing all_keys Hnodup). f_equal.
    apply filter_ext_in. intros c Hc. f_equal.
    apply eq_true_iff_eq. rewrite !mem_In, filter_In, mem_In. tauto. }
  split; [exact Heq|]. rewrite Heq. split.
  - apply NoDup_app.
    + apply NoDup_filter.
      repeat (constructor; [cbn; intuition discriminate|]). constructor.
    + now apply NoDup_filter.
    + intros c Hc1 Hc2. apply filter_In in Hc1, Hc2.
      destruct Hc1 as [Himp _]. destruct Hc2 as [_ Hnot].
      apply mem_In in Himp. rewrite Himp in Hnot. discriminate Hnot.
  - intros c.
    assert (Hkeys : In c keys
                    <-> exists row, In row rows /\ In c (map fst row)).
    { unfold keys. rewrite in_concat. split.
      - intros (l & Hl & Hc). apply in_map_iff in Hl.
        destruct Hl as (row & <- & Hrow). exists row. split; assumption.
      - intros (row & Hrow & Hc). exists (map fst row).
        split; [now apply in_map | exact Hc]. }
    rewrite <- Hkeys, <- Hsame.
    rewrite in_app_iff, !filter_In, mem_In, negb_true_iff.
    destruct (mem c IMPORTANT_COLS) eqn:E.
    + apply mem_In in E. intuition discriminate.
    + split; [tauto|]. intros H. right. tauto.
Qed.

Lemma X14_table_columns_witness :
  display_columns more_samples.rt_sets more_samples.two_dicts
  = ["month"; "profit"; "zone"; "floor"]
  /\ (In "floor" (display_columns more_samples.rt_sets more_samples.two_dicts)
      <-> exists row,
          In row more_samples.two_dicts /\ In "floor" (map fst row)).
Proof.
  destruct (X14_table_columns more_samples.rt_sets more_samples.two_dicts)
    as (Heq & _ & Hin).
  - repeat (constructor; [cbn; intuition discriminate|]). constructor.
  - intros key. cbn. intuition congruence.
  - split; [rewrite Heq; reflexivity | exact (Hin "floor")].
Defined.

(** ** The page *)

Import streamlit_app.

Lemma rstrip_idempotent (s : string) :
  PyStr.rstrip (PyStr.rstrip s) = PyStr.rstrip s.
Proof.
  induction s as [|c t IH]; [reflexivity|].
  cbn [PyStr.rstrip]. destruct (PyStr.rstrip t) as [|c' t'] eqn:E.
  - destruct (PyStr.is_space c) eqn:Ec; [reflexivity|].
    cbn [PyStr.rstrip]. now rewrite Ec.
  - cbn [PyStr.rstrip]. cbn [PyStr.rstrip] in IH.
    fold PyStr.rstrip in *. rewrite IH. reflexivity.
Qed.

Lemma lstrip_head (s : string) :
  PyStr.lstrip s = EmptyString
  \/ exists c t, PyStr.lstrip s = String c t /\ PyStr.is_space c = false.
Proof.
  induction s as [|c t IH]; [left; reflexivity|].
  cbn [PyStr.lstrip]. destruct (PyStr.is_space c) eqn:E; [exact IH|].
  right. exists c, t. split; [reflexivity | exact E].
Qed.

Lemma rstrip_head (c : ascii) (t : string) :
  PyStr.is_space c = false ->
  exists t', PyStr.rstrip (String c t) = String c t'.
Proof.
  intros E. cbn [PyStr.rstrip]. destruct (PyStr.rstrip t).
  - rewrite E. eexists; reflexivity.
  - eexists; reflexivity.
Qed.

Lemma strip_idempotent (s : string) :
  PyStr.strip (PyStr.strip s) = PyStr.strip s.
Proof.
  unfold PyStr.strip.
  destruct (lstrip_head s) as [-> | (c & t & -> & Hc)]; [reflexivity|].
  destruct (rstrip_head c t Hc) as (t' & Ht).
  rewrite Ht at 1. cbn [PyStr.lstrip]. rewrite Hc. rewrite <- Ht.
  apply rstrip_idempotent.
Qed.

Lemma run_agent_stripped (rt : Runtime) (query : string)
      (strategy_config : StrategyConfig) :
  run_agent rt (PyStr.strip query) strategy_config
  = run_agent rt query strategy_config.
Proof.
  unfold run_agent, initial_state. now rewrite strip_idempotent.
Qed.

Lemma empty_answer_is_general (rt : Runtime) (query : string)
      (strategy_config : StrategyConfig) (trace : list string)
      (dbg : debug_state) :
  run_agent rt query strategy_config = Ok (trace, (EmptyString, dbg)) ->
  dbg_intent dbg = Some "general_qa" /\ dbg_error dbg = None.
Proof.
  unfold run_agent.
  destruct (build_llm_from_strategy rt strategy_config) as [built| |];
    cbn [bind]; try discriminate.
  unfold app_invoke. rewrite run_pipeline.
  set (s0 := initial_state query strategy_config).
  destruct (detect_intent rt s0) as [s1| |] eqn:H1; cbn [bind]; try discriminate.
  destruct (extract_params rt s1) as [s2| |] eqn:H2; cbn [bind]; try discriminate.
  destruct (retrieve_data rt s2) as [s3| |] eqn:H3; cbn [bind]; try discriminate.
  destruct (detect_intent_ok rt s0 s1 H1) as (label & -> & Hv).
  destruct (extract_params_ok rt _ s2 H2) as (params & ->).
  destruct (retrieve_data_ok rt
              (set_extracted_params (set_intent s0 (Some label)) params)
              s3 label eq_refl Hv H3)
    as (Hi3 & Ha3 & Hs3 & Hq3 & Hcases).
  cbn in Ha3.
  destruct (text_set (error s3)) eqn:He.
  - destruct Hcases as [(msg & Hmsg & Hne)|(Herr & _)];
      [| rewrite Herr in He; discriminate He ].
    rewrite (end_with_error_ok s3 msg Hmsg Hne Ha3). cbn [bind fst snd].
    intros [= _ Hans _]. exfalso. apply Hne.
    rewrite <- Hans. symmetry. apply final_answer_of; [reflexivity | now left].
  - destruct Hcases as [(msg & Hmsg & Hne)|(Herr & Hpay)].
    { rewrite Hmsg in He. cbn in He. apply String.eqb_neq in Hne.
      rewrite Hne in He. discriminate He. }
    destruct (compute_answer rt s3) as [final| |] eqn:H4; cbn [bind];
      try discriminate.
    destruct (compute_answer_ok rt s3 final label Hi3 Hv He Hpay H4)
      as (Hef & Hif & a & Haf & Hempty).
    cbn [fst snd]. intros [= _ Hans <-]. cbn [dbg_intent dbg_error].
    assert (Hf : final_answer final = a).
    { apply final_answer_of; [exact Haf | right; now rewrite Hef]. }
    rewrite Hf in Hans. destruct (Hempty Hans) as (-> & _).
    split; [now rewrite Hif, Hi3|]. rewrite Hef, Herr. reflexivity.
Qed.

(** X15.  What the page shows when the button is pressed.  A question
    that is empty or white space gives the warning and nothing else, and
    the agent is not run; otherwise the agent runs on the question as
    [run_agent] itself would read it.  An exception of the run is shown
    as an error with its text; a run that returns is shown as a success
    with an answer that is never empty: [Answer is empty.] stands for an
    empty answer, which only the intent [general_qa] without error can
    give. *)
Theorem X15_what_the_page_shows (rt : Runtime) (user_question : string)
        (selected_config : StrategyConfig) (widgets : list widget) :
  run_agent_clicked rt user_question selected_config = Ok widgets ->
  (PyStr.strip user_question = EmptyString
   <-> widgets = [ st_warning "Enter a query to run the agent." ])
  /\ (forall body,
        In (st_error body) widgets ->
        exists e,
          run_agent rt user_question selected_config = Raise e
          /\ widgets
             = [ st_error ("Error while running the agent: " ++ exn_str e) ])
  /\ (forall body,
        In (st_write body) widgets ->
        body <> EmptyString
        /\ exists trace answer dbg,
            run_agent rt user_question selected_config
            = Ok (trace, (answer, dbg))
            /\ widgets = [ st_success "Agent finished running.";
                           st_subheader "Answer";
                           st_write body;
                           st_json dbg ]
            /\ (answer <> EmptyString -> body = answer)
            /\ (answer = EmptyString ->
                body = "Answer is empty."
                /\ dbg_intent dbg = Some "general_qa"
                /\ dbg_error dbg = None)).
Proof.
  unfold run_agent_clicked, build_user_query.
  rewrite run_agent_stripped.
  destruct (String.eqb_spec (PyStr.strip user_question) EmptyString)
    as [Hempty|Hfull].
  - intros [= <-]. split; [tauto|].
    split; intros body [H|[]]; discriminate H.
  - destruct (run_agent rt user_question selected_config)
      as [[trace [answer dbg]]|e|] eqn:Hrun; try discriminate.
    + intros [= <-]. split; [split; [contradiction | discriminate]|].
      split.
      * intros body Hin. cbn in Hin.
        repeat destruct Hin as [Hin|Hin]; try discriminate Hin; destruct Hin.
      * intros body Hin. cbn in Hin.
        destruct Hin as [Hin|[Hin|[Hin|[Hin|[]]]]]; try discriminate Hin.
        injection Hin as <-. unfold displayed.
        destruct (String.eqb_spec answer EmptyString) as [->|Hne].
        -- split; [discriminate|]. exists trace, EmptyString, dbg.
           split; [reflexivity|]. split; [reflexivity|].
           split; [contradiction|]. intros _. split; [reflexivity|].
           exact (empty_answer_is_general rt _ _ _ _ Hrun).
        -- split; [exact Hne|]. exists trace, answer, dbg.
           split; [reflexivity|]. split; [reflexivity|].
           split; [reflexivity | contradiction].
    + intros [= <-]. split; [split; [contradiction | discriminate]|].
      split.
      * intros body [Hin|[]]. exists e. split; reflexivity.
      * intros body [Hin|[]]. discriminate Hin.
Qed.

Lemma X15_what_the_page_shows_witness :
  run_agent_clicked samples.rt_silent "  hello " samples.config
  = Ok [ st_success "Agent finished running.";
         st_subheader "Answer";
         st_write "Answer is empty.";
         st_json {| dbg_intent := Some "general_qa";
                    dbg_extracted_params :=
                      [ ("addresses", JList []); ("year", JNull);
                        ("month", JNull) ];
                    dbg_retrieved_data := [("general_qa", PEmpty)];
                    dbg_error := None |} ]
  /\ PyStr.strip "  hello " <> EmptyString.
Proof.
  split; [reflexivity|].
  destruct (X15_what_the_page_shows
              samples.rt_silent "  hello " samples.config _ eq_refl)
    as (Hwarn & _).
  intros H. apply Hwarn in H. discriminate H.
Defined.

(** ** The upload of a dataset *)

(** X16.  What an upload changes.  The cache of the table is cleared
    exactly when the upload returns, and then the file of the dataset
    holds the uploaded bytes (a parquet file) or the parquet bytes of the
    table read (a text file); the number returned is the length of the
    table as read, whatever its columns.  An upload that is rejected
    leaves the cache as it was; it leaves the file as it was too, except
    for a parquet file that does not read, whose bytes have replaced the
    file before the reading failed. *)
Theorem X16_upload_and_cache {frame : Type} (pf : Platform frame)
        (uploaded_file : option UploadedFile) (w w' : World)
        (outcome : result (Z * string)) :
  persist_uploaded_dataset pf uploaded_file w = (w', outcome) ->
  (forall count fmt,
      outcome = Ok (count, fmt) ->
      cached w' = false
      /\ exists file df,
          uploaded_file = Some file
          /\ count = len pf df
          /\ ((fmt = "parquet"
               /\ read_parquet pf (getvalue file) = Ok df
               /\ data_path w' = Some (getvalue file))
              \/ (fmt = FMT_CSV
                  /\ read_csv pf file = Ok df
                  /\ data_path w' = Some (to_parquet pf df))))
  /\ (forall e,
        outcome = Raise e ->
        cached w' = cached w
        /\ (data_path w' = data_path w
            \/ exists file,
                uploaded_file = Some file
                /\ read_parquet pf (getvalue file) = Raise e
                /\ data_path w' = Some (getvalue file)))
  /\ (uploaded_file = None ->
      outcome = Raise (Exn ValueError "File is not uploaded.") /\ w' = w).
Proof.
  unfold persist_uploaded_dataset.
  destruct uploaded_file as [file|].
  - destruct (mem (PyStr.lower (path_suffix pf (name file)))
                  [".parquet"; ".pq"]).
    + destruct (read_parquet pf (getvalue file)) as [df|e|] eqn:E;
        intros [= <- <-]; (split; [|split]); try discriminate.
      * intros count fmt [= <- <-]. split; [reflexivity|].
        exists file, df. split; [reflexivity|]. split; [reflexivity|].
        left. repeat split; assumption || reflexivity.
      * intros e' [= <-]. split; [reflexivity|]. right.
        exists file. repeat split; assumption || reflexivity.
    + destruct (mem (PyStr.lower (path_suffix pf (name file)))
                    [".csv"; ".txt"]).
      * destruct (read_csv pf file) as [df|e|] eqn:E;
          intros [= <- <-]; (split; [|split]); try discriminate.
        -- intros count fmt [= <- <-]. split; [reflexivity|].
           exists file, df. split; [reflexivity|]. split; [reflexivity|].
           right. repeat split; assumption || reflexivity.
        -- intros e' [= <-]. split; [reflexivity|]. left. reflexivity.
      * intros [= <- <-]. (split; [|split]); try discriminate.
        intros e' [= <-]. split; [reflexivity|]. left. reflexivity.
  - intros [= <- <-]. (split; [|split]); try discriminate.
    + intros e' [= <-]. split; [reflexivity|]. left. reflexivity.
    + intros _. split; reflexivity.
Qed.

Lemma X16_upload_and_cache_witness :
  persist_uploaded_dataset more_samples.platform
    (Some more_samples.broken_upload) more_samples.loaded_world
  = ({| data_path := Some "not a parquet file"; cached := true |},
     Raise (Exn ValueError "Parquet magic bytes not found."))
  /\ fst (persist_uploaded_dataset more_samples.platform
            (Some more_samples.csv_upload) more_samples.loaded_world)
     = {| data_path :=
            Some ("PAR1property_name,profit" ++ nl ++ "Building 17,5");
          cached := false |}
  /\ cached {| data_path := Some "not a parquet file"; cached := true |}
     = cached more_samples.loaded_world.
Proof.
  split; [reflexivity|]. split; [reflexivity|].
  exact (proj1 (proj1 (proj2
           (X16_upload_and_cache more_samples.platform
              (Some more_samples.broken_upload) more_samples.loaded_world
              _ _ eq_refl))
           (Exn ValueError "Parquet magic bytes not found.") eq_refl)).
Defined.

(** ** A month given as text *)

Lemma dict_get_set {V : Type} (k : string) (v : V) (d : dict V) :
  dict_get k (dict_set k v d) = Some v.
Proof.
  induction d as [|[k' v'] d IH]; cbn [dict_set dict_get].
  - now rewrite String.eqb_refl.
  - destruct (String.eqb k k') eqn:E; cbn [dict_get].
    + now rewrite String.eqb_refl.
    + now rewrite E.
Qed.

Lemma dict_has_set_other {V : Type} (k k' : string) (v : V) (d : dict V) :
  String.eqb k k' = false ->
  dict_has k (dict_set k' v d) = dict_has k d.
Proof.
  intros Hk. unfold dict_has.
  induction d as [|[k0 v0] d IH]; cbn [dict_set dict_get].
  - now rewrite Hk.
  - destruct (String.eqb k' k0) eqn:E; cbn [dict_get].
    + apply String.eqb_eq in E. subst k0. now rewrite Hk.
    + destruct (String.eqb k k0); [reflexivity | exact IH].
Qed.

(** X17.  A month that the extraction gives as a text, not a number.
    For the total, on a table that loads, it is always refused with a
    [ValueError], whatever the table holds: the one that asks for the
    year when there is none, else Python's own message about the format
    code, and the retrieval node hands that message to the user.  For a
    flexible query the same text is taken as it is as the filter on
    [month], when the filters have none. *)
Theorem X17_text_month (rt : Runtime) (df : DataFrame) (y : option Z)
        (text : string) :
  get_assets_df rt = Ok df ->
  let message :=
    match y with
    | None => MONTH_NEEDS_YEAR
    | Some _ => "Unknown format code 'd' for object of type 'str'"
    end in
  compute_total_pnl rt y (Some (MonthStr text))
  = Raise (Exn ValueError message)
  /\ (forall state,
        intent state = Some "total_pnl" ->
        read_year (extracted_params state) = Some y ->
        read_month (extracted_params state) = Some (Some (MonthStr text)) ->
        retrieve_data rt state = Ok (set_error state message))
  /\ (forall filters,
        dict_has "month" filters = false ->
        dict_get "month" (add_period y (Some (MonthStr text)) filters)
        = Some (JStr text)).
Proof.
  intros Hload message.
  assert (Htotal : compute_total_pnl rt y (Some (MonthStr text))
                   = Raise (Exn ValueError message)).
  { unfold compute_total_pnl, pnl_subset. rewrite Hload. cbn [bind].
    subst message. destruct y; reflexivity. }
  split; [exact Htotal|]. split.
  - intros state Hi Hy Hm. unfold retrieve_data, retrieve_body, intent_is.
    rewrite Hi. cbn [String.eqb Ascii.eqb Bool.eqb].
    rewrite Hy, Hm. cbn [lift bind]. rewrite Htotal.
    cbn [bind]. subst message. destruct y; reflexivity.
  - intros filters Hno. unfold add_period.
    assert (Hkeep : dict_has "month"
                      (match y with
                       | Some y0 =>
                           if negb (dict_has "year" filters)
                           then dict_set "year" (JInt y0) filters
                           else filters
                       | None => filters
                       end) = false).
    { destruct y as [y0|]; [|exact Hno].
      destruct (negb (dict_has "year" filters)); [|exact Hno].
      rewrite dict_has_set_other; [exact Hno | reflexivity]. }
    rewrite Hkeep. cbn [negb]. apply dict_get_set.
Qed.

Lemma X17_text_month_witness :
  retrieve_data samples.rt_plain
    (samples.state_with "total for January 2025" "total_pnl"
       [("year", JInt 2025); ("month", JStr "January")])
  = Ok (set_error
          (samples.state_with "total for January 2025" "total_pnl"
             [("year", JInt 2025); ("month", JStr "January")])
          "Unknown format code 'd' for object of type 'str'").
Proof.
  exact (proj1 (proj2
           (X17_text_month samples.rt_plain samples.two_buildings
              (Some 2025) "January" eq_refl))
           (samples.state_with "total for January 2025" "total_pnl"
              [("year", JInt 2025); ("month", JStr "January")])
           eq_refl eq_refl eq_refl).
Defined.

(** ** The filters of a flexible query are updated in place *)

Lemma dict_get_set_other {V : Type} (k k' : string) (v : V) (d : dict V) :
  String.eqb k k' = false ->
  dict_get k (dict_set k' v d) = dict_get k d.
Proof.
  intros Hk.
  induction d as [|[k0 v0] d IH]; cbn [dict_set dict_get].
  - now rewrite Hk.
  - destruct (String.eqb k' k0) eqn:E; cbn [dict_get].
    + apply String.eqb_eq in E. subst k0. now rewrite Hk.
    + destruct (String.eqb k k0); [reflexivity | exact IH].
Qed.

Lemma dict_has_set {V : Type} (k : string) (v : V) (d : dict V) :
  dict_has k (dict_set k v d) = true.
Proof. unfold dict_has. now rewrite dict_get_set. Qed.

Lemma query_data_flexible_filters (rt : Runtime) (filters : option (dict json))
      (action : json) (limit : Z) (q : query_result) :
  query_data_flexible rt filters action limit = Ok q ->
  q_filters q = filters.
Proof.
  unfold query_data_flexible.
  destruct (get_assets_df rt) as [df| |]; cbn [bind]; try discriminate.
  destruct (match filters with
            | Some fs => apply_filters rt (columns df) fs (rows df)
            | None => Ok (rows df)
            end) as [[|r subset]| |]; cbn [bind]; try discriminate.
  - intros [= <-]. reflexivity.
  - destruct (is_action action "show"); [intros [= <-]; reflexivity|].
    destruct (is_action action "aggregate"); [intros [= <-]; reflexivity|].
    destruct (is_action action "count"); intros [= <-]; reflexivity.
Qed.

Lemma add_period_has (y : option Z) (m : option month_arg)
      (filters : dict json) :
  (y <> None -> dict_has "year" (add_period y m filters) = true)
  /\ (m <> None -> dict_has "month" (add_period y m filters) = true).
Proof.
  unfold add_period.
  set (with_year := match y with
                    | Some y0 =>
                        if negb (dict_has "year" filters)
                        then dict_set "year" (JInt y0) filters
                        else filters
                    | None => filters
                    end).
  assert (Hyear : y <> None -> dict_has "year" with_year = true).
  { subst with_year. destruct y as [y0|]; [intros _ | intros H; now elim H].
    destruct (dict_has "year" filters) eqn:E; cbn [negb];
      [exact E | apply dict_has_set]. }
  split.
  - intros Hy. specialize (Hyear Hy). destruct m as [[z|t]|]; [| |exact Hyear];
      (destruct (dict_has "month" with_year); cbn [negb]; [exact Hyear|]);
      (rewrite dict_has_set_other; [exact Hyear | reflexivity]).
  - intros Hm. destruct m as [[z|t]|]; [| |now elim Hm];
      (destruct (dict_has "month" with_year) eqn:E; cbn [negb];
       [exact E | apply dict_has_set]).
Qed.

(** X18.  The retrieval node of a flexible query changes the filters of
    the extraction in place.  When the extracted parameters have the key
    [filters], the state returned holds under that key the filters with
    the year and the month added, which are also the filters the result
    of the query reports, and no other parameter changes; when the key is
    absent the parameters stay as they were, though the query still ran
    with the year and the month added.  Adding them a second time
    changes nothing. *)
Theorem X18_filters_updated_in_place (rt : Runtime) (state state' : AgentState)
        (y : option Z) (m : option month_arg) (filters : dict json) :
  intent state = Some "data_query" ->
  read_year (extracted_params state) = Some y ->
  read_month (extracted_params state) = Some m ->
  read_filters (extracted_params state) = Some filters ->
  retrieve_data rt state = Ok state' ->
  (dict_has "filters" (extracted_params state) = true ->
   extracted_params state'
   = dict_set "filters" (JObj (add_period y m filters))
              (extracted_params state)
   /\ read_filters (extracted_params state') = Some (add_period y m filters)
   /\ forall k, String.eqb k "filters" = false ->
                dict_get k (extracted_params state')
                = dict_get k (extracted_params state))
  /\ (dict_has "filters" (extracted_params state) = false ->
      extracted_params state' = extracted_params state)
  /\ ((exists q,
          retrieved_data state' = [("data_query", PQuery q)]
          /\ q_filters q = Some (add_period y m filters))
      \/ (exists msg,
             error state' = Some msg
             /\ retrieved_data state' = retrieved_data state))
  /\ add_period y m (add_period y m filters) = add_period y m filters.
Proof.
  intros Hi Hy Hm Hf. unfold retrieve_data, retrieve_body, intent_is.
  rewrite Hi. cbn [String.eqb Ascii.eqb Bool.eqb]. rewrite Hy, Hm, Hf.
  set (added := add_period y m filters).
  intros Hrun.
  assert (Hidem : add_period y m added = added).
  { destruct (add_period_has y m filters) as [Hyear Hmonth]. fold added in Hyear, Hmonth.
    unfold add_period at 1.
    assert (Hy1 : match y with
                  | Some y0 =>
                      if negb (dict_has "year" added)
                      then dict_set "year" (JInt y0) added
                      else added
                  | None => added
                  end = added).
    { destruct y as [y0|]; [|reflexivity].
      rewrite Hyear by discriminate. reflexivity. }
    rewrite Hy1. destruct m as [m0|]; [|reflexivity].
    rewrite Hmonth by discriminate. reflexivity. }
  destruct (query_data_flexible rt (Some added)
              (get_or "action" (JStr "show") (extracted_params state)) 200)
    as [q| |] eqn:Hq; cbn [bind] in Hrun; try discriminate Hrun;
    injection Hrun as <-;
    destruct (dict_has "filters" (extracted_params state)) eqn:Hhas; cbn.
  - split; [intros _|split; [discriminate|split; [|exact Hidem]]].
    + split; [reflexivity|]. split.
      * unfold read_filters, get_or. now rewrite dict_get_set.
      * intros k Hk. now apply dict_get_set_other.
    + left. exists q. split; [reflexivity|].
      exact (query_data_flexible_filters _ _ _ _ _ Hq).
  - split; [discriminate|]. split; [reflexivity|]. split; [|exact Hidem].
    left. exists q. split; [reflexivity|].
    exact (query_data_flexible_filters _ _ _ _ _ Hq).
  - split; [intros _|split; [discriminate|split; [|exact Hidem]]].
    + split; [reflexivity|]. split.
      * unfold read_filters, get_or. now rewrite dict_get_set.
      * intros k Hk. now apply dict_get_set_other.
    + right. eexists. split; reflexivity.
  - split; [discriminate|]. split; [reflexivity|]. split; [|exact Hidem].
    right. eexists. split; reflexivity.
Qed.

Lemma X18_filters_updated_in_place_witness :
  exists state',
    retrieve_data samples.rt_plain
      (samples.state_with "show 2025" "data_query"
         [("year", JInt 2025); ("filters", JObj []); ("action", JStr "show")])
    = Ok state'
    /\ extracted_params state'
       = [("year", JInt 2025); ("filters", JObj [("year", JInt 2025)]);
          ("action", JStr "show")].
Proof.
  pose (state := samples.state_with "show 2025" "data_query"
                   [("year", JInt 2025); ("filters", JObj []);
                    ("action", JStr "show")]).
  exists (statements.returned state (retrieve_data samples.rt_plain state)).
  split; [reflexivity|].
  exact (proj1 (proj1 (X18_filters_updated_in_place
                         samples.rt_plain state
                         (statements.returned state
                            (retrieve_data samples.rt_plain state))
                         (Some 2025) None [] eq_refl eq_refl eq_refl eq_refl
                         eq_refl) eq_refl)).
Defined.

(** ** The rows a query shows *)

(** X19.  The rows of a [show] query, as the retrieval node asks for
    them (limit 200) and as the answer lists them.  When rows match, the
    result carries the first 200 of them at most; the answer announces
    that number and the number of matches, draws a table of a header, a
    separator and one line for each row carried, and ends the table with
    the line that tells how many rows were left out exactly when more
    than 200 match. *)
Theorem X19_rows_shown (rt : Runtime) (filters : option (dict json))
        (q : query_result) :
  query_data_flexible rt filters (JStr "show") 200 = Ok q ->
  q_status q <> "no_data" ->
  exists rows,
    q_rows q = Some rows
    /\ (1 <= q_count q)%Z
    /\ Z.of_nat (List.length rows) = Z.min 200 (q_count q)
    /\ List.length (table_lines rt rows) = (2 + List.length rows)%nat
    /\ rows_part rt q
       = (rows_title (Z.min 200 (q_count q)) (q_count q)
            :: table_lines rt rows
            ++ (if (200 <? q_count q)%Z
                then [ more_rows 200 (q_count q) ]
                else []))%list.
Proof.
  remember 200%Z as limit eqn:Hlimit.
  unfold query_data_flexible.
  destruct (get_assets_df rt) as [df| |]; cbn [bind]; try discriminate.
  destruct (match filters with
            | Some fs => apply_filters rt (columns df) fs (rows df)
            | None => Ok (rows df)
            end) as [[|r subset]| |]; cbn [bind]; try discriminate.
  - intros [= <-] H. now elim H.
  - remember (r :: subset) as kept eqn:Hkept.
    change (is_action (JStr "show") "show") with true. cbv iota.
    intros [= <-] _.
    assert (Hhead : head limit kept = firstn 200 kept)
      by (subst limit; reflexivity).
    assert (Hlen : Z.of_nat (List.length (firstn 200 kept))
                   = Z.min limit (Z.of_nat (List.length kept))).
    { rewrite length_firstn. lia. }
    exists (map (row_to_dict (columns df)) (head limit kept)).
    unfold rows_part.
    cbv beta iota delta [q_rows q_count q_showing q_total_rows default_Z].
    split; [reflexivity|].
    split; [subst kept; cbn [List.length]; lia|].
    split; [rewrite length_map, Hhead; exact Hlen|].
    split.
    + rewrite Hhead. subst kept. cbn [firstn map table_lines List.length].
      now rewrite length_map.
    + rewrite Hhead, Hlen. f_equal. f_equal.
      destruct (Z.ltb_spec limit (Z.of_nat (List.length kept))) as [Hmore|Hfew].
      * rewrite Z.min_l by lia.
        destruct (Z.ltb_spec limit (Z.of_nat (List.length kept))); [|lia].
        reflexivity.
      * rewrite Z.min_r by lia. now rewrite Z.ltb_irrefl.
Qed.

Lemma X19_rows_shown_witness :
  exists q,
    query_data_flexible samples.rt_plain None (JStr "show") 200 = Ok q
    /\ q_count q = 2%Z
    /\ exists rows, q_rows q = Some rows /\ List.length rows = 2%nat.
Proof.
  pose (q := statements.returned
               {| q_status := EmptyString; q_message := None;
                  q_filters := None; q_count := 0; q_total_profit := None;
                  q_rows := None; q_showing := None; q_total_rows := None;
                  q_aggregations := None; q_counts := None |}
               (query_data_flexible samples.rt_plain None (JStr "show") 200)).
  exists q. split; [reflexivity|]. split; [reflexivity|].
  destruct (X19_rows_shown samples.rt_plain None q eq_refl)
    as (rows & Hrows & _ & Hlen & _); [discriminate|].
  exists rows. split; [exact Hrows|].
  apply Nat2Z.inj. rewrite Hlen. reflexivity.
Defined.
